(** * fits-hilltop: decoding Hilltop XML measurements into FITS observations

    A shallow embedding of the Go program (package [main]): the value
    extractor [HilltopMeasurement.Values], the observation assembler
    [Hilltop.Observations] and the file decoder [DecodeHilltopFile],
    together with the parts of the Go standard library they call
    ([strings.TrimLeft], [strings.Split], [fmt.Sprintf], [time.Parse],
    [Time.UTC]); package [time] is followed as of Go 1.20 (format.go,
    time.go).  [strconv.ParseFloat], [os.Open] and the XML decoder are
    parameters of the development.

    Go strings are byte sequences: they are modelled as [string], whose
    characters are the 256 byte values.  Go's [int], [int64] and [uint64]
    are modelled as [Z], with the wrap-around of the 64-bit operations
    written out where the library relies on it. *)

From Stdlib Require Import ZArith Ascii String List Lia Bool.
From stdpp Require Import gmap strings.

Local Open Scope Z_scope.

(** ** Results of fallible library calls *)

(** A Go call returning [(T, error)] whose value is meaningless when the
    error is set. *)
Inductive result (A E : Type) : Type :=
| Ok (a : A)
| Err (e : E).
Arguments Ok {A E} a.
Arguments Err {A E} e.

(** ** Package strings *)

Module strings.

(** [trimLeftByte]: drop the leading bytes equal to [c]. *)
Fixpoint trimLeftByte (s : string) (c : ascii) : string :=
  match s with
  | String a s' => if Ascii.eqb a c then trimLeftByte s' c else s
  | EmptyString => s
  end.

Fixpoint containsByte (cutset : string) (a : ascii) : bool :=
  match cutset with
  | String c cs => Ascii.eqb a c || containsByte cs a
  | EmptyString => false
  end.

Fixpoint trimLeftSet (s cutset : string) : string :=
  match s with
  | String a s' => if containsByte cutset a then trimLeftSet s' cutset else s
  | EmptyString => s
  end.

(** [strings.TrimLeft(s, cutset)]: a one-byte cutset takes the
    [trimLeftByte] path, as in the library; other cutsets are handled
    bytewise, which is what the library does for ASCII cutsets. *)
Definition TrimLeft (s cutset : string) : string :=
  match cutset with
  | EmptyString => s
  | String c EmptyString => trimLeftByte s c
  | _ => trimLeftSet s cutset
  end.

Fixpoint HasPrefix (s prefix : string) {struct prefix} : bool :=
  match prefix, s with
  | EmptyString, _ => true
  | String p ps, String a s' => Ascii.eqb a p && HasPrefix s' ps
  | String _ _, EmptyString => false
  end.

(** The slice of pieces of [s] between the occurrences of a non-empty
    separator: [skip] counts the bytes of a separator still to be
    passed over. *)
Fixpoint genSplit (sep : string) (skip : nat) (s : string) : list string :=
  match s with
  | EmptyString => [EmptyString]
  | String a s' =>
      match skip with
      | S k => genSplit sep k s'
      | O =>
          if HasPrefix s sep
          then EmptyString :: genSplit sep (Nat.pred (String.length sep)) s'
          else match genSplit sep O s' with
               | p :: ps => String a p :: ps
               | [] => [String a EmptyString]
               end
      end
  end.

Fixpoint explode (s : string) : list string :=
  match s with
  | EmptyString => []
  | String a s' => String a EmptyString :: explode s'
  end.

(** [strings.Split(s, sep)]. *)
Definition Split (s sep : string) : list string :=
  match sep with
  | EmptyString => explode s
  | _ => genSplit sep O s
  end.

End strings.

(** [fmt.Sprintf("%s %s", a, b)] *)
Definition Sprintf_s_s (a b : string) : string := a +:+ " " +:+ b.

(** ** Package time *)

Module time.

(** *** 64-bit arithmetic *)

Definition uint64 (z : Z) : Z := z mod 2 ^ 64.
Definition int64 (z : Z) : Z := (z + 2 ^ 63) mod 2 ^ 64 - 2 ^ 63.

(** *** Locations and instants *)

Definition alpha : Z := - 2 ^ 63.
Definition omega : Z := 2 ^ 63 - 1.

(** A [*time.Location]: its name and its [zoneLookup], which gives for an
    instant (seconds since the Unix epoch) the offset in seconds east of
    UTC in force then and the interval [start, end) over which that
    offset is in force. *)
Record Location : Type := {
  zoneName : string;
  zoneLookup : Z -> Z * Z * Z
}.

Definition UTC : Location :=
  {| zoneName := "UTC"; zoneLookup := fun _ => (0, alpha, omega) |}.

Definition FixedZone (name : string) (offset : Z) : Location :=
  {| zoneName := name; zoneLookup := fun _ => (offset, alpha, omega) |}.

(** A [time.Time]: the instant (seconds since the Unix epoch and
    nanoseconds within the second) and the location it is presented in. *)
Record Time : Type := {
  unixSec : Z;
  nsec : Z;
  loc : Location
}.

(** [t.UTC()]: the same instant, with the location set to UTC. *)
Definition Time_UTC (t : Time) : Time :=
  {| unixSec := unixSec t; nsec := nsec t; loc := UTC |}.

(** [t.Equal(u)]: the same instant, whatever the locations. *)
Definition Equal (t u : Time) : Prop :=
  unixSec t = unixSec u /\ nsec t = nsec u.

(** *** The calendar *)

Definition secondsPerMinute : Z := 60.
Definition secondsPerHour : Z := 60 * secondsPerMinute.
Definition secondsPerDay : Z := 24 * secondsPerHour.
Definition daysPer400Years : Z := 365 * 400 + 97.
Definition daysPer100Years : Z := 365 * 100 + 24.
Definition daysPer4Years : Z := 365 * 4 + 1.

Definition absoluteZeroYear : Z := -292277022399.
Definition internalYear : Z := 1.
(** [(absoluteZeroYear - internalYear) * 365.2425 * secondsPerDay] *)
Definition absoluteToInternal : Z :=
  (absoluteZeroYear - internalYear) * 3652425 * secondsPerDay / 10000.
Definition unixToInternal : Z :=
  (1969 * 365 + 1969 / 4 - 1969 / 100 + 1969 / 400) * secondsPerDay.
Definition internalToUnix : Z := - unixToInternal.

(** [year%4 == 0 && (year%100 != 0 || year%400 == 0)], with Go's
    remainder, which truncates towards zero. *)
Definition isLeap (year : Z) : bool :=
  (Z.rem year 4 =? 0) && (negb (Z.rem year 100 =? 0) || (Z.rem year 400 =? 0)).

(** [daysBefore[m]]: the days of a non-leap year before month [m + 1]. *)
Definition daysBefore (m : Z) : Z :=
  match m with
  | 0 => 0
  | 1 => 31
  | 2 => 31 + 28
  | 3 => 31 + 28 + 31
  | 4 => 31 + 28 + 31 + 30
  | 5 => 31 + 28 + 31 + 30 + 31
  | 6 => 31 + 28 + 31 + 30 + 31 + 30
  | 7 => 31 + 28 + 31 + 30 + 31 + 30 + 31
  | 8 => 31 + 28 + 31 + 30 + 31 + 30 + 31 + 31
  | 9 => 31 + 28 + 31 + 30 + 31 + 30 + 31 + 31 + 30
  | 10 => 31 + 28 + 31 + 30 + 31 + 30 + 31 + 31 + 30 + 31
  | 11 => 31 + 28 + 31 + 30 + 31 + 30 + 31 + 31 + 30 + 31 + 30
  | _ => 31 + 28 + 31 + 30 + 31 + 30 + 31 + 31 + 30 + 31 + 30 + 31
  end.

Definition February : Z := 2.
Definition March : Z := 3.

Definition daysIn (m year : Z) : Z :=
  if (m =? February) && isLeap year then 29
  else daysBefore m - daysBefore (m - 1).

(** [norm(hi, lo, base)]: [lo] brought into [0, base), the excess
    carried into [hi]. *)
Definition norm (hi lo base : Z) : Z * Z :=
  let '(hi, lo) :=
    if lo <? 0
    then let n := Z.quot (- lo - 1) base + 1 in (hi - n, lo + n * base)
    else (hi, lo) in
  if lo >=? base
  then let n := Z.quot lo base in (hi + n, lo - n * base)
  else (hi, lo).

(** [daysSinceEpoch(year)]: the days from the absolute epoch to the
    start of [year], in [uint64] arithmetic. *)
Definition daysSinceEpoch (year : Z) : Z :=
  let y := uint64 (year - absoluteZeroYear) in
  let n := y / 400 in
  let y := y - 400 * n in
  let d := daysPer400Years * n in
  let n := y / 100 in
  let y := y - 100 * n in
  let d := d + daysPer100Years * n in
  let n := y / 4 in
  let y := y - 4 * n in
  let d := d + daysPer4Years * n in
  let n := y in
  uint64 (d + 365 * n).

(** [time.Date(year, month, day, hour, min, sec, nsec, loc)] *)
Definition Date (year month day hour min sec ns : Z) (l : Location) : Time :=
  let m := month - 1 in
  let '(year, m) := norm year m 12 in
  let month := m + 1 in
  let '(sec, ns) := norm sec ns 1000000000 in
  let '(min, sec) := norm min sec 60 in
  let '(hour, min) := norm hour min 60 in
  let '(day, hour) := norm day hour 24 in
  let d := daysSinceEpoch year in
  let d := uint64 (d + daysBefore (month - 1)) in
  let d := if isLeap year && (month >=? March) then uint64 (d + 1) else d in
  let d := uint64 (d + uint64 (day - 1)) in
  let abs := uint64 (d * secondsPerDay) in
  let abs := uint64 (abs + uint64 (hour * secondsPerHour + min * secondsPerMinute + sec)) in
  let unix := int64 (int64 abs + (absoluteToInternal + internalToUnix)) in
  let '(offset, start, end_) := zoneLookup l unix in
  let unix :=
    if offset =? 0 then unix
    else
      let utc := unix - offset in
      let offset :=
        if (utc <? start) || (utc >=? end_)
        then fst (fst (zoneLookup l utc))
        else offset in
      unix - offset in
  {| unixSec := unix; nsec := ns; loc := l |}.

(** *** Parsing *)

(** [*time.ParseError]; the message is kept in structured form. *)
Inductive Message : Type :=
| msgNone
| msgOutOfRange (what : string)
| msgExtraText (rest : string).

Record ParseError : Type := {
  Layout : string;
  Value : string;
  LayoutElem : string;
  ValueElem : string;
  Msg : Message
}.

Definition byte (c : ascii) : Z := Z.of_N (N_of_ascii c).

Definition isDigitByte (c : ascii) : bool := (48 <=? byte c) && (byte c <=? 57).

(** [getnum(s, fixed)]: a one- or two-digit number at the head of [s];
    two digits are required when [fixed]. *)
Definition getnum (s : string) (fixed : bool) : result (Z * string) unit :=
  match s with
  | EmptyString => Err tt
  | String c0 s1 =>
      if negb (isDigitByte c0) then Err tt
      else
        match s1 with
        | String c1 s2 =>
            if isDigitByte c1
            then Ok ((byte c0 - 48) * 10 + (byte c1 - 48), s2)
            else if fixed then Err tt else Ok (byte c0 - 48, s1)
        | EmptyString => if fixed then Err tt else Ok (byte c0 - 48, s1)
        end
  end.

(** [leadingInt(s)]: the leading digits of [s] as a [uint64], with the
    library's overflow checks, and the remainder. *)
Fixpoint leadingInt (x : Z) (s : string) : result (Z * string) unit :=
  match s with
  | EmptyString => Ok (x, s)
  | String c s' =>
      if negb (isDigitByte c) then Ok (x, s)
      else if x >? 2 ^ 63 / 10 then Err tt
      else
        let x := uint64 (x * 10 + byte c - 48) in
        if x >? 2 ^ 63 then Err tt else leadingInt x s'
  end.

(** [atoi(s)]: an optional sign and digits, nothing else. *)
Definition atoi (s : string) : result Z unit :=
  let '(neg, s) :=
    match s with
    | String c s' =>
        if Ascii.eqb c "-" || Ascii.eqb c "+" then (Ascii.eqb c "-", s') else (false, s)
    | EmptyString => (false, s)
    end in
  match leadingInt 0 s with
  | Err _ => Err tt
  | Ok (q, EmptyString) => Ok (if neg then - int64 q else int64 q)
  | Ok (_, String _ _) => Err tt
  end.

Definition cutspace (s : string) : string := strings.trimLeftByte s " ".

(** [skip(value, prefix)]: [value] without the literal [prefix]; a run
    of spaces in the prefix matches any run of spaces in the value (also
    an empty one at the end of the value).  [inrun] records that the
    space run of the prefix has already been cut. *)
Fixpoint skip_from (inrun : bool) (value prefix : string) : result string string :=
  match prefix with
  | EmptyString => Ok value
  | String p prefix' =>
      if Ascii.eqb p " " then
        if inrun then skip_from true value prefix'
        else
          match value with
          | String v _ =>
              if negb (Ascii.eqb v " ") then Err value
              else skip_from true (cutspace value) prefix'
          | EmptyString => skip_from true (cutspace value) prefix'
          end
      else
        match value with
        | EmptyString => Err value
        | String v value' =>
            if negb (Ascii.eqb v p) then Err value
            else skip_from false value' prefix'
        end
  end.

Definition skip (value prefix : string) : result string string :=
  skip_from false value prefix.

Definition shortMonthNames : list string :=
  ["Jan"; "Feb"; "Mar"; "Apr"; "May"; "Jun";
   "Jul"; "Aug"; "Sep"; "Oct"; "Nov"; "Dec"].

(** [match(s1, s2)]: equality ignoring the case of ASCII letters, of two
    strings of the same length. *)
Fixpoint match_fold (s1 s2 : string) : bool :=
  match s1, s2 with
  | String a1 r1, String a2 r2 =>
      (if Ascii.eqb a1 a2 then true
       else
         let c1 := Z.lor (byte a1) 32 in
         let c2 := Z.lor (byte a2) 32 in
         negb (negb (c1 =? c2) || (c1 <? 97) || (c1 >? 122)))
      && match_fold r1 r2
  | _, _ => true
  end.

(** The slice [s[:n]]. *)
Fixpoint take_bytes (n : nat) (s : string) : string :=
  match n, s with
  | O, _ => EmptyString
  | S n', String c s' => String c (take_bytes n' s')
  | S _, EmptyString => EmptyString
  end.

(** The slice [s[n:]]. *)
Fixpoint drop_bytes (n : nat) (s : string) : string :=
  match n, s with
  | O, _ => s
  | S n', String _ s' => drop_bytes n' s'
  | S _, EmptyString => EmptyString
  end.

(** [lookup(tab, val)]: the index of the first entry of [tab] that [val]
    starts with, ignoring case, and the rest of [val]. *)
Fixpoint lookupTab (tab : list string) (i : Z) (val : string)
  : result (Z * string) unit :=
  match tab with
  | [] => Err tt
  | v :: tab' =>
      let n := String.length v in
      if (n <=? String.length val)%nat && match_fold (take_bytes n val) v
      then Ok (i, drop_bytes n val)
      else lookupTab tab' (i + 1) val
  end.

Definition commaOrPeriod (c : ascii) : bool := Ascii.eqb c "." || Ascii.eqb c ",".

(** The number of digits at the head of [s]. *)
Fixpoint digitSpan (s : string) : nat :=
  match s with
  | String c s' => if isDigitByte c then S (digitSpan s') else O
  | EmptyString => O
  end.

Inductive NanoResult : Type :=
| nanoOk (ns : Z)
| nanoRange
| nanoBad.

(** [parseNanoseconds(value, nbytes)]: the fraction [value[1:nbytes]]
    scaled to nanoseconds; at most nine digits are read. *)
Definition parseNanoseconds (value : string) (nbytes : nat) : NanoResult :=
  match value with
  | EmptyString => nanoBad
  | String c _ =>
      if negb (commaOrPeriod c) then nanoBad
      else
        let nbytes := if (10 <? nbytes)%nat then 10%nat else nbytes in
        match atoi (take_bytes (nbytes - 1) (drop_bytes 1 value)) with
        | Err _ => nanoBad
        | Ok ns =>
            if ns <? 0 then nanoRange
            else nanoOk (ns * 10 ^ Z.of_nat (10 - nbytes))
        end
  end.

(** The elements of a layout that occur in the program's layout. *)
Inductive Std : Type :=
| stdZeroDay      (* "02" *)
| stdMonth        (* "Jan" *)
| stdYear         (* "06" *)
| stdHour         (* "15" *)
| stdZeroMinute   (* "04" *)
| stdZeroSecond.  (* "05" *)

(** A layout as [nextStdChunk] cuts it: the literal prefix before each
    element, the element's text and the element; then the literal text
    after the last element. *)
Record ChunkedLayout : Type := {
  layoutText : string;
  chunks : list (string * string * Std);
  suffix : string
}.

(** The fields [parse] collects.  [pZoneOffset] is [-1] as long as no
    zone offset was read. *)
Record Fields : Type := {
  pYear : Z;
  pMonth : Z;
  pDay : Z;
  pHour : Z;
  pMin : Z;
  pSec : Z;
  pNsec : Z;
  pZoneOffset : Z
}.

Definition initFields : Fields :=
  {| pYear := 0; pMonth := -1; pDay := -1; pHour := 0; pMin := 0; pSec := 0;
     pNsec := 0; pZoneOffset := -1 |}.

Inductive StepResult : Type :=
| stepOk (f : Fields) (value : string)
| stepRange (what : string) (value : string)
| stepBad.

(** One arm of the [switch std & stdMask] of [parse]. *)
Definition parseStd (std : Std) (f : Fields) (value : string) : StepResult :=
  match std with
  | stdYear =>
      if (String.length value <? 2)%nat then stepBad
      else
        match atoi (take_bytes 2 value) with
        | Err _ => stepBad
        | Ok y =>
            let y := if y >=? 69 then y + 1900 else y + 2000 in
            stepOk {| pYear := y; pMonth := pMonth f; pDay := pDay f;
                      pHour := pHour f; pMin := pMin f; pSec := pSec f;
                      pNsec := pNsec f; pZoneOffset := pZoneOffset f |}
                   (drop_bytes 2 value)
        end
  | stdMonth =>
      match lookupTab shortMonthNames 0 value with
      | Err _ => stepBad
      | Ok (m, value) =>
          stepOk {| pYear := pYear f; pMonth := m + 1; pDay := pDay f;
                    pHour := pHour f; pMin := pMin f; pSec := pSec f;
                    pNsec := pNsec f; pZoneOffset := pZoneOffset f |} value
      end
  | stdZeroDay =>
      match getnum value true with
      | Err _ => stepBad
      | Ok (d, value) =>
          stepOk {| pYear := pYear f; pMonth := pMonth f; pDay := d;
                    pHour := pHour f; pMin := pMin f; pSec := pSec f;
                    pNsec := pNsec f; pZoneOffset := pZoneOffset f |} value
      end
  | stdHour =>
      match getnum value false with
      | Err _ => stepBad
      | Ok (h, value) =>
          if (h <? 0) || (24 <=? h) then stepRange "hour" value
          else
            stepOk {| pYear := pYear f; pMonth := pMonth f; pDay := pDay f;
                      pHour := h; pMin := pMin f; pSec := pSec f;
                      pNsec := pNsec f; pZoneOffset := pZoneOffset f |} value
      end
  | stdZeroMinute =>
      match getnum value true with
      | Err _ => stepBad
      | Ok (m, value) =>
          if (m <? 0) || (60 <=? m) then stepRange "minute" value
          else
            stepOk {| pYear := pYear f; pMonth := pMonth f; pDay := pDay f;
                      pHour := pHour f; pMin := m; pSec := pSec f;
                      pNsec := pNsec f; pZoneOffset := pZoneOffset f |} value
      end
  | stdZeroSecond =>
      match getnum value true with
      | Err _ => stepBad
      | Ok (sc, value) =>
          if (sc <? 0) || (60 <=? sc) then stepRange "second" value
          else
            let f := {| pYear := pYear f; pMonth := pMonth f; pDay := pDay f;
                        pHour := pHour f; pMin := pMin f; pSec := sc;
                        pNsec := pNsec f; pZoneOffset := pZoneOffset f |} in
            (* a fractional second in the value, none in the layout *)
            match value with
            | String c0 (String c1 rest) =>
                if commaOrPeriod c0 && isDigitByte c1 then
                  let n := (2 + digitSpan rest)%nat in
                  match parseNanoseconds value n with
                  | nanoBad => stepBad
                  | nanoRange => stepRange "fractional second" (drop_bytes n value)
                  | nanoOk ns =>
                      stepOk {| pYear := pYear f; pMonth := pMonth f; pDay := pDay f;
                                pHour := pHour f; pMin := pMin f; pSec := pSec f;
                                pNsec := ns; pZoneOffset := pZoneOffset f |}
                             (drop_bytes n value)
                  end
                else stepOk f value
            | _ => stepOk f value
            end
      end
  end.

Definition newParseError (l : ChunkedLayout) (avalue elem velem : string)
  (m : Message) : ParseError :=
  {| Layout := layoutText l; Value := avalue; LayoutElem := elem;
     ValueElem := velem; Msg := m |}.

(** The loop of [parse] over the chunks of the layout. *)
Fixpoint parseChunks (l : ChunkedLayout) (avalue : string)
  (cs : list (string * string * Std)) (f : Fields) (value : string)
  : result (Fields * string) ParseError :=
  match cs with
  | [] =>
      match skip value (suffix l) with
      | Err v => Err (newParseError l avalue (suffix l) v msgNone)
      | Ok EmptyString => Ok (f, EmptyString)
      | Ok v => Err (newParseError l avalue EmptyString v (msgExtraText v))
      end
  | (prefix, stdstr, std) :: cs' =>
      match skip value prefix with
      | Err v => Err (newParseError l avalue prefix v msgNone)
      | Ok hold =>
          match parseStd std f hold with
          | stepRange what v =>
              Err (newParseError l avalue stdstr v (msgOutOfRange what))
          | stepBad => Err (newParseError l avalue stdstr hold msgNone)
          | stepOk f' value' => parseChunks l avalue cs' f' value'
          end
      end
  end.

(** [parse(layout, value, defaultLocation, local)] *)
Definition parse (l : ChunkedLayout) (value : string)
  (defaultLocation local : Location) : result Time ParseError :=
  match parseChunks l value (chunks l) initFields value with
  | Err e => Err e
  | Ok (f, rest) =>
      let month := if pMonth f <? 0 then 1 else pMonth f in
      let day := if pDay f <? 0 then 1 else pDay f in
      if (day <? 1) || (day >? daysIn month (pYear f))
      then Err (newParseError l value EmptyString rest (msgOutOfRange "day"))
      else if negb (pZoneOffset f =? -1) then
        let t := Date (pYear f) month day (pHour f) (pMin f) (pSec f) (pNsec f) UTC in
        let t := {| unixSec := unixSec t - pZoneOffset f; nsec := nsec t; loc := UTC |} in
        let '(offset, _, _) := zoneLookup local (unixSec t) in
        if offset =? pZoneOffset f
        then Ok {| unixSec := unixSec t; nsec := nsec t; loc := local |}
        else Ok {| unixSec := unixSec t; nsec := nsec t;
                   loc := FixedZone EmptyString (pZoneOffset f) |}
      else
        Ok (Date (pYear f) month day (pHour f) (pMin f) (pSec f) (pNsec f)
              defaultLocation)
  end.

(** [time.Parse(layout, value)]: [Local] is the process's local zone
    (the package variable [time.Local]). *)
Definition Parse (Local : Location) (l : ChunkedLayout) (value : string)
  : result Time ParseError :=
  parse l value UTC Local.

(** [time.ParseInLocation(layout, value, loc)] *)
Definition ParseInLocation (l : ChunkedLayout) (value : string) (loc : Location)
  : result Time ParseError :=
  parse l value loc loc.

End time.

(** The layout ["02-Jan-06 15:04:05"] of the program. *)
Definition layout_02_Jan_06_15_04_05 : time.ChunkedLayout :=
  {| time.layoutText := "02-Jan-06 15:04:05";
     time.chunks :=
       [ (EmptyString, "02", time.stdZeroDay);
         ("-", "Jan", time.stdMonth);
         ("-", "06", time.stdYear);
         (" ", "15", time.stdHour);
         (":", "04", time.stdZeroMinute);
         (":", "05", time.stdZeroSecond) ];
     time.suffix := EmptyString |}.

(** ** Package strconv *)

(** A Go [float64], held as its IEEE 754 binary64 bit pattern. *)
Record float64 : Type := Float64frombits { Float64bits : Z }.

(** The constant [0.0]. *)
Definition float64_zero : float64 := Float64frombits 0.

Module strconv.

Inductive ErrKind : Type := ErrSyntax | ErrRange.

(** [*strconv.NumError] *)
Record NumError : Type := {
  Func : string;
  Num : string;
  Kind : ErrKind
}.

End strconv.

(** ** Errors *)

(** The dynamic types of the [error] values the program can see. *)
Inductive error : Type :=
| os_PathError (op path : string)
| xml_Error (what : string)
| time_ParseError (e : time.ParseError)
| strconv_NumError (e : strconv.NumError).

(** The error of the value extractor: a date-time or a number that does
    not parse. *)
Definition is_ParseError (e : error) : Prop :=
  match e with
  | time_ParseError _ | strconv_NumError _ => True
  | _ => False
  end.

(** ** Package msg *)

Module msg.

(** [msg.Observation] *)
Record Observation : Type := {
  NetworkID : string;
  SiteID : string;
  TypeID : string;
  MethodID : string;
  DateTime : time.Time;
  Value : float64;
  Error : float64
}.

End msg.

(** ** The program *)

Definition HilltopUnits : gmap string string :=
  list_to_map
    [ ("Air Temperature", "t");
      ("Wind Chill", "wc");
      ("Relative Humidity", "rh");
      ("Rainfall", "rn");
      ("Barometric Pressure", "ap");
      ("Wind Direction", "wdir");
      ("Max Gust", "wg");
      ("Average Wind", "wm") ].

Record HilltopValue : Type := {
  Timestamp : time.Time;
  Reading : float64
}.

Record HilltopDataSource : Type := {
  Name : string;
  NumItems : string;
  Interpolation : string
}.

Record HilltopData : Type := {
  DateFormat : string;
  Value : list string
}.

Record HilltopMeasurement : Type := {
  SiteName : string;
  DataSource : HilltopDataSource;
  Data : HilltopData
}.

(** The field [XMLName], which names the root element for the decoder, is
    left out. *)
Record Hilltop : Type := {
  Agency : string;
  Measurement : list HilltopMeasurement
}.

Record HilltopSites : Type := {
  Sites : gmap string string
}.

Definition NewHilltopSites : HilltopSites := {| Sites := ∅ |}.

(** What [log.Printf] is called with in [Observations]. *)
Inductive LogLine : Type :=
| skipping_unknown_site (name : string)
| skipping_unknown_data_source (name : string).

Section Program.

(** The process's local time zone, [time.Local]. *)
Variable Local : time.Location.

(** [strconv.ParseFloat(s, bitSize)] *)
Variable ParseFloat : string -> Z -> result float64 strconv.NumError.

(** Open files, [os.Open], and [xml.Decoder.Decode] into a [Hilltop]
    through the program's [CharsetReader]; reading the file is part of
    decoding, and a read error is an error of [xml_Decode]. *)
Variable File : Type.
Variable os_Open : string -> result File error.
Variable xml_Decode : File -> result Hilltop error.

(** The loop of [Values]: [values] is the slice built so far. *)
Fixpoint Values_from (dateFormat : string) (values : list HilltopValue)
  (vs : list string) : list HilltopValue * option error :=
  match vs with
  | [] => (values, None)
  | v :: vs' =>
      let parts := strings.Split (strings.TrimLeft v " ") " " in
      match parts with
      | p0 :: p1 :: p2 :: _ => (* len(parts) > 2 *)
          match time.Parse Local layout_02_Jan_06_15_04_05 (Sprintf_s_s p0 p1) with
          | Err err => (values, Some (time_ParseError err))
          | Ok t =>
              let t := if String.eqb dateFormat "UTC" then time.Time_UTC t else t in
              match ParseFloat p2 64 with
              | Err err => (values, Some (strconv_NumError err))
              | Ok r =>
                  Values_from dateFormat
                    (values ++ [{| Timestamp := t; Reading := r |}]) vs'
              end
          end
      | _ => Values_from dateFormat values vs'
      end
  end.

(** [func (m *HilltopMeasurement) Values() ([]HilltopValue, error)] *)
Definition Values (m : HilltopMeasurement) : list HilltopValue * option error :=
  Values_from (DateFormat (Data m)) [] (Value (Data m)).

Definition Observation_of (network s t method : string) (v : HilltopValue)
  : msg.Observation :=
  {| msg.NetworkID := network;
     msg.SiteID := s;
     msg.TypeID := t;
     msg.MethodID := method;
     msg.DateTime := Timestamp v;
     msg.Value := Reading v;
     msg.Error := float64_zero |}.

(** The loop of [Observations]: [msgs] is the slice built so far and
    [logged] what was printed to the log so far. *)
Fixpoint Observations_from (sites : HilltopSites) (network method : string)
  (msgs : list msg.Observation) (logged : list LogLine)
  (ms : list HilltopMeasurement)
  : list msg.Observation * option error * list LogLine :=
  match ms with
  | [] => (msgs, None, logged)
  | m :: ms' =>
      match Sites sites !! SiteName m with
      | None =>
          Observations_from sites network method msgs
            (logged ++ [skipping_unknown_site (SiteName m)]) ms'
      | Some s =>
          match HilltopUnits !! Name (DataSource m) with
          | None =>
              Observations_from sites network method msgs
                (logged ++ [skipping_unknown_data_source (Name (DataSource m))]) ms'
          | Some t =>
              match Values m with
              | (_, Some err) => (msgs, Some err, logged)
              | (values, None) =>
                  Observations_from sites network method
                    (msgs ++ map (Observation_of network s t method) values)
                    logged ms'
              end
          end
      end
  end.

(** [func (h *Hilltop) Observations(sites *HilltopSites, network, method string)
    ([]msg.Observation, error)], with the lines it logs. *)
Definition Observations (h : Hilltop) (sites : HilltopSites)
  (network method : string)
  : list msg.Observation * option error * list LogLine :=
  Observations_from sites network method [] [] (Measurement h).

(** [func DecodeHilltopFile(file string)], returning a [*Hilltop] and an
    [error]; the deferred [xmlFile.Close()] has no part in what is
    returned. *)
Definition DecodeHilltopFile (file : string) : option Hilltop * option error :=
  match os_Open file with
  | Err err => (None, None)
  | Ok xmlFile =>
      match xml_Decode xmlFile with
      | Err err => (None, Some err)
      | Ok h => (Some h, None)
      end
  end.

(** How [main] ends with a file: [log.Fatalf] on an error, the panic of
    a nil pointer dereference, or the observations handed over to
    [Encode] and the queue. *)
Inductive FileOutcome : Type :=
| Fatalf (err : error)
| NilDereference
| Handed (obs : list msg.Observation).

(** The body of the loop of [main] over the files, up to the hand-over
    of the observations. *)
Definition main_file (sites : HilltopSites) (network method f : string)
  : FileOutcome :=
  match DecodeHilltopFile f with
  | (_, Some err) => Fatalf err
  | (None, None) => NilDereference
  | (Some h, None) =>
      match Observations h sites network method with
      | (_, Some err, _) => Fatalf err
      | (obs, None, _) => Handed obs
      end
  end.

End Program.

Arguments DecodeHilltopFile {File} os_Open xml_Decode file.
Arguments main_file Local ParseFloat {File} os_Open xml_Decode sites network method f.

(** * The rest of the program *)

(** ** The site table *)

(** The pieces of [s] between the first [n] occurrences of a non-empty
    separator, the last piece being the rest of [s]: [skip] counts the
    bytes of a separator still to be passed over. *)
Fixpoint genSplitN (sep : string) (skip : nat) (n : nat) (s : string) : list string :=
  match s with
  | EmptyString => [EmptyString]
  | String a s' =>
      match skip with
      | S k => genSplitN sep k n s'
      | O =>
          match n with
          | O => [s]
          | S n' =>
              if strings.HasPrefix s sep
              then EmptyString :: genSplitN sep (Nat.pred (String.length sep)) n' s'
              else match genSplitN sep O n s' with
                   | p :: ps => String a p :: ps
                   | [] => [String a EmptyString]
                   end
          end
      end
  end.

(** [explode(s, n)], for a string of one-byte characters: at most [n]
    pieces, of one byte each but for the last. *)
Fixpoint explodeN (n : nat) (s : string) : list string :=
  match n, s with
  | O, _ => []
  | _, EmptyString => []
  | S O, _ => [s]
  | S n', String a s' => String a EmptyString :: explodeN n' s'
  end.

(** [strings.SplitN(s, sep, n)]: at most [n] pieces when [n > 0], none
    when [n == 0], all of them when [n < 0]. *)
Definition strings_SplitN (s sep : string) (n : Z) : list string :=
  if n =? 0 then []
  else if n <? 0 then strings.Split s sep
  else
    match sep with
    | EmptyString => explodeN (Z.to_nat n) s
    | _ => genSplitN sep O (Z.to_nat n - 1) s
    end.

(** The error value that [errors.New] makes. *)
Inductive errorString : Type := errors_New (text : string).

(** [func (s *HilltopSites) Set(arg string) error]: the table after the
    call and the error. *)
Definition HilltopSites_Set (s : HilltopSites) (arg : string)
  : HilltopSites * option errorString :=
  let parts := strings_SplitN arg "=" 2 in
  match parts with
  | p0 :: p1 :: _ => (* len(parts) >= 2 *)
      ({| Sites := <[p0 := p1]> (Sites s) |}, None)
  | _ => (s, Some (errors_New "invalid format: expecting <string>=<string>"))
  end.

(** ** The first version of the assembler (src/main.go) *)

Module main_go.

Section Program.

Variable Local : time.Location.
Variable ParseFloat : string -> Z -> result float64 strconv.NumError.

(** The loop of [Observations]: [msgs] is the slice built so far. *)
Fixpoint Observations_from (network method : string)
  (msgs : list msg.Observation) (ms : list HilltopMeasurement)
  : list msg.Observation * option error :=
  match ms with
  | [] => (msgs, None)
  | m :: ms' =>
      match Values Local ParseFloat m with
      | (_, Some err) => (msgs, Some err)
      | (values, None) =>
          Observations_from network method
            (msgs ++ map (Observation_of network (SiteName m) (Name (DataSource m))
                            method) values)
            ms'
      end
  end.

(** [func (h *Hilltop) Observations(network, method string)
    ([]msg.Observation, error)] *)
Definition Observations (h : Hilltop) (network method : string)
  : list msg.Observation * option error :=
  Observations_from network method [] (Measurement h).

End Program.

End main_go.

(** ** The command *)

(** An [error] of the packages the command hands its messages to. *)
Inductive ext_error : Type := external (what : string).

Module cli.

(** The values of the flags and the remaining arguments, after
    [flag.Parse]. *)
Record Flags : Type := {
  verbose : bool;
  dryrun : bool;
  region : string;
  queue : string;
  key : string;
  secret : string;
  method : string;
  network : string;
  sites : HilltopSites;
  Args : list string
}.

(** What the command prints to the log before it ends. *)
Inductive Line : Type :=
| processing (f : string)
| skipping (l : LogLine)
| message (mm : string)
| completed.

(** The calls of [log.Fatalf]. *)
Inductive Fatal : Type :=
| no_FITS_method_given
| no_FITS_network_given
| unable_to_find_region
| unable_to_find_queue
| unable_to_get_amazon_auth (err : ext_error)
| unable_to_get_amazon_queue (err : ext_error) (queue region : string)
| unable_to_decode_hilltop_xml_file (f : string) (err : error)
| unable_to_recover_hilltop_observations (err : error)
| unable_to_encode_hilltop_msg (err : ext_error)
| unable_to_send_hilltop_msg (err : ext_error).

(** How the command ends. *)
Inductive Exit : Type :=
| returned
| fatalf (why : Fatal)
| nil_dereference.

(** A run of the command: the messages sent to the queue, in order, the
    lines logged, in order, and how it ended. *)
Record Run : Type := {
  sent : list string;
  logged : list Line;
  exit : Exit
}.

Section Command.

Variable Local : time.Location.
Variable ParseFloat : string -> Z -> result float64 strconv.NumError.
Variable File : Type.
Variable os_Open : string -> result File error.
Variable xml_Decode : File -> result Hilltop error.

(** The packages [os], [aws], [sqs] and [msg]: the environment, the
    region table, the credentials, the queue of a name, the sending of a
    message (which may fail or not according to what was sent before) and
    the encoding of an observation.  [aws.GetAuth] "falls through to env
    then credentials file" when it is given no key: it is a function of
    the environment as well as of its arguments. *)
Variables Region Auth SQS Queue : Type.

Record Services : Type := {
  Getenv : string -> string;
  GetRegion : string -> Region;
  GetAuth : (string -> string) -> string -> string -> result Auth ext_error;
  New : Auth -> Region -> SQS;
  GetQueue : SQS -> string -> result Queue ext_error;
  SendMessage : Queue -> list string -> string -> option ext_error;
  Encode : msg.Observation -> result string ext_error
}.

Variable sv : Services.
Variable fl : Flags.

(** "setup aws sqs queue": the queue, or none in a dry run. *)
Definition setup_queue : result (option Queue) Fatal :=
  if dryrun fl then Ok None
  else
    let region := if String.eqb (region fl) EmptyString
                  then Getenv sv "AWS_FITS_REGION" else region fl in
    if String.eqb region EmptyString then Err unable_to_find_region
    else
      let queue := if String.eqb (queue fl) EmptyString
                   then Getenv sv "AWS_FITS_QUEUE" else queue fl in
      if String.eqb queue EmptyString then Err unable_to_find_queue
      else
        let R := GetRegion sv region in
        match GetAuth sv (Getenv sv) (key fl) (secret fl) with
        | Err err => Err (unable_to_get_amazon_auth err)
        | Ok A =>
            let S := New sv A R in
            match GetQueue sv S queue with
            | Err err => Err (unable_to_get_amazon_queue err queue region)
            | Ok Q => Ok (Some Q)
            end
        end.

(** The loop over the observations of a file: either it goes through,
    with the messages sent and the lines logged so far, or the run
    ends. *)
Fixpoint send_observations (Q : option Queue) (sent : list string)
  (logged : list Line) (obs : list msg.Observation)
  : result (list string * list Line) Run :=
  match obs with
  | [] => Ok (sent, logged)
  | m :: obs' =>
      match Encode sv m with
      | Err err =>
          Err {| sent := sent; logged := logged;
                 exit := fatalf (unable_to_encode_hilltop_msg err) |}
      | Ok mm =>
          let logged := if verbose fl then logged ++ [message mm] else logged in
          if negb (dryrun fl) then
            match Q with
            | None => Err {| sent := sent; logged := logged; exit := nil_dereference |}
            | Some q =>
                match SendMessage sv q sent mm with
                | Some err =>
                    Err {| sent := sent; logged := logged;
                           exit := fatalf (unable_to_send_hilltop_msg err) |}
                | None => send_observations Q (sent ++ [mm]) logged obs'
                end
            end
          else send_observations Q sent logged obs'
      end
  end.

(** "run through each provided file" *)
Fixpoint run_files (Q : option Queue) (sent : list string) (logged : list Line)
  (fs : list string) : Run :=
  match fs with
  | [] => {| sent := sent; logged := logged; exit := returned |}
  | f :: fs' =>
      let logged := if verbose fl then logged ++ [processing f] else logged in
      match DecodeHilltopFile os_Open xml_Decode f with
      | (_, Some err) =>
          {| sent := sent; logged := logged;
             exit := fatalf (unable_to_decode_hilltop_xml_file f err) |}
      | (None, None) =>
          {| sent := sent; logged := logged; exit := nil_dereference |}
      | (Some h, None) =>
          match Observations Local ParseFloat h (sites fl) (network fl) (method fl) with
          | (_, Some err, skipped) =>
              {| sent := sent; logged := logged ++ map skipping skipped;
                 exit := fatalf (unable_to_recover_hilltop_observations err) |}
          | (obs, None, skipped) =>
              match send_observations Q sent (logged ++ map skipping skipped) obs with
              | Err run => run
              | Ok (sent, logged) =>
                  let logged := if verbose fl then logged ++ [completed] else logged in
                  run_files Q sent logged fs'
              end
          end
      end
  end.

(** [func main()], from the check of the required arguments on. *)
Definition main : Run :=
  if String.eqb (method fl) EmptyString
  then {| sent := []; logged := []; exit := fatalf no_FITS_method_given |}
  else if String.eqb (network fl) EmptyString
  then {| sent := []; logged := []; exit := fatalf no_FITS_network_given |}
  else
    match setup_queue with
    | Err why => {| sent := []; logged := []; exit := fatalf why |}
    | Ok Q => run_files Q [] [] (Args fl)
    end.

End Command.

Arguments Getenv {Region Auth SQS Queue} s _.
Arguments GetRegion {Region Auth SQS Queue} s _.
Arguments GetAuth {Region Auth SQS Queue} s _ _ _.
Arguments New {Region Auth SQS Queue} s _ _.
Arguments GetQueue {Region Auth SQS Queue} s _ _.
Arguments SendMessage {Region Auth SQS Queue} s _ _ _.
Arguments Encode {Region Auth SQS Queue} s _.
Arguments setup_queue {Region Auth SQS Queue} sv fl.
Arguments send_observations {Region Auth SQS Queue} sv fl Q sent logged obs.
Arguments run_files Local ParseFloat {File} os_Open xml_Decode
  {Region Auth SQS Queue} sv fl Q sent logged fs.
Arguments main Local ParseFloat {File} os_Open xml_Decode
  {Region Auth SQS Queue} sv fl.

End cli.

(** * Vocabulary of the properties *)

(** ** Tokens of a value line *)

(** [strings.Split(strings.TrimLeft(v, " "), " ")] *)
Definition tokens (v : string) : list string :=
  strings.Split (strings.TrimLeft v " ") " ".

Definition with_lines (m : HilltopMeasurement) (lines : list string)
  : HilltopMeasurement :=
  {| SiteName := SiteName m; DataSource := DataSource m;
     Data := {| DateFormat := DateFormat (Data m); Value := lines |} |}.

Definition with_dateFormat (m : HilltopMeasurement) (d : string)
  : HilltopMeasurement :=
  {| SiteName := SiteName m; DataSource := DataSource m;
     Data := {| DateFormat := d; Value := Value (Data m) |} |}.

Definition with_measurements (h : Hilltop) (ms : list HilltopMeasurement)
  : Hilltop :=
  {| Agency := Agency h; Measurement := ms |}.

Section Lines.

Variable Local : time.Location.
Variable ParseFloat : string -> Z -> result float64 strconv.NumError.

(** What one turn of the loop of [Values] does with a line. *)
Inductive LineOutcome : Type :=
| lineSkipped
| lineReading (v : HilltopValue)
| lineError (e : error).

Definition lineOutcome (dateFormat v : string) : LineOutcome :=
  match tokens v with
  | p0 :: p1 :: p2 :: _ =>
      match time.Parse Local layout_02_Jan_06_15_04_05 (Sprintf_s_s p0 p1) with
      | Err err => lineError (time_ParseError err)
      | Ok t =>
          let t := if String.eqb dateFormat "UTC" then time.Time_UTC t else t in
          match ParseFloat p2 64 with
          | Err err => lineError (strconv_NumError err)
          | Ok r => lineReading {| Timestamp := t; Reading := r |}
          end
      end
  | _ => lineSkipped
  end.

End Lines.

(** A readable value line: it has three tokens or more, the first two
    make a date-time of the layout and the third a number. *)
Definition readable (Local : time.Location)
  (ParseFloat : string -> Z -> result float64 strconv.NumError) (v : string) : Prop :=
  exists p0 p1 p2 more t r,
    tokens v = p0 :: p1 :: p2 :: more
    /\ time.Parse Local layout_02_Jan_06_15_04_05 (Sprintf_s_s p0 p1) = Ok t
    /\ ParseFloat p2 64 = Ok r.

(** [k] space characters. *)
Fixpoint spaces (k : nat) : string :=
  match k with
  | O => EmptyString
  | S k' => String " " (spaces k')
  end.

Section Assembled.

Variable Local : time.Location.
Variable ParseFloat : string -> Z -> result float64 strconv.NumError.

(** The readable lines among the value lines of a measurement, in their
    order, the other lines having fewer than three tokens. *)
Inductive readable_lines : list string -> list string -> Prop :=
| readable_lines_nil : readable_lines [] []
| readable_lines_short v vs rl :
    (length (tokens v) < 3)%nat ->
    readable_lines vs rl ->
    readable_lines (v :: vs) rl
| readable_lines_readable v vs rl :
    readable Local ParseFloat v ->
    readable_lines vs rl ->
    readable_lines (v :: vs) (v :: rl).

(** The measurements of a document in which every one is mapped and has
    [M] readable lines, with the observations expected of each. *)
Inductive assembled (sites : HilltopSites) (network method : string) (M : nat)
  : list HilltopMeasurement -> list (list msg.Observation) -> Prop :=
| assembled_nil : assembled sites network method M [] []
| assembled_cons m ms s t rl rs blocks :
    Sites sites !! SiteName m = Some s ->
    HilltopUnits !! Name (DataSource m) = Some t ->
    readable_lines (Value (Data m)) rl ->
    Forall2 (fun v hv => lineOutcome Local ParseFloat (DateFormat (Data m)) v
                         = lineReading hv) rl rs ->
    length rl = M ->
    assembled sites network method M ms blocks ->
    assembled sites network method M (m :: ms)
      (map (Observation_of network s t method) rs :: blocks).

End Assembled.

(** ** Date-time tokens and the instants they denote *)

(** A civil date and time of day. *)
Record Civil : Type := {
  cYear : Z;
  cMonth : Z;
  cDay : Z;
  cHour : Z;
  cMin : Z;
  cSec : Z
}.

Definition leap_year (y : Z) : bool :=
  (y mod 4 =? 0) && (negb (y mod 100 =? 0) || (y mod 400 =? 0)).

(** The length of month [m], in a leap year or not. *)
Definition month_length_in (leap : bool) (m : Z) : Z :=
  match m with
  | 2 => if leap then 29 else 28
  | 4 | 6 | 9 | 11 => 30
  | _ => 31
  end.

Definition month_length (y m : Z) : Z := month_length_in (leap_year y) m.

(** The civil date-times that a token with a two-digit year can denote:
    the years 1969 to 2068 (years from 69 on are of the twentieth century,
    the others of the twenty-first). *)
Definition valid_civil (c : Civil) : Prop :=
  1969 <= cYear c <= 2068
  /\ 1 <= cMonth c <= 12
  /\ 1 <= cDay c <= month_length (cYear c) (cMonth c)
  /\ 0 <= cHour c < 24
  /\ 0 <= cMin c < 60
  /\ 0 <= cSec c < 60.

(** The days of the first [n] months of a year. *)
Fixpoint days_of_months (leap : bool) (n : nat) : Z :=
  match n with
  | O => 0
  | S n' => days_of_months leap n' + month_length_in leap (Z.of_nat n)
  end.

(** The days of year [y] before its month [m]. *)
Definition days_before_month (y m : Z) : Z :=
  days_of_months (leap_year y) (Z.to_nat (m - 1)).

(** The leap years before year [y], in the Gregorian calendar. *)
Definition leap_years_before (y : Z) : Z :=
  (y - 1) / 4 - (y - 1) / 100 + (y - 1) / 400.

(** The days from 1 January 1970 to the given date. *)
Definition days_from_epoch (y m d : Z) : Z :=
  365 * (y - 1970) + (leap_years_before y - leap_years_before 1970)
  + days_before_month y m + (d - 1).

(** The instant that a civil date-time denotes when read in UTC, in
    seconds since the Unix epoch. *)
Definition utc_instant (c : Civil) : Z :=
  days_from_epoch (cYear c) (cMonth c) (cDay c) * 86400
  + cHour c * 3600 + cMin c * 60 + cSec c.

Definition digitChar (k : Z) : ascii := ascii_of_N (Z.to_N (48 + k)).

(** A number below 100 in two decimal digits. *)
Definition two_digits (n : Z) : string :=
  String (digitChar (n / 10)) (String (digitChar (n mod 10)) EmptyString).

Definition month_abbreviation (m : Z) : string :=
  nth (Z.to_nat (m - 1)) time.shortMonthNames EmptyString.

(** The text [DD-Mon-YY] of a date and [HH:MM:SS] of a time of day. *)
Definition date_token (c : Civil) : string :=
  two_digits (cDay c) +:+ "-" +:+ month_abbreviation (cMonth c) +:+ "-"
  +:+ two_digits (cYear c mod 100).

Definition time_token (c : Civil) : string :=
  two_digits (cHour c) +:+ ":" +:+ two_digits (cMin c) +:+ ":"
  +:+ two_digits (cSec c).

(** The days from the absolute epoch of package [time] to 1 January 1970. *)
Definition epochDays : Z := Eval vm_compute in time.daysSinceEpoch 1970.

(** A line whose date-time is that of a civil date-time, after [k] spaces
    and before the rest of the line. *)
Definition value_line (k : nat) (c : Civil) (rest : string) : string :=
  spaces k +:+ date_token c +:+ " " +:+ time_token c +:+ " " +:+ rest.

Fixpoint no_space (s : string) : bool :=
  match s with
  | EmptyString => true
  | String a s' => negb (Ascii.eqb a " ") && no_space s'
  end.

(** ** The instant that a date-time text denotes *)

(** The place of a character in a string, counted from [k]. *)
Fixpoint index_of (a : ascii) (s : string) (k : Z) : option Z :=
  match s with
  | EmptyString => None
  | String b s' => if Ascii.eqb a b then Some k else index_of a s' (k + 1)
  end.

(** The value of a decimal digit. *)
Definition digit_value (a : ascii) : option Z := index_of a "0123456789" 0.

(** A capital letter in lower case; any other character as it is. *)
Definition lower_case (a : ascii) : ascii :=
  match index_of a "ABCDEFGHIJKLMNOPQRSTUVWXYZ" 0 with
  | Some k => nth (Z.to_nat k) (list_ascii_of_string "abcdefghijklmnopqrstuvwxyz") a
  | None => a
  end.

Fixpoint lower_case_string (s : string) : string :=
  match s with
  | EmptyString => EmptyString
  | String a s' => String (lower_case a) (lower_case_string s')
  end.

(** The first of the [names], numbered from [i], that [name] is but for
    the case of the letters. *)
Fixpoint name_among (names : list string) (i : Z) (name : string) : option Z :=
  match names with
  | [] => None
  | n :: names' =>
      if String.eqb (lower_case_string name) (lower_case_string n) then Some i
      else name_among names' (i + 1) name
  end.

(** The month, 1 to 12, that an abbreviation names, in capitals or
    not. *)
Definition month_named (name : string) : option Z :=
  name_among (map month_abbreviation [1; 2; 3; 4; 5; 6; 7; 8; 9; 10; 11; 12]) 1 name.

Definition two_digit_number (a b : ascii) : option Z :=
  match digit_value a, digit_value b with
  | Some x, Some y => Some (10 * x + y)
  | _, _ => None
  end.

(** The year that a two-digit year stands for: 69 to 99 are years of
    the twentieth century, 00 to 68 of the twenty-first. *)
Definition year_of_two_digits (yy : Z) : Z :=
  if 69 <=? yy then 1900 + yy else 2000 + yy.

(** The year, month and day of a text [DD-Mon-YY]. *)
Definition read_date (date : string) : option (Z * Z * Z) :=
  match list_ascii_of_string date with
  | [d1; d2; h1; m1; m2; m3; h2; y1; y2] =>
      if Ascii.eqb h1 "-" && Ascii.eqb h2 "-" then
        match two_digit_number d1 d2,
              month_named (String m1 (String m2 (String m3 EmptyString))),
              two_digit_number y1 y2 with
        | Some d, Some m, Some yy => Some (year_of_two_digits yy, m, d)
        | _, _, _ => None
        end
      else None
  | _ => None
  end.

(** An hour of one or two digits at the head of a text, and what
    follows it. *)
Definition read_hour (s : string) : option (Z * string) :=
  match s with
  | EmptyString => None
  | String a EmptyString => option_map (fun h => (h, EmptyString)) (digit_value a)
  | String a (String b rest) =>
      match two_digit_number a b with
      | Some h => Some (h, rest)
      | None => option_map (fun h => (h, String b rest)) (digit_value a)
      end
  end.

(** The whole nanoseconds in a fraction of a second given by its
    decimals; [unit] is the weight of the first decimal. *)
Fixpoint nanoseconds (decimals : string) (unit : Z) : option Z :=
  match decimals with
  | EmptyString => Some 0
  | String a ds =>
      match digit_value a, nanoseconds ds (unit / 10) with
      | Some x, Some r => Some (x * unit + r)
      | _, _ => None
      end
  end.

(** The fraction of a second at the end of a text: nothing, or a point
    or a comma and one decimal or more. *)
Definition read_fraction (s : string) : option Z :=
  match s with
  | EmptyString => Some 0
  | String c EmptyString => None
  | String c ds =>
      if Ascii.eqb c "." || Ascii.eqb c "," then nanoseconds ds 100000000 else None
  end.

(** The hour, minute, second and nanosecond of a text [HH:MM:SS], the
    hour of one digit or two, with a fraction of a second or not. *)
Definition read_time (s : string) : option (Z * Z * Z * Z) :=
  match read_hour s with
  | Some (h, String c1 (String a1 (String a2 (String c2 (String b1 (String b2 frac)))))) =>
      if Ascii.eqb c1 ":" && Ascii.eqb c2 ":" then
        match two_digit_number a1 a2, two_digit_number b1 b2, read_fraction frac with
        | Some mi, Some sc, Some ns => Some (h, mi, sc, ns)
        | _, _, _ => None
        end
      else None
  | _ => None
  end.

(** A text cut at its first space. *)
Fixpoint cut_at_space (s : string) : option (string * string) :=
  match s with
  | EmptyString => None
  | String a s' =>
      if Ascii.eqb a " " then Some (EmptyString, s')
      else match cut_at_space s' with
           | Some (x, y) => Some (String a x, y)
           | None => None
           end
  end.

Definition valid_civilb (c : Civil) : bool :=
  (1969 <=? cYear c) && (cYear c <=? 2068)
  && (1 <=? cMonth c) && (cMonth c <=? 12)
  && (1 <=? cDay c) && (cDay c <=? month_length (cYear c) (cMonth c))
  && (0 <=? cHour c) && (cHour c <? 24)
  && (0 <=? cMin c) && (cMin c <? 60)
  && (0 <=? cSec c) && (cSec c <? 60).

(** The date-time that a text [DD-Mon-YY HH:MM:SS] gives, and the
    nanoseconds of its fraction of a second, when the text is of this
    form and the date-time exists. *)
Definition read_date_time (text : string) : option (Civil * Z) :=
  match cut_at_space text with
  | Some (date, time) =>
      match read_date date, read_time time with
      | Some (y, m, d), Some (h, mi, sc, ns) =>
          let c := {| cYear := y; cMonth := m; cDay := d;
                      cHour := h; cMin := mi; cSec := sc |} in
          if valid_civilb c then Some (c, ns) else None
      | _, _ => None
      end
  | None => None
  end.

(** The instant that a date-time text denotes when read in UTC: the
    seconds since the Unix epoch and the nanoseconds within the second. *)
Definition denoted_instant (text : string) : option (Z * Z) :=
  option_map (fun '(c, ns) => (utc_instant c, ns)) (read_date_time text).

(** A sign stands where the first digit of the year is expected. *)
Definition signed_year (text : string) : bool :=
  match String.get 7 text with
  | Some a => Ascii.eqb a "-" || Ascii.eqb a "+"
  | None => false
  end.

(** The letters of ASCII, by their bytes. *)
Definition is_letter (b : ascii) : bool :=
  ((65 <=? time.byte b) && (time.byte b <=? 90))
  || ((97 <=? time.byte b) && (time.byte b <=? 122)).

Definition three_letters (v : string) : bool :=
  match v with
  | String x (String y (String z EmptyString)) => is_letter x && is_letter y && is_letter z
  | _ => false
  end.

(** The number that two bytes make for [atoi]: two digits, or a sign and
    a digit. *)
Definition year_number (a b : ascii) : option Z :=
  if Ascii.eqb a "-" then option_map Z.opp (digit_value b)
  else if Ascii.eqb a "+" then digit_value b
  else two_digit_number a b.

Fixpoint all_digits (s : string) : bool :=
  match s with
  | EmptyString => true
  | String a s' => time.isDigitByte a && all_digits s'
  end.

(** The lines with three tokens or more. *)
Definition long_line (v : string) : bool := (2 <? length (tokens v))%nat.

(** ** Tokens as the specification has them *)

(** The white space of ASCII: space, tab, line feed, vertical tab, form
    feed and carriage return. *)
Definition is_whitespace (a : ascii) : bool :=
  let n := N_of_ascii a in ((n =? 32) || ((9 <=? n) && (n <=? 13)))%N.

Fixpoint strip_leading_whitespace (s : string) : string :=
  match s with
  | String a s' => if is_whitespace a then strip_leading_whitespace s' else s
  | EmptyString => s
  end.

(** The tokens of a line once its leading white space is stripped. *)
Definition tokens_after_whitespace (v : string) : list string :=
  strings.Split (strip_leading_whitespace v) " ".

(** * Sample environment

    The development is parametric in [strconv.ParseFloat], in the file
    system and in the XML decoder.  The examples run the program in the
    environment below: [ParseFloat_sample] answers as
    [strconv.ParseFloat] does on the literals ["2.300000"], ["1.5"] and
    ["not-a-number"], the only ones the examples let it see. *)

Definition ParseFloat_sample (s : string) (bitSize : Z)
  : result float64 strconv.NumError :=
  if String.eqb s "2.300000" then Ok (Float64frombits 0x4002666666666666)
  else if String.eqb s "1.5" then Ok (Float64frombits 0x3FF8000000000000)
  else Err {| strconv.Func := "ParseFloat"; strconv.Num := s;
              strconv.Kind := strconv.ErrSyntax |}.

Definition NZST : time.Location := time.FixedZone "NZST" 43200.
Definition EST : time.Location := time.FixedZone "EST" (-18000).

Definition measurement (site name dateFormat : string) (lines : list string)
  : HilltopMeasurement :=
  {| SiteName := site;
     DataSource := {| Name := name; NumItems := "1"; Interpolation := "Instantaneous" |};
     Data := {| DateFormat := dateFormat; Value := lines |} |}.

(** The measurement of the README. *)
Definition readme_measurement : HilltopMeasurement :=
  measurement "Place" "Air Temperature" "UTC" [" 27-May-15 21:30:00 2.300000"].

Definition sites_Place : HilltopSites :=
  {| Sites := {[ "Place" := "PLACE_CODE" ]} |}.

(** A file system with one file, whose decoding is [h]. *)
Definition os_Open_one (name : string) (h : Hilltop) (file : string)
  : result Hilltop error :=
  if String.eqb file name then Ok h else Err (os_PathError "open" file).

Definition xml_Decode_id (f : Hilltop) : result Hilltop error := Ok f.

(** Sample documents. *)
Definition doc_readme : Hilltop :=
  {| Agency := "GNS"; Measurement := [readme_measurement] |}.

Definition bad_measurement : HilltopMeasurement :=
  measurement "Place" "Rainfall" "UTC" ["27-May-15 21:30:00 not-a-number"].

Definition doc_good_then_bad : Hilltop :=
  {| Agency := "GNS"; Measurement := [readme_measurement; bad_measurement] |}.

Definition elsewhere_measurement : HilltopMeasurement :=
  measurement "Elsewhere" "Air Temperature" "UTC" ["27-May-15 21:30:00 not-a-number"].

Definition doc_with_unknown_site : Hilltop :=
  {| Agency := "GNS";
     Measurement := [readme_measurement; elsewhere_measurement; readme_measurement] |}.

Definition tab : ascii := "009"%char.

(** Sample measurements: a date format other than UTC, and a line that
    starts with a tab. *)
Definition local_measurement : HilltopMeasurement :=
  measurement "Place" "Air Temperature" "NZST" [" 27-May-15 21:30:00 2.300000"].

Definition tab_measurement : HilltopMeasurement :=
  measurement "Place" "Air Temperature" "UTC"
    [String tab "27-May-15 21:30:00 2.300000"].

Definition filler_measurement : HilltopMeasurement :=
  measurement "Place" "Air Temperature" "UTC"
    [" 27-May-15 21:30:00 2.300000"; "  "; " 27-May-15 21:40:00 1.5"].

(** 27 May 2015, 21:30:00. *)
Definition civil_readme : Civil :=
  {| cYear := 2015; cMonth := 5; cDay := 27; cHour := 21; cMin := 30; cSec := 0 |}.

Definition two_line_measurement (site name : string) : HilltopMeasurement :=
  measurement site name "UTC"
    [" 27-May-15 21:30:00 2.300000"; " 27-May-15 21:40:00 1.5"].

(** Two measurements of two readable lines each, the second with a
    filler line between them. *)
Definition doc_two_by_two : Hilltop :=
  {| Agency := "GNS";
     Measurement := [two_line_measurement "Place" "Rainfall";
                     filler_measurement] |}.

(** Sample measurements: a line that starts with a tab and a space and
    has a date and a time only, and a line with a sign in its year. *)
Definition tab_space_measurement : HilltopMeasurement :=
  measurement "Place" "Air Temperature" "UTC"
    [String tab " 27-May-15 21:30:00"].

Definition signed_year_measurement : HilltopMeasurement :=
  measurement "Place" "Air Temperature" "UTC" ["27-May--5 21:30:00 2.300000"].

(** A line with an hour of one digit, a month in capitals and a fraction
    of a second. *)
Definition loose_measurement : HilltopMeasurement :=
  measurement "Place" "Air Temperature" "UTC" ["27-MAY-15 1:30:00.25 2.300000"].

(** ** Vocabulary for the rest of the program *)

(** The table after one call of [Set] for each argument, in order; a
    call that fails leaves the table as it is. *)
Definition Set_each (s : HilltopSites) (args : list string) : HilltopSites :=
  fold_left (fun s arg => fst (HilltopSites_Set s arg)) args s.

(** The argument [name=code]. *)
Definition site_flag (name code : string) : string := name +:+ "=" +:+ code.

(** A measurement with a known site name and a known data source name. *)
Definition mapped (sites : HilltopSites) (m : HilltopMeasurement) : bool :=
  match Sites sites !! SiteName m, HilltopUnits !! Name (DataSource m) with
  | Some _, Some _ => true
  | _, _ => false
  end.

(** An observation with its site and type names replaced by the codes of
    the tables. *)
Definition translate (sites : HilltopSites) (o : msg.Observation) : msg.Observation :=
  {| msg.NetworkID := msg.NetworkID o;
     msg.SiteID := default (msg.SiteID o) (Sites sites !! msg.SiteID o);
     msg.TypeID := default (msg.TypeID o) (HilltopUnits !! msg.TypeID o);
     msg.MethodID := msg.MethodID o;
     msg.DateTime := msg.DateTime o;
     msg.Value := msg.Value o;
     msg.Error := msg.Error o |}.

Section Messages.

Variable Local : time.Location.
Variable ParseFloat : string -> Z -> result float64 strconv.NumError.
Variable File : Type.
Variable os_Open : string -> result File error.
Variable xml_Decode : File -> result Hilltop error.
Variables Region Auth SQS Queue : Type.
Variable sv : cli.Services Region Auth SQS Queue.
Variable fl : cli.Flags.

(** The observations of a file, for a file that decodes and whose
    document is assembled without error. *)
Definition file_observations (f : string) : option (list msg.Observation) :=
  match DecodeHilltopFile os_Open xml_Decode f with
  | (Some h, None) =>
      match Observations Local ParseFloat h (cli.sites fl) (cli.network fl)
              (cli.method fl) with
      | (obs, None, _) => Some obs
      | _ => None
      end
  | _ => None
  end.

(** The encodings of observations, when all of them encode. *)
Fixpoint encode_all (obs : list msg.Observation) : option (list string) :=
  match obs with
  | [] => Some []
  | o :: obs' =>
      match cli.Encode sv o, encode_all obs' with
      | Ok mm, Some ms => Some (mm :: ms)
      | _, _ => None
      end
  end.

(** The messages of a file: the encodings of its observations. *)
Definition file_messages (f : string) : option (list string) :=
  match file_observations f with
  | Some obs => encode_all obs
  | None => None
  end.

End Messages.

Arguments file_observations Local ParseFloat {File} os_Open xml_Decode fl f.
Arguments encode_all {Region Auth SQS Queue} sv obs.
Arguments file_messages Local ParseFloat {File} os_Open xml_Decode
  {Region Auth SQS Queue} sv fl f.

(** The flags with another value of [-verbose]. *)
Definition with_verbose (fl : cli.Flags) (b : bool) : cli.Flags :=
  {| cli.verbose := b; cli.dryrun := cli.dryrun fl; cli.region := cli.region fl;
     cli.queue := cli.queue fl; cli.key := cli.key fl; cli.secret := cli.secret fl;
     cli.method := cli.method fl; cli.network := cli.network fl;
     cli.sites := cli.sites fl; cli.Args := cli.Args fl |}.

(** The flags with other remaining arguments. *)
Definition with_Args (fl : cli.Flags) (fs : list string) : cli.Flags :=
  {| cli.verbose := cli.verbose fl; cli.dryrun := cli.dryrun fl;
     cli.region := cli.region fl; cli.queue := cli.queue fl; cli.key := cli.key fl;
     cli.secret := cli.secret fl; cli.method := cli.method fl;
     cli.network := cli.network fl; cli.sites := cli.sites fl; cli.Args := fs |}.

(** The line that [Observations] logs for a measurement it skips. *)
Definition skip_line (sites : HilltopSites) (m : HilltopMeasurement) : option LogLine :=
  match Sites sites !! SiteName m with
  | None => Some (skipping_unknown_site (SiteName m))
  | Some _ =>
      match HilltopUnits !! Name (DataSource m) with
      | None => Some (skipping_unknown_data_source (Name (DataSource m)))
      | Some _ => None
      end
  end.

(** What was sent when the loop over the observations of a file is
    left, and whether the run goes on. *)
Definition sent_after (r : result (list string * list cli.Line) cli.Run)
  : list string * option cli.Exit :=
  match r with
  | Ok (sent, _) => (sent, None)
  | Err run => (cli.sent run, Some (cli.exit run))
  end.


Section Sending.

Variables Region Auth SQS Queue : Type.

(** The queue is there when it is needed, and sending does not fail. *)
Definition sending_works (sv : cli.Services Region Auth SQS Queue) (fl : cli.Flags) (Q : option Queue) : Prop :=
  (cli.dryrun fl = true \/ exists q, Q = Some q)
  /\ forall q sent mm, cli.SendMessage sv q sent mm = None.

(** The services in another environment: what [os.Getenv] returns, to
    [main] and to [aws.GetAuth]. *)
Definition with_Getenv (sv : cli.Services Region Auth SQS Queue)
  (getenv : string -> string) : cli.Services Region Auth SQS Queue :=
  {| cli.Getenv := getenv; cli.GetRegion := cli.GetRegion sv;
     cli.GetAuth := cli.GetAuth sv; cli.New := cli.New sv;
     cli.GetQueue := cli.GetQueue sv; cli.SendMessage := cli.SendMessage sv;
     cli.Encode := cli.Encode sv |}.

End Sending.

Arguments sending_works {Region Auth SQS Queue} sv fl Q.
Arguments with_Getenv {Region Auth SQS Queue} sv getenv.

(** ** Sample services and flags *)

(** Services in which everything works; the environment holds an
    access key and nothing else, and the credentials are found when a key
    is given or the environment holds one; an observation is encoded as
    its site and type identifiers. *)
Definition sample_services : cli.Services string unit unit string :=
  {| cli.Getenv := fun v => if String.eqb v "AWS_ACCESS_KEY_ID" then "AKIDEXAMPLE"
                            else EmptyString;
     cli.GetRegion := fun r => r;
     cli.GetAuth := fun getenv key _ =>
                      if String.eqb key EmptyString
                         && String.eqb (getenv "AWS_ACCESS_KEY_ID") EmptyString
                      then Err (external "no credentials") else Ok tt;
     cli.New := fun _ _ => tt;
     cli.GetQueue := fun _ q => Ok q;
     cli.SendMessage := fun _ _ _ => None;
     cli.Encode := fun o => Ok (msg.SiteID o +:+ "/" +:+ msg.TypeID o) |}.

Definition sample_flags (dry : bool) (args : list string) : cli.Flags :=
  {| cli.verbose := false; cli.dryrun := dry;
     cli.region := "ap-southeast-2"; cli.queue := "fits";
     cli.key := EmptyString; cli.secret := EmptyString;
     cli.method := "M"; cli.network := "NT";
     cli.sites := sites_Place; cli.Args := args |}.

(** The same flags without a region. *)
Definition sample_flags_no_region : cli.Flags :=
  {| cli.verbose := false; cli.dryrun := false;
     cli.region := EmptyString; cli.queue := "fits";
     cli.key := EmptyString; cli.secret := EmptyString;
     cli.method := "M"; cli.network := "NT";
     cli.sites := sites_Place; cli.Args := ["obs.xml"] |}.

(** A measurement of a site whose name has [=] in it. *)
Definition equals_measurement : HilltopMeasurement :=
  measurement "A=B" "Air Temperature" "UTC" [" 27-May-15 21:30:00 2.300000"].

(** * Properties *)

Section Loops.

Variable Local : time.Location.
Variable ParseFloat : string -> Z -> result float64 strconv.NumError.

Abbreviation lineOutcome := (lineOutcome Local ParseFloat).

(** The pattern of three tokens or more is the test [len(parts) > 2]. *)
Lemma three_or_more (parts : list string) :
  (length parts > 2)%nat <->
  exists p0 p1 p2 more, parts = p0 :: p1 :: p2 :: more.
Proof.
  split.
  - destruct parts as [|p0 [|p1 [|p2 more]]]; simpl; try lia. eauto.
  - intros (p0 & p1 & p2 & more & ->). simpl. lia.
Qed.

Lemma Values_from_cons dateFormat values v vs :
  Values_from Local ParseFloat dateFormat values (v :: vs) =
  match lineOutcome dateFormat v with
  | lineSkipped => Values_from Local ParseFloat dateFormat values vs
  | lineReading hv => Values_from Local ParseFloat dateFormat (values ++ [hv]) vs
  | lineError e => (values, Some e)
  end.
Proof.
  unfold lineOutcome, tokens. cbn [Values_from].
  destruct (strings.Split (strings.TrimLeft v " ") " ") as [|p0 [|p1 [|p2 ps]]];
    try reflexivity.
  destruct (time.Parse _ _ _); [|reflexivity].
  destruct (ParseFloat _ _); reflexivity.
Qed.

(** The slice built so far is only ever appended to. *)
Lemma Values_from_acc dateFormat values vs :
  Values_from Local ParseFloat dateFormat values vs =
  (values ++ fst (Values_from Local ParseFloat dateFormat [] vs),
   snd (Values_from Local ParseFloat dateFormat [] vs)).
Proof.
  revert values. induction vs as [|v vs IH]; intros values.
  - simpl. now rewrite app_nil_r.
  - rewrite !Values_from_cons. destruct (lineOutcome dateFormat v) as [|hv|e].
    + apply IH.
    + rewrite IH. rewrite (IH ([] ++ [hv])). simpl.
      now rewrite <- app_assoc.
    + simpl. now rewrite app_nil_r.
Qed.

Lemma Values_from_app dateFormat values pre post :
  Values_from Local ParseFloat dateFormat values (pre ++ post) =
  match Values_from Local ParseFloat dateFormat values pre with
  | (values', None) => Values_from Local ParseFloat dateFormat values' post
  | (values', Some e) => (values', Some e)
  end.
Proof.
  revert values. induction pre as [|v pre IH]; intros values.
  - reflexivity.
  - rewrite <- app_comm_cons, !Values_from_cons.
    destruct (lineOutcome dateFormat v); auto.
Qed.

(** Every error of the extractor is a parse error. *)
Lemma Values_from_error dateFormat values vs e :
  snd (Values_from Local ParseFloat dateFormat values vs) = Some e ->
  is_ParseError e.
Proof.
  revert values. induction vs as [|v vs IH]; intros values.
  - discriminate.
  - rewrite Values_from_cons.
    destruct (lineOutcome dateFormat v) as [|hv|e'] eqn:E; eauto.
    simpl. intros [= <-]. unfold lineOutcome in E.
    destruct (tokens v) as [|p0 [|p1 [|p2 ps]]]; try discriminate.
    destruct (time.Parse _ _ _); [|now inversion E].
    destruct (ParseFloat _ _); now inversion E.
Qed.

Abbreviation Obs_from := (Observations_from Local ParseFloat).

Lemma Observations_from_app sites network method msgs logged pre post :
  Obs_from sites network method msgs logged (pre ++ post) =
  match Obs_from sites network method msgs logged pre with
  | (msgs', None, logged') => Obs_from sites network method msgs' logged' post
  | r => r
  end.
Proof.
  revert msgs logged. induction pre as [|m pre IH]; intros msgs logged.
  - reflexivity.
  - rewrite <- app_comm_cons. simpl.
    destruct (Sites sites !! SiteName m); [|apply IH].
    destruct (HilltopUnits !! Name (DataSource m)); [|apply IH].
    destruct (Values Local ParseFloat m) as [values [e|]]; [reflexivity|apply IH].
Qed.

(** The slice of observations built so far is only ever appended to. *)
Lemma Observations_from_acc sites network method msgs logged ms :
  Obs_from sites network method msgs logged ms =
  (msgs ++ fst (fst (Obs_from sites network method [] logged ms)),
   snd (fst (Obs_from sites network method [] logged ms)),
   snd (Obs_from sites network method [] logged ms)).
Proof.
  revert msgs logged. induction ms as [|m ms IH]; intros msgs logged.
  - simpl. now rewrite app_nil_r.
  - cbn [Observations_from].
    destruct (Sites sites !! SiteName m) as [s|]; [|apply IH].
    destruct (HilltopUnits !! Name (DataSource m)) as [t|]; [|apply IH].
    destruct (Values Local ParseFloat m) as [values [e|]].
    + simpl. now rewrite app_nil_r.
    + rewrite IH.
      rewrite (IH ([] ++ map (Observation_of network s t method) values)).
      simpl. now rewrite <- app_assoc.
Qed.

End Loops.

(** ** The observation assembler *)

Section Assembler.

Variable Local : time.Location.
Variable ParseFloat : string -> Z -> result float64 strconv.NumError.

Abbreviation Obs_from := (Observations_from Local ParseFloat).
Abbreviation Obs := (Observations Local ParseFloat).

(** What is logged has no bearing on what is returned. *)
Lemma Observations_from_logged sites network method msgs logged logged' ms :
  fst (Obs_from sites network method msgs logged ms) =
  fst (Obs_from sites network method msgs logged' ms).
Proof.
  revert msgs logged logged'. induction ms as [|m ms IH]; intros msgs logged logged'.
  - reflexivity.
  - cbn [Observations_from].
    destruct (Sites sites !! SiteName m) as [s|]; [|apply IH].
    destruct (HilltopUnits !! Name (DataSource m)) as [t|]; [|apply IH].
    destruct (Values Local ParseFloat m) as [values [e|]]; [reflexivity|apply IH].
Qed.

Lemma Observations_from_skip sites network method msgs logged m ms :
  Sites sites !! SiteName m = None \/ HilltopUnits !! Name (DataSource m) = None ->
  fst (Obs_from sites network method msgs logged (m :: ms)) =
  fst (Obs_from sites network method msgs logged ms).
Proof.
  intros H. cbn [Observations_from].
  destruct (Sites sites !! SiteName m) as [s|] eqn:Es.
  - destruct H as [H|H]; [discriminate|]. rewrite H.
    apply Observations_from_logged.
  - apply Observations_from_logged.
Qed.

Lemma Observations_from_error sites network method msgs logged ms e :
  snd (fst (Obs_from sites network method msgs logged ms)) = Some e ->
  is_ParseError e.
Proof.
  revert msgs logged. induction ms as [|m ms IH]; intros msgs logged.
  - discriminate.
  - cbn [Observations_from].
    destruct (Sites sites !! SiteName m) as [s|]; [|apply IH].
    destruct (HilltopUnits !! Name (DataSource m)) as [t|]; [|apply IH].
    destruct (Values Local ParseFloat m) as [values [e'|]] eqn:E; [|apply IH].
    simpl. intros [= <-].
    apply (Values_from_error Local ParseFloat (DateFormat (Data m)) [] (Value (Data m))).
    unfold Values in E. now rewrite E.
Qed.

Lemma Observations_from_Forall (P : msg.Observation -> Prop)
  sites network method msgs logged ms :
  (forall s t v, P (Observation_of network s t method v)) ->
  Forall P msgs ->
  Forall P (fst (fst (Obs_from sites network method msgs logged ms))).
Proof.
  intros HP. revert msgs logged. induction ms as [|m ms IH]; intros msgs logged Hm.
  - exact Hm.
  - cbn [Observations_from].
    destruct (Sites sites !! SiteName m) as [s|]; [|now apply IH].
    destruct (HilltopUnits !! Name (DataSource m)) as [t|]; [|now apply IH].
    destruct (Values Local ParseFloat m) as [values [e|]]; [exact Hm|].
    apply IH. apply Forall_app. split; [exact Hm|].
    clear -HP. induction values as [|v values IHv]; simpl; constructor; auto.
Qed.

(** C9: on any document and any site table, every observation that
    [Observations] returns has its [Error] field equal to the constant
    [0.0]. *)
Theorem C9_error_field_is_zero h sites network method :
  Forall (fun o => msg.Error o = float64_zero)
         (fst (fst (Obs h sites network method))).
Proof.
  unfold Observations. apply Observations_from_Forall.
  - reflexivity.
  - constructor.
Qed.

Lemma Observations_from_skip_middle sites network method pre m post :
  Sites sites !! SiteName m = None \/ HilltopUnits !! Name (DataSource m) = None ->
  fst (Obs_from sites network method [] [] (pre ++ m :: post)) =
  fst (Obs_from sites network method [] [] (pre ++ post)).
Proof.
  intros Hm. rewrite !Observations_from_app.
  destruct (Obs_from sites network method [] [] pre) as [[msgs [e|]] logged];
    [reflexivity|].
  now apply Observations_from_skip.
Qed.

(** C4: a measurement whose site name is not in the site table, or
    whose data source name is not in [HilltopUnits], is skipped: the
    observations and the error returned for the document are those of
    the document without that measurement, so that the measurements
    around it are assembled as usual; they are the same whatever the
    value lines of the measurement are, which are never extracted; on
    its own the measurement gives no observation and no error.  The skip
    is logged. *)
Theorem C4_unknown_identifier_is_skipped h sites network method pre m post :
  Measurement h = pre ++ m :: post ->
  Sites sites !! SiteName m = None \/ HilltopUnits !! Name (DataSource m) = None ->
  fst (Obs h sites network method) =
    fst (Obs (with_measurements h (pre ++ post)) sites network method)
  /\ (forall lines,
        fst (Obs (with_measurements h (pre ++ with_lines m lines :: post))
               sites network method)
        = fst (Obs h sites network method))
  /\ fst (Obs (with_measurements h [m]) sites network method) = ([], None)
  /\ (skipping_unknown_site (SiteName m)
        ∈ snd (Obs (with_measurements h [m]) sites network method)
      \/ skipping_unknown_data_source (Name (DataSource m))
        ∈ snd (Obs (with_measurements h [m]) sites network method)).
Proof.
  intros Hh Hm. unfold Observations. rewrite Hh. cbn [Measurement with_measurements].
  split; [|split; [|split]].
  - now apply Observations_from_skip_middle.
  - intros lines.
    rewrite (Observations_from_skip_middle _ _ _ pre m post Hm).
    now apply Observations_from_skip_middle.
  - now rewrite Observations_from_skip.
  - cbn [Observations_from].
    destruct (Sites sites !! SiteName m) as [s|] eqn:Es.
    + destruct Hm as [Hm|Hm]; [discriminate|]. rewrite Hm. right. simpl.
      apply list_elem_of_singleton. reflexivity.
    + left. simpl. apply list_elem_of_singleton. reflexivity.
Qed.

(** C3, as the program has it: when [Values] fails on a measurement that
    passed both lookups, [Observations] returns a parse error - the
    error [e] of that measurement when no measurement before it failed -
    and [main] stops on it, so that no observation of the file is handed
    over.  The slice returned next to the error is not empty in general:
    it holds the observations of the measurements before the failing
    one, and none of the failing measurement or of those after it. *)
Theorem C3_parse_error_aborts_document h sites network method pre m post s t e :
  Measurement h = pre ++ m :: post ->
  Sites sites !! SiteName m = Some s ->
  HilltopUnits !! Name (DataSource m) = Some t ->
  snd (Values Local ParseFloat m) = Some e ->
  is_ParseError e
  /\ (exists e', snd (fst (Obs h sites network method)) = Some e'
        /\ is_ParseError e'
        /\ forall File (os_Open : string -> result File error) xml_Decode f,
             DecodeHilltopFile os_Open xml_Decode f = (Some h, None) ->
             main_file Local ParseFloat os_Open xml_Decode sites network method f
             = Fatalf e')
  /\ (forall msgs0,
        fst (Obs (with_measurements h pre) sites network method) = (msgs0, None) ->
        fst (Obs h sites network method) = (msgs0, Some e)).
Proof.
  intros Hh Hs Ht He.
  assert (Hstep : forall msgs logged,
    fst (Obs_from sites network method msgs logged (m :: post)) = (msgs, Some e)).
  { intros msgs logged. cbn [Observations_from]. rewrite Hs, Ht.
    destruct (Values Local ParseFloat m) as [values [e'|]]; simpl in He;
      [|discriminate].
    now inversion He. }
  assert (Herr : exists e', snd (fst (Obs h sites network method)) = Some e').
  { unfold Observations. rewrite Hh, Observations_from_app.
    destruct (Obs_from sites network method [] [] pre) as [[msgs [e'|]] logged].
    - now exists e'.
    - exists e. now rewrite Hstep. }
  split; [|split].
  - apply (Values_from_error Local ParseFloat (DateFormat (Data m)) [] (Value (Data m))).
    exact He.
  - destruct Herr as [e' He']. exists e'. split; [exact He'|]. split.
    + eapply Observations_from_error. exact He'.
    + intros File os_Open xml_Decode f Hd. unfold main_file. rewrite Hd.
      destruct (Obs h sites network method) as [[msgs oe] logged].
      simpl in He'. now subst oe.
  - intros msgs0 Hpre. unfold Observations in *. rewrite Hh, Observations_from_app.
    cbn [Measurement with_measurements] in Hpre.
    destruct (Obs_from sites network method [] [] pre) as [[msgs oe] logged].
    simpl in Hpre. inversion Hpre; subst. apply Hstep.
Qed.

End Assembler.

(** ** The file decoder *)

Section Decoder.

Variable Local : time.Location.
Variable ParseFloat : string -> Z -> result float64 strconv.NumError.
Variable File : Type.
Variable os_Open : string -> result File error.
Variable xml_Decode : File -> result Hilltop error.

(** A file that opens but does not decode (it cannot be read to the
    end, or is not well-formed) gives the decoder's error and no
    document. *)
Lemma DecodeHilltopFile_decode_error file xmlFile err :
  os_Open file = Ok xmlFile ->
  xml_Decode xmlFile = Err err ->
  DecodeHilltopFile os_Open xml_Decode file = (None, Some err).
Proof. intros Ho Hd. unfold DecodeHilltopFile. now rewrite Ho, Hd. Qed.

(** C1, where the program departs from it: when [os.Open] fails,
    [DecodeHilltopFile] returns the nil document together with the nil
    error, and [main] goes on to call [Observations] on the nil
    document. *)
Theorem C1_open_failure_returns_nil_nil file err sites network method :
  os_Open file = Err err ->
  DecodeHilltopFile os_Open xml_Decode file = (None, None)
  /\ main_file Local ParseFloat os_Open xml_Decode sites network method file
     = NilDereference.
Proof.
  intros Ho. unfold main_file, DecodeHilltopFile. now rewrite Ho.
Qed.

End Decoder.

(** ** The program on the sample documents *)

(** The measurement of the README gives one observation. *)
Lemma readme_scenario :
  Observations NZST ParseFloat_sample doc_readme sites_Place "NT" "M" =
  ([ {| msg.NetworkID := "NT"; msg.SiteID := "PLACE_CODE"; msg.TypeID := "t";
        msg.MethodID := "M";
        msg.DateTime := {| time.unixSec := 1432762200; time.nsec := 0;
                           time.loc := time.UTC |};
        msg.Value := Float64frombits 0x4002666666666666;
        msg.Error := float64_zero |} ], None, []).
Proof. vm_compute. reflexivity. Qed.

(** A document with a measurement of an unknown site between two known
    ones. *)
Lemma C4_witness :
  fst (Observations NZST ParseFloat_sample doc_with_unknown_site sites_Place "NT" "M") =
    fst (Observations NZST ParseFloat_sample
           (with_measurements doc_with_unknown_site
              ([readme_measurement] ++ [readme_measurement]))
           sites_Place "NT" "M")
  /\ fst (Observations NZST ParseFloat_sample
            (with_measurements doc_with_unknown_site [elsewhere_measurement])
            sites_Place "NT" "M") = ([], None).
Proof.
  destruct (C4_unknown_identifier_is_skipped NZST ParseFloat_sample
              doc_with_unknown_site sites_Place "NT" "M"
              [readme_measurement] elsewhere_measurement [readme_measurement])
    as (H1 & _ & H3 & _).
  - reflexivity.
  - left. vm_compute. reflexivity.
  - split; [exact H1|exact H3].
Defined.

(** C3 as stated fails: [Values] fails with a parse error on the second
    measurement, which passed both lookups, and [Observations] returns
    that error together with the observation of the first measurement. *)
Lemma C3_counterexample :
  exists m e,
    In m (Measurement doc_good_then_bad)
    /\ is_Some (Sites sites_Place !! SiteName m)
    /\ is_Some (HilltopUnits !! Name (DataSource m))
    /\ snd (Values NZST ParseFloat_sample m) = Some e
    /\ is_ParseError e
    /\ snd (fst (Observations NZST ParseFloat_sample doc_good_then_bad
                   sites_Place "NT" "M")) = Some e
    /\ length (fst (fst (Observations NZST ParseFloat_sample doc_good_then_bad
                           sites_Place "NT" "M"))) = 1%nat.
Proof.
  exists bad_measurement.
  exists (strconv_NumError {| strconv.Func := "ParseFloat";
                              strconv.Num := "not-a-number";
                              strconv.Kind := strconv.ErrSyntax |}).
  repeat split; try (vm_compute; reflexivity).
  - right. left. reflexivity.
  - vm_compute. eexists. reflexivity.
  - vm_compute. eexists. reflexivity.
Qed.

(** The sample document whose second measurement does not parse. *)
Lemma C3_witness :
  is_ParseError (strconv_NumError {| strconv.Func := "ParseFloat";
                                     strconv.Num := "not-a-number";
                                     strconv.Kind := strconv.ErrSyntax |})
  /\ fst (Observations NZST ParseFloat_sample doc_good_then_bad sites_Place "NT" "M")
     = (fst (fst (Observations NZST ParseFloat_sample doc_readme sites_Place "NT" "M")),
        Some (strconv_NumError {| strconv.Func := "ParseFloat";
                                  strconv.Num := "not-a-number";
                                  strconv.Kind := strconv.ErrSyntax |})).
Proof.
  destruct (C3_parse_error_aborts_document NZST ParseFloat_sample
              doc_good_then_bad sites_Place "NT" "M"
              [readme_measurement] bad_measurement [] "PLACE_CODE" "rn"
              (strconv_NumError {| strconv.Func := "ParseFloat";
                                   strconv.Num := "not-a-number";
                                   strconv.Kind := strconv.ErrSyntax |}))
    as (H1 & _ & H3).
  - reflexivity.
  - vm_compute. reflexivity.
  - vm_compute. reflexivity.
  - vm_compute. reflexivity.
  - split; [exact H1|]. apply H3. vm_compute. reflexivity.
Defined.

(** A file that is not there. *)
Lemma C1_witness :
  DecodeHilltopFile (os_Open_one "obs.xml" doc_readme) xml_Decode_id "missing.xml"
    = (None, None)
  /\ main_file NZST ParseFloat_sample (os_Open_one "obs.xml" doc_readme) xml_Decode_id
       sites_Place "NT" "M" "missing.xml" = NilDereference.
Proof.
  apply (C1_open_failure_returns_nil_nil NZST ParseFloat_sample Hilltop
           (os_Open_one "obs.xml" doc_readme) xml_Decode_id
           "missing.xml" (os_PathError "open" "missing.xml") sites_Place "NT" "M").
  reflexivity.
Defined.

(** ** The zone of a parsed time *)

Section ParseZone.

Import time.

Ltac break_match_hyp H :=
  repeat match type of H with
         | context [match ?x with _ => _ end] => destruct x eqn:?
         end.

(** No element of the layout reads a zone offset. *)
Lemma parseStd_zoneOffset std f value f' value' :
  parseStd std f value = stepOk f' value' -> pZoneOffset f' = pZoneOffset f.
Proof.
  intros H. destruct std; cbn [parseStd] in H; break_match_hyp H;
    try discriminate; inversion H; reflexivity.
Qed.

Lemma parseChunks_zoneOffset l avalue cs f value f' rest :
  parseChunks l avalue cs f value = Ok (f', rest) ->
  pZoneOffset f' = pZoneOffset f.
Proof.
  revert f value. induction cs as [|[[prefix stdstr] std] cs IH]; intros f value H.
  - cbn [parseChunks] in H. break_match_hyp H; try discriminate. now inversion H.
  - cbn [parseChunks] in H. destruct (skip value prefix) as [hold|]; [|discriminate].
    destruct (parseStd std f hold) as [f1 v1| |] eqn:E; try discriminate.
    rewrite (IH _ _ H). eapply parseStd_zoneOffset. exact E.
Qed.

(** [parse] in terms of the fields read: without a zone in the layout,
    the fields are taken in the default location. *)
Lemma parse_fields l value defaultLocation local :
  parse l value defaultLocation local =
  match parseChunks l value (chunks l) initFields value with
  | Err e => Err e
  | Ok (f, rest) =>
      let month := if pMonth f <? 0 then 1 else pMonth f in
      let day := if pDay f <? 0 then 1 else pDay f in
      if (day <? 1) || (day >? daysIn month (pYear f))
      then Err (newParseError l value EmptyString rest (msgOutOfRange "day"))
      else Ok (Date (pYear f) month day (pHour f) (pMin f) (pSec f) (pNsec f)
                 defaultLocation)
  end.
Proof.
  unfold parse.
  destruct (parseChunks l value (chunks l) initFields value) as [[f rest]|e] eqn:E;
    [|reflexivity].
  apply parseChunks_zoneOffset in E. rewrite E. reflexivity.
Qed.

(** The local zone of the process has no part in [time.Parse]. *)
Lemma Parse_Local_irrelevant Local Local' l value :
  Parse Local l value = Parse Local' l value.
Proof. unfold Parse. now rewrite !parse_fields. Qed.

Lemma Date_loc year month day hour min sec ns l :
  loc (Date year month day hour min sec ns l) = l.
Proof.
  unfold Date.
  repeat match goal with
         | |- context [let '(_, _) := ?x in _] => destruct x
         end.
  reflexivity.
Qed.

(** [time.Parse] gives the time in UTC. *)
Lemma Parse_loc_UTC Local l value t :
  Parse Local l value = Ok t -> loc t = UTC.
Proof.
  unfold Parse. rewrite parse_fields.
  destruct (parseChunks _ _ _ _ _) as [[f rest]|e]; [|discriminate].
  cbv zeta. destruct (_ || _); [discriminate|].
  intros [= <-]. apply Date_loc.
Qed.

Lemma Time_UTC_of_UTC t : loc t = UTC -> Time_UTC t = t.
Proof. destruct t as [s n l]. simpl. intros ->. reflexivity. Qed.

(** [time.Parse] is [time.ParseInLocation] in UTC. *)
Lemma Parse_is_ParseInLocation_UTC Local l value :
  Parse Local l value = ParseInLocation l value UTC.
Proof. unfold Parse, ParseInLocation. now rewrite !parse_fields. Qed.

End ParseZone.

(** ** The value extractor *)

Section Extractor.

Variable ParseFloat : string -> Z -> result float64 strconv.NumError.

(** A line is dealt with in the same way whatever the local zone of the
    process and whatever the date format of the measurement. *)
Lemma lineOutcome_irrelevant Local Local' dateFormat dateFormat' v :
  lineOutcome Local ParseFloat dateFormat v =
  lineOutcome Local' ParseFloat dateFormat' v.
Proof.
  unfold lineOutcome.
  destruct (tokens v) as [|p0 [|p1 [|p2 ps]]]; try reflexivity.
  rewrite (Parse_Local_irrelevant Local Local').
  destruct (time.Parse Local' _ _) as [t|e] eqn:E; [|reflexivity].
  apply Parse_loc_UTC in E.
  destruct (String.eqb dateFormat "UTC"), (String.eqb dateFormat' "UTC");
    rewrite ?(Time_UTC_of_UTC t E); reflexivity.
Qed.

Lemma Values_from_irrelevant Local Local' dateFormat dateFormat' values vs :
  Values_from Local ParseFloat dateFormat values vs =
  Values_from Local' ParseFloat dateFormat' values vs.
Proof.
  revert values. induction vs as [|v vs IH]; intros values.
  - reflexivity.
  - rewrite !Values_from_cons.
    rewrite (lineOutcome_irrelevant Local Local' dateFormat dateFormat').
    destruct (lineOutcome Local' ParseFloat dateFormat' v); auto.
Qed.

(** The timestamp of a reading is the date-time of its line read in UTC. *)
Lemma lineOutcome_reading_UTC Local dateFormat v hv :
  lineOutcome Local ParseFloat dateFormat v = lineReading hv ->
  exists p0 p1 p2 more,
    tokens v = p0 :: p1 :: p2 :: more
    /\ time.ParseInLocation layout_02_Jan_06_15_04_05 (Sprintf_s_s p0 p1) time.UTC
       = Ok (Timestamp hv)
    /\ ParseFloat p2 64 = Ok (Reading hv).
Proof.
  unfold lineOutcome.
  destruct (tokens v) as [|p0 [|p1 [|p2 more]]]; try discriminate.
  rewrite (Parse_is_ParseInLocation_UTC Local).
  destruct (time.ParseInLocation _ _ _) as [t|e] eqn:E; [|discriminate].
  destruct (ParseFloat p2 64) as [r|e] eqn:Er; [|discriminate].
  intros [= <-]. exists p0, p1, p2, more. split; [reflexivity|]. split; [|exact Er].
  simpl. pose proof E as Eloc.
  rewrite <- (Parse_is_ParseInLocation_UTC time.UTC) in Eloc.
  apply Parse_loc_UTC in Eloc.
  destruct (String.eqb dateFormat "UTC"); rewrite ?(Time_UTC_of_UTC t Eloc);
    exact E.
Qed.

Lemma Values_from_readings Local dateFormat values vs hv :
  hv ∈ fst (Values_from Local ParseFloat dateFormat values vs) ->
  hv ∈ values \/
  exists v, v ∈ vs /\ lineOutcome Local ParseFloat dateFormat v = lineReading hv.
Proof.
  revert values. induction vs as [|v vs IH]; intros values.
  - simpl. auto.
  - rewrite Values_from_cons.
    destruct (lineOutcome Local ParseFloat dateFormat v) as [|hv'|e] eqn:E.
    + intros H. destruct (IH _ H) as [H'|(v' & Hv' & H')]; [auto|].
      right. exists v'. split; [apply elem_of_cons; now right|exact H'].
    + intros H. destruct (IH _ H) as [H'|(v' & Hv' & H')].
      * apply elem_of_app in H'. destruct H' as [H'|H']; [auto|].
        apply list_elem_of_singleton in H'. subst hv'.
        right. exists v. split; [apply elem_of_cons; now left|exact E].
      * right. exists v'. split; [apply elem_of_cons; now right|exact H'].
    + simpl. auto.
Qed.

(** C10: the date format of a measurement has no effect on what [Values]
    returns: with the same value lines, any two date formats give the same
    readings (the same instants, in the same presentation, and the same
    values) and the same error. *)
Theorem C10_dateFormat_has_no_effect Local m d1 d2 :
  Values Local ParseFloat (with_dateFormat m d1) =
  Values Local ParseFloat (with_dateFormat m d2).
Proof. unfold Values. simpl. apply Values_from_irrelevant. Qed.

(** C2, as the program has it: also for a measurement whose date format
    is not ["UTC"], [Values] reads each date-time as a UTC date-time - the
    timestamp of every reading is what [time.ParseInLocation] gives for
    the first two tokens of its line in the UTC location - and what it
    returns is the same under any local zone of the process. *)
Theorem C2_non_UTC_dateFormat_is_read_as_UTC Local m :
  DateFormat (Data m) <> "UTC" ->
  (forall Local', Values Local' ParseFloat m = Values Local ParseFloat m)
  /\ (forall hv, hv ∈ fst (Values Local ParseFloat m) ->
        exists v p0 p1 p2 more,
          v ∈ Value (Data m)
          /\ tokens v = p0 :: p1 :: p2 :: more
          /\ time.ParseInLocation layout_02_Jan_06_15_04_05 (Sprintf_s_s p0 p1)
               time.UTC = Ok (Timestamp hv)).
Proof.
  intros _. split.
  - intros Local'. apply Values_from_irrelevant.
  - intros hv H. apply Values_from_readings in H.
    destruct H as [H|(v & Hv & H)]; [now apply elem_of_nil in H|].
    apply lineOutcome_reading_UTC in H. destruct H as (p0 & p1 & p2 & more & Ht & Hp & _).
    exists v, p0, p1, p2, more. auto.
Qed.

End Extractor.

(** C2 as stated fails: under the local zone NZST (UTC+12), the line of a
    measurement whose date format is not ["UTC"] gets the instant of
    21:30:00 UTC, not the instant of 21:30:00 in the local zone (which is
    what [time.ParseInLocation] gives for the local zone), and it gets the
    same instant under the local zone EST. *)
Lemma C2_counterexample :
  DateFormat (Data local_measurement) <> "UTC"
  /\ map (fun hv => time.unixSec (Timestamp hv))
         (fst (Values NZST ParseFloat_sample local_measurement)) = [1432762200]
  /\ (exists t, time.ParseInLocation layout_02_Jan_06_15_04_05 "27-May-15 21:30:00" NZST
                = Ok t /\ time.unixSec t = 1432719000)
  /\ Values EST ParseFloat_sample local_measurement
     = Values NZST ParseFloat_sample local_measurement.
Proof.
  split; [discriminate|]. split; [vm_compute; reflexivity|]. split.
  - eexists. split; vm_compute; reflexivity.
  - vm_compute. reflexivity.
Qed.

(** The sample measurement whose date format is not UTC. *)
Lemma C2_witness :
  (forall Local', Values Local' ParseFloat_sample local_measurement
                  = Values NZST ParseFloat_sample local_measurement)
  /\ (forall hv, hv ∈ fst (Values NZST ParseFloat_sample local_measurement) ->
        exists v p0 p1 p2 more,
          v ∈ Value (Data local_measurement)
          /\ tokens v = p0 :: p1 :: p2 :: more
          /\ time.ParseInLocation layout_02_Jan_06_15_04_05 (Sprintf_s_s p0 p1)
               time.UTC = Ok (Timestamp hv)).
Proof.
  apply (C2_non_UTC_dateFormat_is_read_as_UTC ParseFloat_sample NZST local_measurement).
  discriminate.
Defined.

(** ** Lines: stripping, skipping, failing *)

Section LinePolicy.

Variable Local : time.Location.
Variable ParseFloat : string -> Z -> result float64 strconv.NumError.

Lemma TrimLeft_spaces k v :
  strings.TrimLeft (spaces k +:+ v) " " = strings.TrimLeft v " ".
Proof. induction k as [|k IH]; [reflexivity|exact IH]. Qed.

Lemma tokens_spaces k v : tokens (spaces k +:+ v) = tokens v.
Proof. unfold tokens. now rewrite TrimLeft_spaces. Qed.

Lemma TrimLeft_other c v :
  c <> " "%char -> strings.TrimLeft (String c v) " " = String c v.
Proof.
  intros Hc. cbn. destruct (Ascii.eqb c " ") eqn:E; [|reflexivity].
  apply Ascii.eqb_eq in E. contradiction.
Qed.

Lemma lineOutcome_tokens dateFormat v v' :
  tokens v = tokens v' ->
  lineOutcome Local ParseFloat dateFormat v = lineOutcome Local ParseFloat dateFormat v'.
Proof. unfold lineOutcome. now intros ->. Qed.

(** C8, as the program has it: the space characters at the head of a
    value line, and only those, are stripped before the line is cut into
    tokens.  Value lines that differ in their leading spaces only give the
    same result; a line that starts with any other byte is cut as it
    is. *)
Theorem C8_leading_spaces_are_stripped m lines' :
  Forall2 (fun v' v => exists k, v' = spaces k +:+ v) lines' (Value (Data m)) ->
  Values Local ParseFloat (with_lines m lines') = Values Local ParseFloat m
  /\ (forall c v, c <> " "%char -> tokens (String c v) = strings.Split (String c v) " ").
Proof.
  intros H. split.
  - unfold Values. cbn [with_lines Data DateFormat Value].
    generalize (@nil HilltopValue) as values.
    induction H as [|v' v vs' vs [k ->] _ IH]; intros values.
    + reflexivity.
    + rewrite !Values_from_cons.
      rewrite (lineOutcome_tokens _ _ v (tokens_spaces k v)).
      destruct (lineOutcome Local ParseFloat _ v); auto.
  - intros c v Hc. unfold tokens. now rewrite TrimLeft_other.
Qed.

Lemma lineOutcome_short dateFormat v :
  (length (tokens v) < 3)%nat ->
  lineOutcome Local ParseFloat dateFormat v = lineSkipped.
Proof.
  unfold lineOutcome.
  destruct (tokens v) as [|p0 [|p1 [|p2 more]]]; simpl; intros H; try reflexivity.
  lia.
Qed.

Lemma Values_from_snoc_error dateFormat pre v post vals e :
  Values_from Local ParseFloat dateFormat [] pre = (vals, None) ->
  lineOutcome Local ParseFloat dateFormat v = lineError e ->
  Values_from Local ParseFloat dateFormat [] (pre ++ v :: post) = (vals, Some e).
Proof.
  intros Hpre Hv. rewrite Values_from_app, Hpre, Values_from_cons, Hv. reflexivity.
Qed.

Lemma Values_from_has_error dateFormat values pre v post e :
  lineOutcome Local ParseFloat dateFormat v = lineError e ->
  exists e', snd (Values_from Local ParseFloat dateFormat values (pre ++ v :: post))
             = Some e'.
Proof.
  intros Hv. rewrite Values_from_app.
  destruct (Values_from Local ParseFloat dateFormat values pre) as [vals [e'|]].
  - now exists e'.
  - exists e. now rewrite Values_from_cons, Hv.
Qed.

End LinePolicy.

(** C8 as stated fails: a tab before the day is not stripped, and the
    line, which gives a reading without the tab, makes the extraction
    fail with it. *)
Lemma C8_counterexample :
  Value (Data tab_measurement) = [String tab "27-May-15 21:30:00 2.300000"]
  /\ (exists e, Values NZST ParseFloat_sample tab_measurement = ([], Some e))
  /\ (exists hv, Values NZST ParseFloat_sample
                   (with_lines tab_measurement ["27-May-15 21:30:00 2.300000"])
                 = ([hv], None)).
Proof.
  split; [reflexivity|]. split; eexists; vm_compute; reflexivity.
Qed.

(** Three spaces before the day instead of one. *)
Lemma C8_witness :
  Values NZST ParseFloat_sample
    (with_lines readme_measurement ["   27-May-15 21:30:00 2.300000"])
  = Values NZST ParseFloat_sample readme_measurement
  /\ (forall c v, c <> " "%char -> tokens (String c v) = strings.Split (String c v) " ").
Proof.
  apply (C8_leading_spaces_are_stripped NZST ParseFloat_sample readme_measurement
           ["   27-May-15 21:30:00 2.300000"]).
  constructor; [|constructor]. exists 2%nat. reflexivity.
Defined.

(** ** Decoding followed by assembly *)

Section Pipeline.

Variable Local : time.Location.
Variable ParseFloat : string -> Z -> result float64 strconv.NumError.
Variable File : Type.
Variable os_Open : string -> result File error.
Variable xml_Decode : File -> result Hilltop error.

Abbreviation reading := (fun d v hv => lineOutcome Local ParseFloat d v = lineReading hv).
Abbreviation readable_lines := (readable_lines Local ParseFloat).
Abbreviation assembled := (assembled Local ParseFloat).

Lemma readable_reading dateFormat v :
  readable Local ParseFloat v -> exists hv, reading dateFormat v hv.
Proof.
  intros (p0 & p1 & p2 & more & t & r & Ht & Hp & Hr).
  unfold lineOutcome. rewrite Ht, Hp, Hr. eauto.
Qed.

Lemma readable_not_short v :
  readable Local ParseFloat v -> (length (tokens v) < 3)%nat -> False.
Proof.
  intros (p0 & p1 & p2 & more & t & r & Ht & _) H. rewrite Ht in H. simpl in H. lia.
Qed.

Lemma readable_readings dateFormat rl :
  Forall (readable Local ParseFloat) rl ->
  exists rs, Forall2 (reading dateFormat) rl rs.
Proof.
  induction 1 as [|v vs Hv _ [rs IH]].
  - exists []. constructor.
  - destruct (readable_reading dateFormat v Hv) as [hv Hhv].
    exists (hv :: rs). now constructor.
Qed.

Lemma readable_lines_Forall vs rl :
  readable_lines vs rl -> Forall (readable Local ParseFloat) rl.
Proof. induction 1; auto. Qed.

(** The readable lines of a measurement are determined by its lines. *)
Lemma readable_lines_functional vs rl rl' :
  readable_lines vs rl -> readable_lines vs rl' -> rl = rl'.
Proof.
  intros H. revert rl'. induction H as [|v vs rl Hv _ IH|v vs rl Hv _ IH];
    intros rl' H'; inversion H'; subst; auto.
  - exfalso. eauto using readable_not_short.
  - exfalso. eauto using readable_not_short.
  - f_equal. auto.
Qed.

(** When every line is readable or short, [Values] returns the readings
    of the readable lines, in the order of the lines. *)
Lemma Values_from_readable_lines dateFormat values vs rl rs :
  readable_lines vs rl ->
  Forall2 (reading dateFormat) rl rs ->
  Values_from Local ParseFloat dateFormat values vs = (values ++ rs, None).
Proof.
  intros H. revert values rs.
  induction H as [|v vs rl Hv _ IH|v vs rl Hv _ IH]; intros values rs Hrs.
  - inversion Hrs. simpl. now rewrite app_nil_r.
  - rewrite Values_from_cons, lineOutcome_short by exact Hv. now apply IH.
  - inversion Hrs as [|v' hv rl' rs' Hhv Hrs']; subst.
    rewrite Values_from_cons, Hhv, (IH _ _ Hrs'), <- app_assoc. reflexivity.
Qed.

Lemma assembled_exists sites network method M ms :
  Forall (fun m => is_Some (Sites sites !! SiteName m)
                   /\ is_Some (HilltopUnits !! Name (DataSource m))
                   /\ exists rl, readable_lines (Value (Data m)) rl
                                 /\ length rl = M) ms ->
  exists blocks, assembled sites network method M ms blocks.
Proof.
  induction 1 as [|m ms ([s Hs] & [t Ht] & rl & Hrl & HM) _ [blocks IH]].
  - exists []. constructor.
  - destruct (readable_readings (DateFormat (Data m)) rl
                (readable_lines_Forall _ _ Hrl)) as [rs Hrs].
    eexists. econstructor; eauto.
Qed.

Lemma assembled_Observations_from sites network method M ms blocks msgs logged :
  assembled sites network method M ms blocks ->
  Observations_from Local ParseFloat sites network method msgs logged ms =
  (msgs ++ concat blocks, None, logged).
Proof.
  intros H. revert msgs.
  induction H as [|m ms s t rl rs blocks Hs Ht Hrl Hrs HM _ IH]; intros msgs.
  - simpl. now rewrite app_nil_r.
  - cbn [Observations_from]. rewrite Hs, Ht. unfold Values.
    rewrite (Values_from_readable_lines _ [] _ rl rs Hrl Hrs).
    cbn [app]. rewrite IH. cbn [concat]. now rewrite <- app_assoc.
Qed.

Lemma assembled_length sites network method M ms blocks :
  assembled sites network method M ms blocks ->
  length (concat blocks) = (length ms * M)%nat.
Proof.
  induction 1 as [|m ms s t rl rs blocks Hs Ht Hrl Hrs HM _ IH].
  - reflexivity.
  - cbn [concat]. rewrite length_app, length_map, IH.
    apply Forall2_length in Hrs. cbn [length]. lia.
Qed.

Lemma assembled_lookup sites network method M ms blocks i j m rl v :
  assembled sites network method M ms blocks ->
  ms !! i = Some m ->
  readable_lines (Value (Data m)) rl ->
  rl !! j = Some v ->
  exists s t hv,
    Sites sites !! SiteName m = Some s
    /\ HilltopUnits !! Name (DataSource m) = Some t
    /\ reading (DateFormat (Data m)) v hv
    /\ concat blocks !! (i * M + j)%nat = Some (Observation_of network s t method hv).
Proof.
  intros H. revert i.
  induction H as [|m0 ms s t rl0 rs blocks Hs Ht Hrl Hrs HM _ IH]; intros i Hi Hm Hj.
  - now rewrite lookup_nil in Hi.
  - destruct i as [|i].
    + simpl in Hi. injection Hi as ->.
      rewrite (readable_lines_functional _ _ _ Hm Hrl) in Hj.
      destruct (Forall2_lookup_l _ _ _ _ _ Hrs Hj) as (hv & Hhv & Hr).
      exists s, t, hv. repeat split; auto.
      cbn [concat]. simpl. rewrite lookup_app_l.
      * rewrite list_lookup_fmap, Hhv. reflexivity.
      * rewrite length_map. now apply lookup_lt_Some in Hhv.
    + simpl in Hi. destruct (IH i Hi Hm Hj) as (s' & t' & hv & Hs' & Ht' & Hr & Hl).
      exists s', t', hv. repeat split; auto.
      cbn [concat]. rewrite lookup_app_r.
      * rewrite length_map. apply Forall2_length in Hrs.
        replace (S i * M + j - length rs)%nat with (i * M + j)%nat by lia.
        exact Hl.
      * rewrite length_map. apply Forall2_length in Hrs. lia.
Qed.

(** C6: a file that decodes to a document of N measurements, each with
    M readable value lines (and otherwise only lines of fewer than three
    tokens, if any) and each with its site name in the site table and
    its data source name in [HilltopUnits], gives exactly N * M
    observations and no error; the observation at position [i * M + j]
    is the one of readable line [j] of measurement [i], so that the
    observations come in the order of the measurements and, within a
    measurement, in the order of the lines, none left out, repeated or
    moved. *)
Theorem C6_decode_then_assemble_N_times_M file h sites network method M :
  DecodeHilltopFile os_Open xml_Decode file = (Some h, None) ->
  Forall (fun m => is_Some (Sites sites !! SiteName m)
                   /\ is_Some (HilltopUnits !! Name (DataSource m))
                   /\ exists rl, readable_lines (Value (Data m)) rl
                                 /\ length rl = M) (Measurement h) ->
  exists obs,
    main_file Local ParseFloat os_Open xml_Decode sites network method file = Handed obs
    /\ fst (Observations Local ParseFloat h sites network method) = (obs, None)
    /\ length obs = (length (Measurement h) * M)%nat
    /\ forall i j m rl v,
         Measurement h !! i = Some m ->
         readable_lines (Value (Data m)) rl ->
         rl !! j = Some v ->
         exists s t hv,
           Sites sites !! SiteName m = Some s
           /\ HilltopUnits !! Name (DataSource m) = Some t
           /\ lineOutcome Local ParseFloat (DateFormat (Data m)) v = lineReading hv
           /\ obs !! (i * M + j)%nat = Some (Observation_of network s t method hv).
Proof.
  intros Hd Hall.
  destruct (assembled_exists sites network method M _ Hall) as [blocks Hb].
  exists (concat blocks).
  assert (Hobs : Observations Local ParseFloat h sites network method
                 = (concat blocks, None, [])).
  { unfold Observations.
    now rewrite (assembled_Observations_from _ _ _ _ _ _ [] [] Hb). }
  split; [|split; [|split]].
  - unfold main_file. now rewrite Hd, Hobs.
  - now rewrite Hobs.
  - eapply assembled_length. exact Hb.
  - intros i j m rl v Hi Hrl Hj. eapply assembled_lookup; eauto.
Qed.

End Pipeline.

Lemma readable_sample_line_1 :
  readable NZST ParseFloat_sample " 27-May-15 21:30:00 2.300000".
Proof.
  unfold readable. do 6 eexists.
  split; [vm_compute; reflexivity|]. split; vm_compute; reflexivity.
Qed.

Lemma readable_sample_line_2 :
  readable NZST ParseFloat_sample " 27-May-15 21:40:00 1.5".
Proof.
  unfold readable. do 6 eexists.
  split; [vm_compute; reflexivity|]. split; vm_compute; reflexivity.
Qed.

(** The readable lines of the sample measurement with a filler line. *)
Lemma readable_lines_filler :
  readable_lines NZST ParseFloat_sample (Value (Data filler_measurement))
    [" 27-May-15 21:30:00 2.300000"; " 27-May-15 21:40:00 1.5"].
Proof.
  apply readable_lines_readable; [exact readable_sample_line_1|].
  apply readable_lines_short; [vm_compute; lia|].
  apply readable_lines_readable; [exact readable_sample_line_2|].
  constructor.
Qed.

Lemma readable_lines_two_line site name :
  readable_lines NZST ParseFloat_sample (Value (Data (two_line_measurement site name)))
    [" 27-May-15 21:30:00 2.300000"; " 27-May-15 21:40:00 1.5"].
Proof.
  apply readable_lines_readable; [exact readable_sample_line_1|].
  apply readable_lines_readable; [exact readable_sample_line_2|].
  constructor.
Qed.

(** A document of two measurements of two readable lines each, one of
    them with a filler line, gives four observations. *)
Lemma C6_witness :
  exists obs,
    main_file NZST ParseFloat_sample (os_Open_one "obs.xml" doc_two_by_two)
      xml_Decode_id sites_Place "NT" "M" "obs.xml" = Handed obs
    /\ length obs = 4%nat.
Proof.
  destruct (C6_decode_then_assemble_N_times_M NZST ParseFloat_sample Hilltop
              (os_Open_one "obs.xml" doc_two_by_two) xml_Decode_id
              "obs.xml" doc_two_by_two sites_Place "NT" "M" 2)
    as (obs & H1 & _ & H3 & _).
  - reflexivity.
  - constructor; [|constructor; [|constructor]];
      (split; [eexists; vm_compute; reflexivity|]);
      (split; [eexists; vm_compute; reflexivity|]).
    + eexists. split; [apply readable_lines_two_line|reflexivity].
    + eexists. split; [exact readable_lines_filler|reflexivity].
  - exists obs. split; [exact H1|exact H3].
Defined.

(** ** The date-time tokens and [time.Parse] *)

Ltac zdiv := Z.to_euclidean_division_equations; lia.

Ltac digit_case k H :=
  let C := fresh in
  assert (C : k = 0 \/ k = 1 \/ k = 2 \/ k = 3 \/ k = 4 \/ k = 5 \/ k = 6
              \/ k = 7 \/ k = 8 \/ k = 9) by lia;
  destruct C as [->|[->|[->|[->|[->|[->|[->|[->|[->| ->]]]]]]]]].

Ltac month_case m H :=
  let C := fresh in
  assert (C : m = 1 \/ m = 2 \/ m = 3 \/ m = 4 \/ m = 5 \/ m = 6 \/ m = 7
              \/ m = 8 \/ m = 9 \/ m = 10 \/ m = 11 \/ m = 12) by lia;
  destruct C as [->|[->|[->|[->|[->|[->|[->|[->|[->|[->|[->| ->]]]]]]]]]]].

Section Tokens.

Import time.

(** The decimal digits. *)
Lemma digitChar_byte k : 0 <= k <= 9 -> byte (digitChar k) = 48 + k.
Proof.
  intros H. digit_case k H;
    reflexivity.
Qed.

Lemma digitChar_isDigit k : 0 <= k <= 9 -> isDigitByte (digitChar k) = true.
Proof.
  intros H. unfold isDigitByte. rewrite digitChar_byte by exact H.
  apply andb_true_intro. split; apply Z.leb_le; lia.
Qed.

Lemma digitChar_not_space k : 0 <= k <= 9 -> Ascii.eqb (digitChar k) " " = false.
Proof.
  intros H. digit_case k H;
    reflexivity.
Qed.

Lemma digitChar_not_sign k : 0 <= k <= 9 ->
  Ascii.eqb (digitChar k) "-" || Ascii.eqb (digitChar k) "+" = false.
Proof.
  intros H. digit_case k H;
    reflexivity.
Qed.

Lemma two_digits_append n rest :
  two_digits n +:+ rest = String (digitChar (n / 10)) (String (digitChar (n mod 10)) rest).
Proof. reflexivity. Qed.

Lemma getnum_two_digits n rest fixed :
  0 <= n < 100 ->
  getnum (String (digitChar (n / 10)) (String (digitChar (n mod 10)) rest)) fixed
  = Ok (n, rest).
Proof.
  intros H. unfold getnum.
  rewrite !digitChar_isDigit, !digitChar_byte by zdiv.
  cbn [negb]. do 2 f_equal. zdiv.
Qed.

Lemma forall_below (P : nat -> bool) k :
  forallb P (seq 0 k) = true -> forall i, (i < k)%nat -> P i = true.
Proof.
  intros H i Hi. rewrite forallb_forall in H. apply H. apply in_seq. lia.
Qed.

Lemma atoi_two_digits n :
  0 <= n < 100 ->
  atoi (String (digitChar (n / 10)) (String (digitChar (n mod 10)) EmptyString)) = Ok n.
Proof.
  intros H.
  assert (C : forallb (fun k => match atoi (two_digits (Z.of_nat k)) with
                                | Ok r => r =? Z.of_nat k
                                | Err _ => false
                                end) (seq 0 100) = true) by (vm_compute; reflexivity).
  pose proof (forall_below _ _ C (Z.to_nat n) ltac:(lia)) as Hn.
  cbv beta in Hn. rewrite Z2Nat.id in Hn by lia. unfold two_digits in Hn.
  destruct (atoi _) as [r|]; [|discriminate].
  apply Z.eqb_eq in Hn. now subst.
Qed.

Lemma isLeap_leap_year y : 0 <= y -> isLeap y = leap_year y.
Proof.
  intros H. unfold isLeap, leap_year. now rewrite !Z.rem_mod_nonneg by lia.
Qed.

Lemma lookupTab_month m rest :
  1 <= m <= 12 ->
  lookupTab shortMonthNames 0 (month_abbreviation m +:+ rest) = Ok (m - 1, rest).
Proof.
  intros H.
  month_case m H;
    vm_compute; reflexivity.
Qed.

Lemma year_pivot y :
  1969 <= y <= 2068 ->
  (if y mod 100 >=? 69 then y mod 100 + 1900 else y mod 100 + 2000) = y.
Proof.
  intros H. destruct (y mod 100 >=? 69) eqn:E.
  - apply Z.geb_le in E. zdiv.
  - rewrite Z.geb_leb in E. apply Z.leb_gt in E. zdiv.
Qed.

Lemma daysIn_month_length y m :
  0 <= y -> 1 <= m <= 12 -> daysIn m y = month_length y m.
Proof.
  intros Hy H. unfold daysIn, month_length, month_length_in.
  rewrite isLeap_leap_year by exact Hy.
  month_case m H; reflexivity.
Qed.

Lemma append_assoc_string (a b c : string) : (a +:+ b) +:+ c = a +:+ (b +:+ c).
Proof.
  induction a as [|x a IH]; [reflexivity|].
  change (String x ((a +:+ b) +:+ c) = String x (a +:+ (b +:+ c))). now rewrite IH.
Qed.

Lemma append_char a s : String a EmptyString +:+ s = String a s.
Proof. reflexivity. Qed.

Lemma in_range x b : 0 <= x < b -> (x <? 0) || (b <=? x) = false.
Proof.
  intros H. apply orb_false_intro; [apply Z.ltb_ge|apply Z.leb_gt]; lia.
Qed.

Lemma skip_literal p value :
  Ascii.eqb p " " = false ->
  skip (String p value) (String p EmptyString) = Ok value.
Proof.
  intros H. unfold skip. cbn [skip_from]. rewrite H, Ascii.eqb_refl. reflexivity.
Qed.

Lemma skip_space_digit k value :
  0 <= k <= 9 ->
  skip (String " " (String (digitChar k) value)) " " = Ok (String (digitChar k) value).
Proof.
  intros H. unfold skip. cbn [skip_from]. cbn [Ascii.eqb Bool.eqb negb].
  unfold cutspace. cbn [strings.trimLeftByte]. cbn [Ascii.eqb Bool.eqb].
  rewrite digitChar_not_space by exact H. reflexivity.
Qed.

(** The fields that [parse] reads from the token of a civil date-time. *)
Lemma parseChunks_token c avalue :
  valid_civil c ->
  parseChunks layout_02_Jan_06_15_04_05 avalue (chunks layout_02_Jan_06_15_04_05)
    initFields (Sprintf_s_s (date_token c) (time_token c))
  = Ok ({| pYear := cYear c; pMonth := cMonth c; pDay := cDay c; pHour := cHour c;
           pMin := cMin c; pSec := cSec c; pNsec := 0; pZoneOffset := -1 |},
        EmptyString).
Proof.
  intros (Hy & Hm & Hd & Hh & Hmi & Hs).
  assert (Hd' : 0 <= cDay c < 100).
  { split; [lia|]. destruct Hd as [_ Hd]. unfold month_length, month_length_in in Hd.
    repeat match type of Hd with context [match ?x with _ => _ end] => destruct x end; lia. }
  unfold Sprintf_s_s, date_token, time_token.
  rewrite !append_assoc_string.
  rewrite !two_digits_append, !append_char. unfold two_digits.
  cbn [chunks layout_02_Jan_06_15_04_05 parseChunks].
  change (skip ?v EmptyString) with (Ok (E:=string) v). cbv iota.
  cbn [parseStd]. rewrite getnum_two_digits by exact Hd'.
  rewrite skip_literal by reflexivity.
  rewrite lookupTab_month by exact Hm.
  rewrite skip_literal by reflexivity.
  cbn [String.length Nat.ltb Nat.leb take_bytes drop_bytes].
  rewrite atoi_two_digits by zdiv. rewrite year_pivot by exact Hy.
  rewrite skip_space_digit by zdiv.
  rewrite getnum_two_digits by lia. rewrite in_range by exact Hh.
  rewrite skip_literal by reflexivity.
  rewrite getnum_two_digits by lia. rewrite in_range by exact Hmi.
  rewrite skip_literal by reflexivity.
  rewrite getnum_two_digits by lia. rewrite in_range by exact Hs.
  cbn [suffix layout_02_Jan_06_15_04_05].
  change (skip ?v EmptyString) with (Ok (E:=string) v). cbv iota.
  cbn [pYear pMonth pDay pHour pMin pSec pNsec pZoneOffset initFields].
  replace (cMonth c - 1 + 1) with (cMonth c) by lia.
  reflexivity.
Qed.

Lemma norm_id hi lo base : 0 <= lo < base -> norm hi lo base = (hi, lo).
Proof.
  intros H. unfold norm.
  destruct (lo <? 0) eqn:E1; [apply Z.ltb_lt in E1; lia|].
  destruct (lo >=? base) eqn:E2; [apply Z.geb_le in E2; lia|reflexivity].
Qed.

Lemma uint64_small x : 0 <= x < 18446744073709551616 -> uint64 x = x.
Proof. intros H. unfold uint64. now apply Z.mod_small. Qed.

Lemma int64_small x :
  -9223372036854775808 <= x < 9223372036854775808 -> int64 x = x.
Proof.
  intros H. unfold int64.
  change (2 ^ 63) with 9223372036854775808.
  change (2 ^ 64) with 18446744073709551616.
  rewrite Z.mod_small; lia.
Qed.

Lemma daysBefore_bounds m : 1 <= m <= 12 -> 0 <= daysBefore (m - 1) <= 334.
Proof.
  intros H.
  month_case m H;
    vm_compute; split; discriminate.
Qed.

Lemma daysSinceEpoch_civil y :
  1969 <= y <= 2068 ->
  daysSinceEpoch y = epochDays + days_from_epoch y 1 1.
Proof.
  intros H.
  assert (C : forallb (fun k => daysSinceEpoch (1969 + Z.of_nat k)
                                =? epochDays + days_from_epoch (1969 + Z.of_nat k) 1 1)
                      (seq 0 100) = true) by (vm_compute; reflexivity).
  pose proof (forall_below _ _ C (Z.to_nat (y - 1969)) ltac:(lia)) as Hy.
  cbv beta in Hy. rewrite Z2Nat.id in Hy by lia.
  replace (1969 + (y - 1969)) with y in Hy by lia.
  now apply Z.eqb_eq in Hy.
Qed.

Lemma daysBefore_civil b m :
  1 <= m <= 12 ->
  daysBefore (m - 1) + (if b && (m >=? March) then 1 else 0)
  = days_of_months b (Z.to_nat (m - 1)).
Proof.
  intros H.
  month_case m H;
    destruct b; vm_compute; reflexivity.
Qed.

Lemma days_from_epoch_split y m d :
  days_from_epoch y m d = days_from_epoch y 1 1 + days_before_month y m + (d - 1).
Proof. unfold days_from_epoch, days_before_month. simpl. lia. Qed.

Lemma days_from_epoch_bounds y :
  1969 <= y <= 2068 -> -365 <= days_from_epoch y 1 1 <= 36525.
Proof.
  intros H. unfold days_from_epoch, days_before_month, leap_years_before.
  change (days_of_months (leap_year y) (Z.to_nat (1 - 1))) with 0.
  zdiv.
Qed.

Lemma Date_UTC_civil c :
  valid_civil c ->
  Date (cYear c) (cMonth c) (cDay c) (cHour c) (cMin c) (cSec c) 0 UTC
  = {| unixSec := utc_instant c; nsec := 0; loc := UTC |}.
Proof.
  intros (Hy & Hm & Hd & Hh & Hmi & Hs).
  assert (Hd' : 1 <= cDay c <= 31).
  { split; [lia|]. destruct Hd as [_ Hd]. unfold month_length, month_length_in in Hd.
    repeat match type of Hd with context [match ?x with _ => _ end] => destruct x end; lia. }
  unfold Date.
  rewrite (norm_id (cYear c) (cMonth c - 1) 12) by lia.
  rewrite (norm_id (cSec c) 0 1000000000) by lia.
  rewrite (norm_id (cMin c) (cSec c) 60) by lia.
  rewrite (norm_id (cHour c) (cMin c) 60) by lia.
  rewrite (norm_id (cDay c) (cHour c) 24) by lia.
  cbv zeta.
  change (zoneLookup UTC ?x) with (0, alpha, omega). cbv iota beta.
  change (0 =? 0) with true. cbv iota.
  f_equal.
  replace (cMonth c - 1 + 1) with (cMonth c) by lia.
  pose proof (daysBefore_civil (isLeap (cYear c)) (cMonth c) Hm) as HB.
  pose proof (daysBefore_bounds (cMonth c) Hm) as HBb.
  pose proof (daysSinceEpoch_civil (cYear c) Hy) as HD.
  pose proof (days_from_epoch_bounds (cYear c) Hy) as HE.
  unfold utc_instant. rewrite (days_from_epoch_split (cYear c) (cMonth c) (cDay c)).
  unfold days_before_month. rewrite <- (isLeap_leap_year (cYear c)) by lia.
  rewrite <- HB, HD.
  generalize dependent (days_from_epoch (cYear c) 1 1). intros E _ HE.
  generalize dependent (daysBefore (cMonth c - 1)). intros B _ HB.
  change (absoluteToInternal + internalToUnix) with (-9223372028715321600).
  change secondsPerDay with 86400. change secondsPerHour with 3600.
  change secondsPerMinute with 60. unfold epochDays.
  destruct (isLeap (cYear c) && (cMonth c >=? March));
    repeat match goal with
           | |- context [uint64 ?x] => rewrite (uint64_small x) by lia
           | |- context [int64 ?x] => rewrite (int64_small x) by lia
           end; lia.
Qed.
End Tokens.

(** ** The texts that [time.Parse] accepts, and the instants they denote *)

Section Denotation.

Import time.

(** *** Characters *)

Lemma digit_value_byte a :
  digit_value a = if isDigitByte a then Some (byte a - 48) else None.
Proof. destruct a as [[] [] [] [] [] [] [] []]; reflexivity. Qed.

Lemma digit_value_range a x : digit_value a = Some x -> 0 <= x <= 9.
Proof.
  rewrite digit_value_byte. unfold isDigitByte.
  destruct (48 <=? byte a) eqn:E1; [|discriminate].
  destruct (byte a <=? 57) eqn:E2; [|discriminate].
  apply Z.leb_le in E1, E2. intros [= <-]. lia.
Qed.

Lemma two_digit_number_range a b n : two_digit_number a b = Some n -> 0 <= n <= 99.
Proof.
  unfold two_digit_number.
  destruct (digit_value a) as [x|] eqn:Ea; [|discriminate].
  destruct (digit_value b) as [y|] eqn:Eb; [|discriminate].
  apply digit_value_range in Ea, Eb. intros [= <-]. lia.
Qed.

Lemma digit_not_space a x : digit_value a = Some x -> Ascii.eqb a " " = false.
Proof.
  destruct (Ascii.eqb a " ") eqn:E; [|reflexivity].
  apply Ascii.eqb_eq in E. subst a. discriminate.
Qed.

(** *** Numbers of one and two digits *)

Lemma getnum_fixed s :
  getnum s true =
  match s with
  | String a (String b r) =>
      match two_digit_number a b with
      | Some n => Ok (n, r)
      | None => Err tt
      end
  | _ => Err tt
  end.
Proof.
  unfold getnum, two_digit_number. destruct s as [|a [|b r]]; [reflexivity| |].
  - destruct (isDigitByte a); reflexivity.
  - rewrite (digit_value_byte a), (digit_value_byte b).
    destruct (isDigitByte a), (isDigitByte b); cbn [negb]; try reflexivity.
    do 2 f_equal. lia.
Qed.

Lemma getnum_free s :
  getnum s false =
  match read_hour s with
  | Some (h, r) => Ok (h, r)
  | None => Err tt
  end.
Proof.
  unfold getnum, read_hour, two_digit_number. destruct s as [|a [|b r]]; [reflexivity| |].
  - rewrite (digit_value_byte a). destruct (isDigitByte a); reflexivity.
  - rewrite (digit_value_byte a), (digit_value_byte b).
    destruct (isDigitByte a), (isDigitByte b); cbn [negb option_map]; try reflexivity.
    do 2 f_equal. lia.
Qed.

(** *** Literal text *)

Lemma skip_char c s :
  Ascii.eqb c " " = false ->
  skip s (String c EmptyString) =
  match s with
  | String a r => if Ascii.eqb a c then Ok r else Err s
  | EmptyString => Err s
  end.
Proof.
  intros H. unfold skip. cbn [skip_from]. rewrite H.
  destruct s as [|a r]; [reflexivity|]. destruct (Ascii.eqb a c); reflexivity.
Qed.

Lemma skip_space s :
  skip s " " =
  match s with
  | String a _ => if Ascii.eqb a " " then Ok (cutspace s) else Err s
  | EmptyString => Ok EmptyString
  end.
Proof.
  unfold skip. cbn [skip_from]. change (Ascii.eqb " " " ") with true. cbv iota.
  destruct s as [|a r]; [reflexivity|]. destruct (Ascii.eqb a " "); reflexivity.
Qed.

End Denotation.

Section Months.

Import time.

(** The comparison of two bytes in [match]. *)
Lemma match_byte a b :
  is_letter b = true ->
  (if Ascii.eqb a b then true
   else negb (negb (Z.lor (byte a) 32 =? Z.lor (byte b) 32)
              || (Z.lor (byte a) 32 <? 97) || (Z.lor (byte a) 32 >? 122)))
  = Ascii.eqb (lower_case a) (lower_case b).
Proof.
  intros Hb.
  assert (C : forallb (fun i => forallb (fun j =>
                let a := ascii_of_nat i in
                let b := ascii_of_nat j in
                implb (is_letter b)
                  (Bool.eqb
                     (if Ascii.eqb a b then true
                      else negb (negb (Z.lor (byte a) 32 =? Z.lor (byte b) 32)
                                 || (Z.lor (byte a) 32 <? 97)
                                 || (Z.lor (byte a) 32 >? 122)))
                     (Ascii.eqb (lower_case a) (lower_case b))))
              (seq 0 256)) (seq 0 256) = true) by (vm_compute; reflexivity).
  pose proof (forall_below _ _ C (nat_of_ascii a) (nat_ascii_bounded a)) as Ca.
  cbv beta in Ca.
  pose proof (forall_below _ _ Ca (nat_of_ascii b) (nat_ascii_bounded b)) as Cb.
  cbv beta zeta in Cb. rewrite !ascii_nat_embedding in Cb. rewrite Hb in Cb.
  cbn [implb] in Cb. now apply Bool.eqb_prop in Cb.
Qed.

Lemma match_fold_three a b c v :
  three_letters v = true ->
  match_fold (String a (String b (String c EmptyString))) v
  = String.eqb (lower_case_string (String a (String b (String c EmptyString))))
               (lower_case_string v).
Proof.
  destruct v as [|x [|y [|z [|]]]]; try discriminate.
  cbn [three_letters]. intros H.
  apply andb_prop in H. destruct H as [H Hz]. apply andb_prop in H. destruct H as [Hx Hy].
  cbn [match_fold lower_case_string String.eqb]. cbv zeta.
  rewrite (match_byte a x Hx), (match_byte b y Hy), (match_byte c z Hz).
  destruct (Ascii.eqb (lower_case a) (lower_case x)),
           (Ascii.eqb (lower_case b) (lower_case y)),
           (Ascii.eqb (lower_case c) (lower_case z)); reflexivity.
Qed.

Lemma lookupTab_name_among tab i a b c r :
  forallb three_letters tab = true ->
  lookupTab tab i (String a (String b (String c r))) =
  match name_among tab (i + 1) (String a (String b (String c EmptyString))) with
  | Some m => Ok (m - 1, r)
  | None => Err tt
  end.
Proof.
  revert i. induction tab as [|v tab IH]; intros i H; [reflexivity|].
  cbn [forallb] in H. apply andb_prop in H. destruct H as [Hv Ht].
  cbn [lookupTab name_among].
  rewrite <- (match_fold_three a b c v Hv).
  destruct v as [|x [|y [|z [|]]]]; try discriminate.
  cbn [String.length Nat.leb take_bytes drop_bytes andb].
  destruct (match_fold _ _).
  - do 2 f_equal. lia.
  - apply IH. exact Ht.
Qed.

Lemma lookupTab_month_named s :
  lookupTab shortMonthNames 0 s =
  match s with
  | String a (String b (String c r)) =>
      match month_named (String a (String b (String c EmptyString))) with
      | Some m => Ok (m - 1, r)
      | None => Err tt
      end
  | _ => Err tt
  end.
Proof.
  destruct s as [|a [|b [|c r]]]; try reflexivity.
  now rewrite lookupTab_name_among.
Qed.

Lemma name_among_range names i name m :
  name_among names i name = Some m -> i <= m < i + Z.of_nat (length names).
Proof.
  revert i. induction names as [|n names IH]; intros i; [discriminate|].
  cbn [name_among length]. destruct (String.eqb _ _).
  - intros [= <-]. lia.
  - intros H. apply IH in H. lia.
Qed.

Lemma month_named_range name m : month_named name = Some m -> 1 <= m <= 12.
Proof. intros H. apply name_among_range in H. simpl in H. lia. Qed.

End Months.

Section Years.

Import time.

Lemma leadingInt_digit x a s :
  0 <= x <= 9 ->
  isDigitByte a = true ->
  leadingInt x (String a s) = leadingInt (x * 10 + byte a - 48) s.
Proof.
  intros Hx Ha. cbn [leadingInt]. rewrite Ha. cbn [negb].
  unfold isDigitByte in Ha. apply andb_prop in Ha. destruct Ha as [H1 H2].
  apply Z.leb_le in H1, H2.
  change (2 ^ 63 / 10) with 922337203685477580.
  change (2 ^ 63) with 9223372036854775808.
  destruct (x >? 922337203685477580) eqn:E1; [apply Z.gtb_lt in E1; lia|].
  rewrite uint64_small by lia.
  destruct (x * 10 + byte a - 48 >? 9223372036854775808) eqn:E2;
    [apply Z.gtb_lt in E2; lia|reflexivity].
Qed.

Lemma leadingInt_other x a s :
  isDigitByte a = false -> leadingInt x (String a s) = Ok (x, String a s).
Proof. intros Ha. cbn [leadingInt]. now rewrite Ha. Qed.

Lemma sign_not_digit a :
  Ascii.eqb a "-" || Ascii.eqb a "+" = true -> isDigitByte a = false.
Proof.
  intros H. apply orb_prop in H. destruct H as [H|H]; apply Ascii.eqb_eq in H;
    subst a; reflexivity.
Qed.

Lemma atoi_two_bytes a b :
  atoi (String a (String b EmptyString)) =
  match year_number a b with
  | Some y => Ok y
  | None => Err tt
  end.
Proof.
  unfold atoi, year_number, two_digit_number.
  rewrite (digit_value_byte a), (digit_value_byte b).
  destruct (Ascii.eqb a "-") eqn:Em; cbn [orb].
  - destruct (isDigitByte b) eqn:Eb.
    + rewrite leadingInt_digit by (lia || exact Eb). cbn [leadingInt option_map].
      unfold isDigitByte in Eb. apply andb_prop in Eb. destruct Eb as [H1 H2].
      apply Z.leb_le in H1, H2. rewrite int64_small by lia. f_equal; lia.
    + rewrite leadingInt_other by exact Eb. reflexivity.
  - destruct (Ascii.eqb a "+") eqn:Ep.
    + destruct (isDigitByte b) eqn:Eb.
      * rewrite leadingInt_digit by (lia || exact Eb). cbn [leadingInt].
        unfold isDigitByte in Eb. apply andb_prop in Eb. destruct Eb as [H1 H2].
        apply Z.leb_le in H1, H2. rewrite int64_small by lia. f_equal; lia.
      * rewrite leadingInt_other by exact Eb. reflexivity.
    + destruct (isDigitByte a) eqn:Ea.
      * rewrite leadingInt_digit by (lia || exact Ea).
        unfold isDigitByte in Ea. apply andb_prop in Ea. destruct Ea as [H1 H2].
        apply Z.leb_le in H1, H2.
        destruct (isDigitByte b) eqn:Eb.
        -- rewrite leadingInt_digit by (lia || exact Eb). cbn [leadingInt].
           unfold isDigitByte in Eb. apply andb_prop in Eb. destruct Eb as [H3 H4].
           apply Z.leb_le in H3, H4. rewrite int64_small by lia. f_equal; lia.
        -- rewrite leadingInt_other by exact Eb. reflexivity.
      * rewrite leadingInt_other by exact Ea. reflexivity.
Qed.

Lemma parseStd_year f value :
  parseStd stdYear f value =
  match value with
  | String a (String b r) =>
      match year_number a b with
      | Some y =>
          stepOk {| pYear := if y >=? 69 then y + 1900 else y + 2000;
                    pMonth := pMonth f; pDay := pDay f;
                    pHour := pHour f; pMin := pMin f; pSec := pSec f;
                    pNsec := pNsec f; pZoneOffset := pZoneOffset f |} r
      | None => stepBad
      end
  | _ => stepBad
  end.
Proof.
  destruct value as [|a [|b r]]; try reflexivity.
  cbn [parseStd String.length Nat.ltb Nat.leb take_bytes drop_bytes].
  rewrite atoi_two_bytes. destruct (year_number a b); reflexivity.
Qed.

Lemma year_number_unsigned a b :
  Ascii.eqb a "-" || Ascii.eqb a "+" = false ->
  year_number a b = two_digit_number a b.
Proof.
  unfold year_number. intros H. apply orb_false_elim in H. destruct H as [-> ->].
  reflexivity.
Qed.

Lemma year_number_range a b y : year_number a b = Some y -> -9 <= y <= 99.
Proof.
  unfold year_number.
  destruct (Ascii.eqb a "-").
  - destruct (digit_value b) as [x|] eqn:E; [|discriminate].
    apply digit_value_range in E. intros [= <-]. lia.
  - destruct (Ascii.eqb a "+").
    + intros H. apply digit_value_range in H. lia.
    + intros H. apply two_digit_number_range in H. lia.
Qed.

Lemma year_number_not_space a b y :
  year_number a b = Some y -> Ascii.eqb a " " = false /\ Ascii.eqb b " " = false.
Proof.
  unfold year_number, two_digit_number.
  destruct (Ascii.eqb a "-") eqn:E1.
  - apply Ascii.eqb_eq in E1. subst a.
    destruct (digit_value b) as [x|] eqn:E; [|discriminate].
    intros _. split; [reflexivity|]. eapply digit_not_space; eauto.
  - destruct (Ascii.eqb a "+") eqn:E2.
    + apply Ascii.eqb_eq in E2. subst a. intros H. split; [reflexivity|].
      eapply digit_not_space; eauto.
    + destruct (digit_value a) as [x|] eqn:Ea; [|discriminate].
      destruct (digit_value b) as [x'|] eqn:Eb; [|discriminate].
      intros _. split; eapply digit_not_space; eauto.
Qed.

End Years.

Section Fractions.

Import time.

Lemma digitSpan_to_the_end s :
  drop_bytes (digitSpan s) s = EmptyString -> all_digits s = true.
Proof.
  induction s as [|a s IH]; [reflexivity|].
  cbn [digitSpan all_digits]. destruct (isDigitByte a).
  - cbn [drop_bytes andb]. exact IH.
  - discriminate.
Qed.

Lemma digitSpan_all_digits s : all_digits s = true -> digitSpan s = String.length s.
Proof.
  induction s as [|a s IH]; [reflexivity|].
  cbn [digitSpan all_digits String.length]. destruct (isDigitByte a); [|discriminate].
  intros H. now rewrite (IH H).
Qed.

Lemma nanoseconds_zero ds r : nanoseconds ds 0 = Some r -> r = 0.
Proof.
  revert r. induction ds as [|a ds IH]; intros r.
  - now intros [= <-].
  - cbn [nanoseconds]. destruct (digit_value a) as [x|]; [|discriminate].
    change (0 / 10) with 0. destruct (nanoseconds ds 0) as [r'|]; [|discriminate].
    intros [= <-]. rewrite (IH r' eq_refl). lia.
Qed.

Lemma take_bytes_length j s : take_bytes (Nat.min j (String.length s)) s = take_bytes j s.
Proof.
  revert j. induction s as [|a s IH]; intros [|j]; try reflexivity.
  cbn [String.length Nat.min take_bytes]. now rewrite IH.
Qed.

Lemma pow10_succ j : 10 ^ Z.of_nat (S j) = 10 * 10 ^ Z.of_nat j.
Proof. rewrite Nat2Z.inj_succ. apply Z.pow_succ_r. lia. Qed.

Lemma pow10_pos j : 0 < 10 ^ Z.of_nat j.
Proof. apply Z.pow_pos_nonneg; lia. Qed.

Lemma pow10_le_9 j : (j <= 9)%nat -> 10 ^ Z.of_nat j <= 1000000000.
Proof.
  intros H. change 1000000000 with (10 ^ Z.of_nat 9).
  apply Z.pow_le_mono_r; lia.
Qed.

(** The digits that [atoi] reads in a fraction, at most [j] of them
    after the number [x] read so far, and the nanoseconds they stand
    for. *)
Lemma leadingInt_nanoseconds ds j x :
  all_digits ds = true ->
  (j <= 9)%nat ->
  0 <= x ->
  (x + 1) * 10 ^ Z.of_nat j <= 1000000000 ->
  exists X r,
    leadingInt x (take_bytes j ds) = Ok (X, EmptyString)
    /\ nanoseconds ds (10 ^ Z.of_nat j / 10) = Some r
    /\ 0 <= r < 10 ^ Z.of_nat j
    /\ X * 10 ^ Z.of_nat (j - Nat.min j (String.length ds)) = x * 10 ^ Z.of_nat j + r.
Proof.
  revert j x. induction ds as [|a ds IH]; intros j x Hd Hj Hx Hb.
  - exists x, 0. destruct j as [|j].
    + cbn. repeat split; lia.
    + cbn [take_bytes leadingInt nanoseconds String.length].
      rewrite Nat.min_0_r, Nat.sub_0_r. pose proof (pow10_pos (S j)).
      repeat split; lia.
  - cbn [all_digits] in Hd. apply andb_prop in Hd. destruct Hd as [Ha Hd].
    destruct j as [|j].
    + exists x. cbn [take_bytes leadingInt nanoseconds].
      change (10 ^ Z.of_nat 0 / 10) with 0. change (0 / 10) with 0.
      rewrite digit_value_byte, Ha.
      destruct (IH 0%nat x Hd ltac:(lia) Hx Hb) as (X & r & _ & Hr & _).
      change (10 ^ Z.of_nat 0 / 10) with 0 in Hr. rewrite Hr.
      apply nanoseconds_zero in Hr. subst r.
      exists ((byte a - 48) * 0 + 0). cbn. repeat split; lia.
    + pose proof (pow10_succ j) as Hs. pose proof (pow10_pos j) as Hp.
      pose proof (pow10_le_9 j ltac:(lia)) as Hl.
      pose proof Ha as Ha'. unfold isDigitByte in Ha'.
      apply andb_prop in Ha'. destruct Ha' as [H1 H2]. apply Z.leb_le in H1, H2.
      rewrite Hs in Hb.
      destruct (IH j (x * 10 + byte a - 48) Hd ltac:(lia) ltac:(lia) ltac:(nia))
        as (X & r & HX & Hr & Hrb & HE).
      exists X, ((byte a - 48) * 10 ^ Z.of_nat j + r).
      cbn [take_bytes String.length Nat.min Nat.sub].
      assert (Hu : 10 ^ Z.of_nat (S j) / 10 = 10 ^ Z.of_nat j).
      { rewrite Hs. rewrite Z.mul_comm. apply Z.div_mul. lia. }
      rewrite Hu. cbn [nanoseconds]. rewrite digit_value_byte, Ha, Hr.
      split; [|split; [reflexivity|split; [nia|]]].
      * cbn [leadingInt]. rewrite Ha. cbn [negb].
        change (2 ^ 63 / 10) with 922337203685477580.
        change (2 ^ 63) with 9223372036854775808.
        destruct (x >? 922337203685477580) eqn:E1; [apply Z.gtb_lt in E1; nia|].
        rewrite uint64_small by nia.
        destruct (x * 10 + byte a - 48 >? 9223372036854775808) eqn:E2;
          [apply Z.gtb_lt in E2; nia|exact HX].
      * rewrite HE. rewrite Hs. lia.
Qed.

(** The fraction of a second as [parseNanoseconds] reads it. *)
Lemma parseNanoseconds_fraction c ds :
  commaOrPeriod c = true ->
  ds <> EmptyString ->
  all_digits ds = true ->
  exists r,
    parseNanoseconds (String c ds) (S (String.length ds)) = nanoOk r
    /\ nanoseconds ds 100000000 = Some r
    /\ 0 <= r < 1000000000.
Proof.
  intros Hc Hne Hd.
  destruct (leadingInt_nanoseconds ds 9 0 Hd ltac:(lia) ltac:(lia) ltac:(lia))
    as (X & r & HX & Hr & Hrb & HE).
  exists r. split; [|split; [exact Hr|exact Hrb]].
  unfold parseNanoseconds. rewrite Hc. cbn [negb drop_bytes].
  assert (Ht : take_bytes ((if (10 <? S (String.length ds))%nat then 10%nat
                            else S (String.length ds)) - 1) ds = take_bytes 9 ds).
  { destruct (10 <? S (String.length ds))%nat eqn:E.
    - reflexivity.
    - apply Nat.ltb_ge in E. rewrite <- (take_bytes_length 9 ds).
      f_equal. lia. }
  rewrite Ht. unfold atoi.
  destruct ds as [|a ds']; [contradiction|].
  cbn [all_digits] in Hd. apply andb_prop in Hd. destruct Hd as [Ha Hd].
  assert (Hs : Ascii.eqb a "-" || Ascii.eqb a "+" = false).
  { destruct (Ascii.eqb a "-" || Ascii.eqb a "+") eqn:E; [|reflexivity].
    apply sign_not_digit in E. congruence. }
  cbn [take_bytes] in *. rewrite Hs. rewrite HX.
  assert (HXb : 0 <= X < 1000000000).
  { pose proof (pow10_pos (9 - Nat.min 9 (String.length (String a ds')))) as Hp.
    change (10 ^ Z.of_nat 9) with 1000000000 in *. nia. }
  rewrite int64_small by lia.
  destruct (X <? 0) eqn:E; [apply Z.ltb_lt in E; lia|].
  f_equal.
  replace (10 - (if (10 <? S (String.length (String a ds')))%nat then 10%nat
                 else S (String.length (String a ds'))))%nat
    with (9 - Nat.min 9 (String.length (String a ds')))%nat.
  - rewrite HE. lia.
  - destruct (10 <? S (String.length (String a ds')))%nat eqn:E'.
    + apply Nat.ltb_lt in E'. lia.
    + apply Nat.ltb_ge in E'. lia.
Qed.

End Fractions.

Section Inversion.

Import time.

(** The last element of the layout, when nothing is left after it. *)
Lemma parseStd_second_end f value f' :
  pNsec f = 0 ->
  parseStd stdZeroSecond f value = stepOk f' EmptyString ->
  exists b1 b2 frac sc ns,
    value = String b1 (String b2 frac)
    /\ two_digit_number b1 b2 = Some sc
    /\ 0 <= sc < 60
    /\ read_fraction frac = Some ns
    /\ 0 <= ns < 1000000000
    /\ f' = {| pYear := pYear f; pMonth := pMonth f; pDay := pDay f;
               pHour := pHour f; pMin := pMin f; pSec := sc;
               pNsec := ns; pZoneOffset := pZoneOffset f |}.
Proof.
  intros Hn H. cbn [parseStd] in H. rewrite getnum_fixed in H.
  destruct value as [|b1 [|b2 frac]]; try discriminate.
  destruct (two_digit_number b1 b2) as [sc|] eqn:Esc; [|discriminate].
  pose proof (two_digit_number_range _ _ _ Esc) as Hsc.
  destruct ((sc <? 0) || (60 <=? sc)) eqn:Er; [discriminate|].
  apply orb_false_elim in Er. destruct Er as [_ Er]. apply Z.leb_gt in Er.
  exists b1, b2, frac, sc.
  destruct frac as [|c0 [|c1 rest]].
  - exists 0. injection H as <-. rewrite Hn.
    repeat split; try reflexivity; try assumption; lia.
  - discriminate.
  - destruct (commaOrPeriod c0 && isDigitByte c1) eqn:Et; [|discriminate].
    apply andb_prop in Et. destruct Et as [Hc0 Hc1].
    destruct (parseNanoseconds _ _) as [ns| |] eqn:En; try discriminate.
    injection H as <- Hrest. cbn [Nat.add drop_bytes] in Hrest.
    apply digitSpan_to_the_end in Hrest.
    assert (Hd : all_digits (String c1 rest) = true)
      by (cbn [all_digits]; now rewrite Hc1, Hrest).
    destruct (parseNanoseconds_fraction c0 (String c1 rest) Hc0 ltac:(discriminate) Hd)
      as (r & Hp & Hr & Hrb).
    rewrite (digitSpan_all_digits rest Hrest) in En.
    cbn [String.length] in Hp. cbn [Nat.add] in En. rewrite Hp in En.
    injection En as <-.
    exists r. cbn [read_fraction]. unfold commaOrPeriod in Hc0. rewrite Hc0.
    repeat split; try reflexivity; try assumption; lia.
Qed.

(** The elements of the layout, one by one. *)
Lemma parseStd_day f value :
  parseStd stdZeroDay f value =
  match value with
  | String a (String b r) =>
      match two_digit_number a b with
      | Some d =>
          stepOk {| pYear := pYear f; pMonth := pMonth f; pDay := d;
                    pHour := pHour f; pMin := pMin f; pSec := pSec f;
                    pNsec := pNsec f; pZoneOffset := pZoneOffset f |} r
      | None => stepBad
      end
  | _ => stepBad
  end.
Proof.
  cbn [parseStd]. rewrite getnum_fixed.
  destruct value as [|a [|b r]]; try reflexivity.
  destruct (two_digit_number a b); reflexivity.
Qed.

Lemma parseStd_month f value :
  parseStd stdMonth f value =
  match value with
  | String a (String b (String c r)) =>
      match month_named (String a (String b (String c EmptyString))) with
      | Some m =>
          stepOk {| pYear := pYear f; pMonth := m; pDay := pDay f;
                    pHour := pHour f; pMin := pMin f; pSec := pSec f;
                    pNsec := pNsec f; pZoneOffset := pZoneOffset f |} r
      | None => stepBad
      end
  | _ => stepBad
  end.
Proof.
  cbn [parseStd]. rewrite lookupTab_month_named.
  destruct value as [|a [|b [|c r]]]; try reflexivity.
  destruct (month_named _) as [m|]; [|reflexivity].
  replace (m - 1 + 1) with m by lia. reflexivity.
Qed.

Lemma parseStd_hour f value :
  parseStd stdHour f value =
  match read_hour value with
  | Some (h, r) =>
      if (h <? 0) || (24 <=? h) then stepRange "hour" r
      else stepOk {| pYear := pYear f; pMonth := pMonth f; pDay := pDay f;
                     pHour := h; pMin := pMin f; pSec := pSec f;
                     pNsec := pNsec f; pZoneOffset := pZoneOffset f |} r
  | None => stepBad
  end.
Proof.
  cbn [parseStd]. rewrite getnum_free.
  destruct (read_hour value) as [[h r]|]; reflexivity.
Qed.

Lemma parseStd_minute f value :
  parseStd stdZeroMinute f value =
  match value with
  | String a (String b r) =>
      match two_digit_number a b with
      | Some m =>
          if (m <? 0) || (60 <=? m) then stepRange "minute" r
          else stepOk {| pYear := pYear f; pMonth := pMonth f; pDay := pDay f;
                         pHour := pHour f; pMin := m; pSec := pSec f;
                         pNsec := pNsec f; pZoneOffset := pZoneOffset f |} r
      | None => stepBad
      end
  | _ => stepBad
  end.
Proof.
  cbn [parseStd]. rewrite getnum_fixed.
  destruct value as [|a [|b r]]; try reflexivity.
  destruct (two_digit_number a b); reflexivity.
Qed.

(** What [parse] accepts for the layout of the program: the text and the
    fields read from it. *)
Lemma parseChunks_layout avalue value f rest :
  parseChunks layout_02_Jan_06_15_04_05 avalue (chunks layout_02_Jan_06_15_04_05)
    initFields value = Ok (f, rest) ->
  exists d1 d2 m1 m2 m3 y1 y2 after d m y h mi sc ns,
    value = String d1 (String d2 (String "-" (String m1 (String m2 (String m3
              (String "-" (String y1 (String y2 (String " " after)))))))))
    /\ two_digit_number d1 d2 = Some d
    /\ month_named (String m1 (String m2 (String m3 EmptyString))) = Some m
    /\ year_number y1 y2 = Some y
    /\ read_time (cutspace (String " " after)) = Some (h, mi, sc, ns)
    /\ 0 <= h < 24 /\ 0 <= mi < 60 /\ 0 <= sc < 60 /\ 0 <= ns < 1000000000
    /\ rest = EmptyString
    /\ f = {| pYear := if y >=? 69 then y + 1900 else y + 2000;
              pMonth := m; pDay := d; pHour := h; pMin := mi; pSec := sc;
              pNsec := ns; pZoneOffset := -1 |}.
Proof.
  intros H.
  cbn [chunks layout_02_Jan_06_15_04_05 parseChunks] in H.
  change (skip value EmptyString) with (Ok (E:=string) value) in H. cbv iota in H.
  (* the day *)
  rewrite parseStd_day in H.
  destruct value as [|d1 [|d2 v]]; try discriminate.
  destruct (two_digit_number d1 d2) as [d|] eqn:Ed; [|discriminate].
  rewrite skip_char in H by reflexivity.
  destruct v as [|c v]; [discriminate|].
  destruct (Ascii.eqb c "-") eqn:Ec; [|discriminate].
  apply Ascii.eqb_eq in Ec. subst c.
  (* the month *)
  rewrite parseStd_month in H.
  destruct v as [|m1 [|m2 [|m3 v]]]; try discriminate.
  destruct (month_named _) as [m|] eqn:Em; [|discriminate].
  rewrite skip_char in H by reflexivity.
  destruct v as [|c v]; [discriminate|].
  destruct (Ascii.eqb c "-") eqn:Ec; [|discriminate].
  apply Ascii.eqb_eq in Ec. subst c.
  (* the year *)
  rewrite parseStd_year in H.
  destruct v as [|y1 [|y2 v]]; try discriminate.
  destruct (year_number y1 y2) as [y|] eqn:Ey; [|discriminate].
  (* the space *)
  rewrite skip_space in H.
  destruct v as [|c after]; [discriminate|].
  destruct (Ascii.eqb c " ") eqn:Ec; [|discriminate].
  apply Ascii.eqb_eq in Ec. subst c.
  (* the hour *)
  rewrite parseStd_hour in H.
  destruct (read_hour (cutspace (String " " after))) as [[h v]|] eqn:Eh; [|discriminate].
  destruct ((h <? 0) || (24 <=? h)) eqn:Erh; [discriminate|].
  rewrite skip_char in H by reflexivity.
  destruct v as [|c v]; [discriminate|].
  destruct (Ascii.eqb c ":") eqn:Ec; [|discriminate].
  apply Ascii.eqb_eq in Ec. subst c.
  (* the minute *)
  rewrite parseStd_minute in H.
  destruct v as [|a1 [|a2 v]]; try discriminate.
  destruct (two_digit_number a1 a2) as [mi|] eqn:Emi; [|discriminate].
  destruct ((mi <? 0) || (60 <=? mi)) eqn:Ermi; [discriminate|].
  rewrite skip_char in H by reflexivity.
  destruct v as [|c v]; [discriminate|].
  destruct (Ascii.eqb c ":") eqn:Ec; [|discriminate].
  apply Ascii.eqb_eq in Ec. subst c.
  (* the second and the end *)
  destruct (parseStd stdZeroSecond _ v) as [f' v'| |] eqn:Es; try discriminate.
  cbn [suffix] in H.
  change (skip v' EmptyString) with (Ok (E:=string) v') in H. cbv iota in H.
  destruct v' as [|]; [|discriminate].
  injection H as <- <-.
  apply parseStd_second_end in Es; [|reflexivity].
  destruct Es as (b1 & b2 & frac & sc & ns & -> & Esc & Hsc & Efr & Hns & ->).
  cbn [pYear pMonth pDay pHour pMin pSec pNsec pZoneOffset initFields].
  exists d1, d2, m1, m2, m3, y1, y2, after, d, m, y, h, mi, sc, ns.
  apply orb_false_elim in Erh, Ermi.
  destruct Erh as [Eh1 Eh2]. destruct Ermi as [Em1 Em2].
  apply Z.ltb_ge in Eh1, Em1. apply Z.leb_gt in Eh2, Em2.
  repeat split; try assumption; try lia.
  unfold read_time. rewrite Eh. cbn [Ascii.eqb Bool.eqb andb].
  now rewrite Emi, Esc, Efr.
Qed.

End Inversion.

Section Denoted.

Import time.

Lemma Date_nsec year month day hour min sec ns l :
  0 <= ns < 1000000000 ->
  Date year month day hour min sec ns l
  = {| unixSec := unixSec (Date year month day hour min sec 0 l); nsec := ns; loc := l |}.
Proof.
  intros H. unfold Date.
  rewrite (norm_id sec ns 1000000000) by exact H.
  rewrite (norm_id sec 0 1000000000) by lia.
  repeat match goal with
         | |- context [let '(_, _) := ?x in _] => destruct x
         end.
  reflexivity.
Qed.

Lemma Date_UTC_civil_nsec c ns :
  valid_civil c ->
  0 <= ns < 1000000000 ->
  Date (cYear c) (cMonth c) (cDay c) (cHour c) (cMin c) (cSec c) ns UTC
  = {| unixSec := utc_instant c; nsec := ns; loc := UTC |}.
Proof.
  intros Hc Hns. rewrite Date_nsec by exact Hns.
  now rewrite (Date_UTC_civil c Hc).
Qed.

Lemma valid_civilb_true c : valid_civil c -> valid_civilb c = true.
Proof.
  intros (Hy & Hm & Hd & Hh & Hmi & Hs). unfold valid_civilb.
  repeat (apply andb_true_intro; split);
    try (apply Z.leb_le; lia); apply Z.ltb_lt; lia.
Qed.

(** *** The two tokens of a date-time *)

Lemma cut_at_space_tokens p0 p1 :
  no_space p0 = true -> cut_at_space (p0 +:+ String " " p1) = Some (p0, p1).
Proof.
  induction p0 as [|a p0 IH]; intros H; [reflexivity|].
  cbn [no_space] in H. apply andb_prop in H. destruct H as [Ha H].
  apply negb_true_iff in Ha.
  change (String a p0 +:+ String " " p1) with (String a (p0 +:+ String " " p1)).
  cbn [cut_at_space]. now rewrite Ha, (IH H).
Qed.

Lemma tokens_at_the_space p0 p1 q0 q1 :
  no_space p0 = true -> no_space q0 = true ->
  p0 +:+ String " " p1 = q0 +:+ String " " q1 -> p0 = q0 /\ p1 = q1.
Proof.
  intros Hp Hq H.
  pose proof (cut_at_space_tokens p0 p1 Hp) as E1.
  pose proof (cut_at_space_tokens q0 q1 Hq) as E2.
  rewrite H in E1. rewrite E1 in E2. now injection E2.
Qed.

Lemma cutspace_token p1 : no_space p1 = true -> cutspace (String " " p1) = p1.
Proof.
  intros H. unfold cutspace. cbn [strings.trimLeftByte Ascii.eqb Bool.eqb].
  destruct p1 as [|a p1]; [reflexivity|].
  cbn [no_space] in H. apply andb_prop in H. destruct H as [Ha _].
  apply negb_true_iff in Ha. cbn [strings.trimLeftByte]. now rewrite Ha.
Qed.

Lemma name_among_found names i name m :
  name_among names i name = Some m ->
  exists n, In n names /\ lower_case_string name = lower_case_string n.
Proof.
  revert i. induction names as [|n names IH]; intros i; [discriminate|].
  cbn [name_among]. destruct (String.eqb _ _) eqn:E.
  - intros _. exists n. split; [now left|]. now apply String.eqb_eq.
  - intros H. destruct (IH _ H) as (n' & Hin & Hn'). exists n'. split; [now right|exact Hn'].
Qed.

Lemma month_named_no_space a b c m :
  month_named (String a (String b (String c EmptyString))) = Some m ->
  no_space (String a (String b (String c EmptyString))) = true.
Proof.
  intros H. apply name_among_found in H. destruct H as (n & Hin & Hn).
  cbn [no_space].
  assert (Hl : forall x y, lower_case x = lower_case y -> is_letter y = true ->
                           Ascii.eqb x " " = false).
  { intros x y Hxy Hy. destruct (Ascii.eqb x " ") eqn:E; [|reflexivity].
    apply Ascii.eqb_eq in E. subst x.
    destruct y as [[] [] [] [] [] [] [] []]; try discriminate Hy; discriminate Hxy. }
  cbn in Hin.
  repeat (destruct Hin as [<-|Hin];
          [cbn [lower_case_string] in Hn; injection Hn as H1 H2 H3;
           rewrite (Hl _ _ H1), (Hl _ _ H2), (Hl _ _ H3) by reflexivity;
           reflexivity|]).
  contradiction.
Qed.

Lemma two_digit_number_not_space a b n :
  two_digit_number a b = Some n ->
  Ascii.eqb a " " = false /\ Ascii.eqb b " " = false.
Proof.
  unfold two_digit_number.
  destruct (digit_value a) as [x|] eqn:Ea; [|discriminate].
  destruct (digit_value b) as [y|] eqn:Eb; [|discriminate].
  intros _. split; eapply digit_not_space; eauto.
Qed.

(** What [time.Parse] makes of the two tokens of a line: the instant of
    a date-time that exists, which is the one that the text denotes
    unless a sign stands in its year. *)
Lemma Parse_tokens Local p0 p1 t :
  no_space p0 = true -> no_space p1 = true ->
  Parse Local layout_02_Jan_06_15_04_05 (Sprintf_s_s p0 p1) = Ok t ->
  exists c ns,
    valid_civil c /\ 0 <= ns < 1000000000
    /\ t = {| unixSec := utc_instant c; nsec := ns; loc := UTC |}
    /\ (signed_year (Sprintf_s_s p0 p1) = false ->
        read_date_time (Sprintf_s_s p0 p1) = Some (c, ns)).
Proof.
  intros H0 H1 H. unfold Parse in H. rewrite parse_fields in H.
  destruct (parseChunks _ _ _ _ _) as [[f rest]|e] eqn:E; [|discriminate].
  apply parseChunks_layout in E.
  destruct E as (d1 & d2 & m1 & m2 & m3 & y1 & y2 & after & d & m & y & h & mi & sc & ns
                 & Ev & Ed & Em & Ey & Et & Hh & Hmi & Hsc & Hns & -> & ->).
  cbn [pYear pMonth pDay pHour pMin pSec pNsec] in H.
  pose proof (two_digit_number_range _ _ _ Ed) as Hd.
  pose proof (month_named_range _ _ Em) as Hm.
  pose proof (year_number_range _ _ _ Ey) as Hy.
  set (yr := if y >=? 69 then y + 1900 else y + 2000) in *.
  assert (Hyr : 1969 <= yr <= 2068).
  { subst yr. destruct (y >=? 69) eqn:Ep.
    - apply Z.geb_le in Ep. lia.
    - rewrite Z.geb_leb in Ep. apply Z.leb_gt in Ep. lia. }
  assert (Em0 : (m <? 0) = false) by (apply Z.ltb_ge; lia).
  assert (Ed0 : (d <? 0) = false) by (apply Z.ltb_ge; lia).
  rewrite Em0, Ed0 in H. cbv zeta in H.
  rewrite daysIn_month_length in H by lia.
  destruct ((d <? 1) || (d >? month_length yr m)) eqn:Eday; [discriminate|].
  apply orb_false_elim in Eday. destruct Eday as [Ed1 Ed2].
  apply Z.ltb_ge in Ed1. rewrite Z.gtb_ltb in Ed2. apply Z.ltb_ge in Ed2.
  set (c := {| cYear := yr; cMonth := m; cDay := d;
               cHour := h; cMin := mi; cSec := sc |}).
  assert (Hc : valid_civil c) by (unfold valid_civil; cbn; repeat split; lia).
  exists c, ns. split; [exact Hc|]. split; [exact Hns|]. split.
  - injection H as <-. exact (Date_UTC_civil_nsec c ns Hc Hns).
  - (* the tokens are the date and the time *)
    destruct (two_digit_number_not_space _ _ _ Ed) as [Hd1 Hd2].
    pose proof (month_named_no_space _ _ _ _ Em) as Hmn.
    cbn [no_space] in Hmn.
    apply andb_prop in Hmn. destruct Hmn as [Hm1 Hmn].
    apply andb_prop in Hmn. destruct Hmn as [Hm2 Hmn].
    apply andb_prop in Hmn. destruct Hmn as [Hm3 _].
    destruct (year_number_not_space _ _ _ Ey) as [Hy1 Hy2].
    set (date := String d1 (String d2 (String "-" (String m1 (String m2 (String m3
                   (String "-" (String y1 (String y2 EmptyString))))))))).
    assert (Hdate : no_space date = true).
    { subst date. cbn [no_space]. rewrite Hd1, Hd2, Hm1, Hm2, Hm3, Hy1, Hy2. reflexivity. }
    change (Sprintf_s_s p0 p1 = date +:+ String " " after) in Ev.
    destruct (tokens_at_the_space p0 p1 date after H0 Hdate Ev) as [-> ->].
    rewrite cutspace_token in Et by exact H1.
    intros Hsign. unfold read_date_time.
    change (Sprintf_s_s date after) with (date +:+ String " " after).
    rewrite cut_at_space_tokens by exact Hdate. rewrite Et.
    change (signed_year (date +:+ String " " after))
      with (Ascii.eqb y1 "-" || Ascii.eqb y1 "+") in Hsign.
    rewrite (year_number_unsigned _ _ Hsign) in Ey.
    subst date. cbn [read_date list_ascii_of_string Ascii.eqb Bool.eqb andb].
    rewrite Ed, Em, Ey.
    replace (year_of_two_digits y) with yr.
    + fold c. now rewrite (valid_civilb_true c Hc).
    + subst yr. unfold year_of_two_digits. rewrite Z.geb_leb.
      destruct (69 <=? y); lia.
Qed.

End Denoted.

Section Accepted.

Import time.

Lemma valid_civilb_valid c : valid_civilb c = true -> valid_civil c.
Proof.
  unfold valid_civilb, valid_civil. intros H.
  repeat (apply andb_prop in H; destruct H as [H ?]).
  repeat match goal with
         | E : (_ <=? _) = true |- _ => apply Z.leb_le in E
         | E : (_ <? _) = true |- _ => apply Z.ltb_lt in E
         end.
  lia.
Qed.

Lemma cut_at_space_text s date time :
  cut_at_space s = Some (date, time) -> s = date +:+ String " " time.
Proof.
  revert date. induction s as [|a s IH]; intros date; [discriminate|].
  cbn [cut_at_space]. destruct (Ascii.eqb a " ") eqn:E.
  - apply Ascii.eqb_eq in E. subst a. now intros [= <- <-].
  - destruct (cut_at_space s) as [[x y]|]; [|discriminate].
    intros [= <- <-]. now rewrite (IH x eq_refl).
Qed.

Lemma nanoseconds_all_digits ds u r : nanoseconds ds u = Some r -> all_digits ds = true.
Proof.
  revert u r. induction ds as [|a ds IH]; intros u r; [reflexivity|].
  cbn [nanoseconds all_digits]. rewrite digit_value_byte.
  destruct (isDigitByte a); [|discriminate].
  destruct (nanoseconds ds (u / 10)) as [r'|] eqn:E; [|discriminate].
  intros _. now rewrite (IH _ _ E).
Qed.

Lemma drop_bytes_all s : drop_bytes (String.length s) s = EmptyString.
Proof. induction s as [|a s IH]; [reflexivity|exact IH]. Qed.

(** The last element of the layout on a second and a fraction that the
    text ends with. *)
Lemma parseStd_second_read f b1 b2 frac sc ns :
  pNsec f = 0 ->
  two_digit_number b1 b2 = Some sc ->
  sc < 60 ->
  read_fraction frac = Some ns ->
  parseStd stdZeroSecond f (String b1 (String b2 frac))
  = stepOk {| pYear := pYear f; pMonth := pMonth f; pDay := pDay f;
              pHour := pHour f; pMin := pMin f; pSec := sc;
              pNsec := ns; pZoneOffset := pZoneOffset f |} EmptyString.
Proof.
  intros Hn Esc Hsc Efr. cbn [parseStd]. rewrite getnum_fixed, Esc.
  pose proof (two_digit_number_range _ _ _ Esc) as Hr.
  rewrite in_range by lia.
  destruct frac as [|c0 [|c1 rest]].
  - injection Efr as <-. now rewrite Hn.
  - discriminate.
  - cbn [read_fraction] in Efr.
    destruct (Ascii.eqb c0 "." || Ascii.eqb c0 ",") eqn:Ec; [|discriminate].
    pose proof (nanoseconds_all_digits _ _ _ Efr) as Hd.
    pose proof Hd as Hd'. cbn [all_digits] in Hd'.
    apply andb_prop in Hd'. destruct Hd' as [Hc1 Hrest].
    unfold commaOrPeriod at 1. rewrite Ec, Hc1. cbn [andb].
    destruct (parseNanoseconds_fraction c0 (String c1 rest) Ec ltac:(discriminate) Hd)
      as (r & Hp & Hr' & _).
    rewrite (digitSpan_all_digits rest Hrest).
    cbn [String.length] in Hp. cbn [Nat.add]. rewrite Hp.
    cbn [drop_bytes pYear pMonth pDay pHour pMin pSec pNsec pZoneOffset].
    rewrite drop_bytes_all. congruence.
Qed.

Lemma read_hour_digit s h r :
  read_hour s = Some (h, r) ->
  exists a s', s = String a s' /\ Ascii.eqb a " " = false /\ 0 <= h.
Proof.
  destruct s as [|a s']; [discriminate|]. intros H. exists a, s'.
  split; [reflexivity|].
  assert (Hx : exists x, digit_value a = Some x /\ 0 <= h).
  { unfold read_hour, two_digit_number in H.
    destruct (digit_value a) as [x|] eqn:Ea.
    - exists x. split; [reflexivity|]. apply digit_value_range in Ea.
      destruct s' as [|b rest].
      + injection H as <- _. lia.
      + destruct (digit_value b) as [y|] eqn:Eb.
        * apply digit_value_range in Eb. injection H as <- _. lia.
        * injection H as <- _. lia.
    - destruct s' as [|b rest]; discriminate. }
  destruct Hx as (x & Hx & Hh). split; [|exact Hh]. eapply digit_not_space; eauto.
Qed.

Lemma digit_not_sign a x :
  digit_value a = Some x -> Ascii.eqb a "-" || Ascii.eqb a "+" = false.
Proof.
  intros H. destruct (Ascii.eqb a "-" || Ascii.eqb a "+") eqn:E; [|reflexivity].
  apply sign_not_digit in E. rewrite digit_value_byte, E in H. discriminate.
Qed.

(** A text that denotes an instant is accepted by [time.Parse], which
    gives that instant. *)
Lemma Parse_denoting_text Local text c ns :
  read_date_time text = Some (c, ns) ->
  0 <= ns < 1000000000
  /\ valid_civil c
  /\ signed_year text = false
  /\ Parse Local layout_02_Jan_06_15_04_05 text
     = Ok {| unixSec := utc_instant c; nsec := ns; loc := UTC |}.
Proof.
  unfold read_date_time.
  destruct (cut_at_space text) as [[date tm]|] eqn:Ecut; [|discriminate].
  apply cut_at_space_text in Ecut. subst text.
  destruct (read_date date) as [[[y0 m0] d0]|] eqn:Edate; [|discriminate].
  destruct (read_time tm) as [[[[h0 mi0] sc0] ns0]|] eqn:Etime; [|discriminate].
  destruct (valid_civilb _) eqn:Ev; [|discriminate].
  intros [= <- <-]. apply valid_civilb_valid in Ev.
  (* the date *)
  unfold read_date in Edate.
  destruct date as [|d1 [|d2 [|h1 [|m1 [|m2 [|m3 [|h2 [|y1 [|y2 [|]]]]]]]]]];
    try discriminate.
  cbn [list_ascii_of_string] in Edate.
  destruct (Ascii.eqb h1 "-") eqn:E1; [|discriminate].
  destruct (Ascii.eqb h2 "-") eqn:E2; [|discriminate].
  apply Ascii.eqb_eq in E1, E2. subst h1 h2. cbn [andb] in Edate.
  destruct (two_digit_number d1 d2) as [d|] eqn:Ed; [|discriminate].
  destruct (month_named _) as [m|] eqn:Em; [|discriminate].
  destruct (two_digit_number y1 y2) as [yy|] eqn:Ey; [|discriminate].
  injection Edate as <- <- <-.
  (* the time *)
  unfold read_time in Etime.
  destruct (read_hour tm) as [[h r]|] eqn:Eh; [|discriminate].
  destruct r as [|c1 [|a1 [|a2 [|c2 [|b1 [|b2 frac]]]]]]; try discriminate.
  destruct (Ascii.eqb c1 ":") eqn:E1; [|discriminate].
  destruct (Ascii.eqb c2 ":") eqn:E2; [|discriminate].
  apply Ascii.eqb_eq in E1, E2. subst c1 c2. cbn [andb] in Etime.
  destruct (two_digit_number a1 a2) as [mi|] eqn:Emi; [|discriminate].
  destruct (two_digit_number b1 b2) as [sc|] eqn:Esc; [|discriminate].
  destruct (read_fraction frac) as [ns|] eqn:Efr; [|discriminate].
  injection Etime as <- <- <- <-.
  destruct Ev as (Hy & Hm & Hd & Hh & Hmi & Hs).
  cbn [cYear cMonth cDay cHour cMin cSec] in *.
  (* the sign *)
  assert (Hsign : Ascii.eqb y1 "-" || Ascii.eqb y1 "+" = false).
  { unfold two_digit_number in Ey.
    destruct (digit_value y1) as [x|] eqn:Ex; [|discriminate].
    eapply digit_not_sign; eauto. }
  (* the fraction *)
  assert (Hns : 0 <= ns < 1000000000).
  { destruct frac as [|c0 [|c1 rest]].
    - injection Efr as <-. lia.
    - discriminate.
    - cbn [read_fraction] in Efr.
      destruct (Ascii.eqb c0 "." || Ascii.eqb c0 ",") eqn:Ec; [|discriminate].
      pose proof (nanoseconds_all_digits _ _ _ Efr) as Hdig.
      destruct (parseNanoseconds_fraction c0 (String c1 rest) Ec ltac:(discriminate) Hdig)
        as (r & _ & Hr & Hrb).
      congruence. }
  split; [exact Hns|]. split; [unfold valid_civil; cbn; lia|].
  split; [exact Hsign|].
  (* the parser *)
  destruct (read_hour_digit _ _ _ Eh) as (a & tm' & -> & Ha & _).
  change (String d1 (String d2 (String "-" (String m1 (String m2 (String m3
            (String "-" (String y1 (String y2 EmptyString))))))))
          +:+ String " " (String a tm'))
    with (String d1 (String d2 (String "-" (String m1 (String m2 (String m3
            (String "-" (String y1 (String y2 (String " " (String a tm'))))))))))).
  unfold Parse. rewrite parse_fields.
  cbn [chunks layout_02_Jan_06_15_04_05 parseChunks].
  change (skip ?v EmptyString) with (Ok (E:=string) v). cbv iota.
  rewrite parseStd_day. cbv beta iota. rewrite Ed.
  rewrite skip_char by reflexivity. cbn [Ascii.eqb Bool.eqb].
  rewrite parseStd_month. cbv beta iota. rewrite Em.
  rewrite skip_char by reflexivity. cbn [Ascii.eqb Bool.eqb].
  rewrite parseStd_year. cbv beta iota. rewrite (year_number_unsigned _ _ Hsign), Ey.
  rewrite skip_space. cbn [Ascii.eqb Bool.eqb].
  unfold cutspace. cbn [strings.trimLeftByte Ascii.eqb Bool.eqb]. rewrite Ha.
  rewrite parseStd_hour, Eh. cbv beta iota. rewrite in_range by lia.
  rewrite skip_char by reflexivity. cbn [Ascii.eqb Bool.eqb].
  rewrite parseStd_minute. cbv beta iota. rewrite Emi. rewrite in_range by lia.
  rewrite skip_char by reflexivity. cbn [Ascii.eqb Bool.eqb].
  rewrite (fun f H => parseStd_second_read f b1 b2 frac sc ns H Esc ltac:(lia) Efr)
    by reflexivity.
  cbv beta iota.
  cbn [suffix layout_02_Jan_06_15_04_05].
  change (skip ?v EmptyString) with (Ok (E:=string) v). cbv iota.
  cbn [pYear pMonth pDay pHour pMin pSec pNsec pZoneOffset initFields].
  replace (if yy >=? 69 then yy + 1900 else yy + 2000) with (year_of_two_digits yy).
  2:{ unfold year_of_two_digits. rewrite Z.geb_leb. destruct (69 <=? yy); lia. }
  assert (Em0 : (m <? 0) = false) by (apply Z.ltb_ge; lia).
  assert (Ed0 : (d <? 0) = false) by (apply Z.ltb_ge; lia).
  rewrite Em0, Ed0. cbv zeta. rewrite daysIn_month_length by lia.
  assert (E3 : (d <? 1) || (d >? month_length (year_of_two_digits yy) m) = false).
  { apply orb_false_intro; [apply Z.ltb_ge; lia|].
    rewrite Z.gtb_ltb. apply Z.ltb_ge. lia. }
  rewrite E3. f_equal.
  apply (Date_UTC_civil_nsec
           {| cYear := year_of_two_digits yy; cMonth := m; cDay := d;
              cHour := h; cMin := mi; cSec := sc |} ns); [|exact Hns].
  unfold valid_civil. cbn. lia.
Qed.

End Accepted.

(** ** The timestamp of a line under the date format UTC *)

Section Timestamp.

Variable ParseFloat : string -> Z -> result float64 strconv.NumError.

Lemma Split_space_cons a b :
  no_space a = true ->
  strings.Split (a +:+ String " " b) " " = a :: strings.Split b " ".
Proof.
  unfold strings.Split. induction a as [|x a IH]; intros H.
  - change (EmptyString +:+ String " " b) with (String " " b).
    cbn [strings.genSplit strings.HasPrefix]. reflexivity.
  - cbn [no_space] in H. apply andb_prop in H. destruct H as [Hx Ha].
    change (String x a +:+ String " " b) with (String x (a +:+ String " " b)).
    cbn [strings.genSplit strings.HasPrefix]. rewrite (IH Ha).
    apply negb_true_iff in Hx. rewrite Hx. reflexivity.
Qed.

Lemma no_space_append a b :
  no_space a = true -> no_space b = true -> no_space (a +:+ b) = true.
Proof.
  induction a as [|x a IH]; intros Ha Hb; [exact Hb|].
  cbn [no_space] in Ha. apply andb_prop in Ha. destruct Ha as [Hx Ha].
  change (String x a +:+ b) with (String x (a +:+ b)).
  cbn [no_space]. now rewrite Hx, IH.
Qed.

Lemma no_space_two_digits n : 0 <= n < 100 -> no_space (two_digits n) = true.
Proof.
  intros H. unfold two_digits. cbn [no_space].
  rewrite !digitChar_not_space by zdiv.
  reflexivity.
Qed.

Lemma no_space_month m : 1 <= m <= 12 -> no_space (month_abbreviation m) = true.
Proof.
  intros H.
  month_case m H;
    reflexivity.
Qed.

Lemma valid_civil_day c : valid_civil c -> 1 <= cDay c <= 31.
Proof.
  intros (_ & _ & Hd & _). split; [lia|]. destruct Hd as [_ Hd].
  unfold month_length, month_length_in in Hd.
  repeat match type of Hd with context [match ?x with _ => _ end] => destruct x end;
    lia.
Qed.

Lemma no_space_date_token c : valid_civil c -> no_space (date_token c) = true.
Proof.
  intros H. pose proof (valid_civil_day c H) as Hd.
  destruct H as (Hy & Hm & _). unfold date_token.
  repeat apply no_space_append; try reflexivity.
  - apply no_space_two_digits. lia.
  - now apply no_space_month.
  - apply no_space_two_digits. zdiv.
Qed.

Lemma no_space_time_token c : valid_civil c -> no_space (time_token c) = true.
Proof.
  intros (_ & _ & _ & Hh & Hmi & Hs). unfold time_token.
  repeat apply no_space_append; try reflexivity; apply no_space_two_digits; lia.
Qed.

Lemma TrimLeft_no_space a b :
  a <> EmptyString -> no_space a = true ->
  strings.TrimLeft (a +:+ b) " " = a +:+ b.
Proof.
  intros Hne H. destruct a as [|x a]; [contradiction|].
  cbn [no_space] in H. apply andb_prop in H. destruct H as [Hx _].
  apply negb_true_iff in Hx.
  change (String x a +:+ b) with (String x (a +:+ b)).
  cbn [strings.TrimLeft strings.trimLeftByte]. now rewrite Hx.
Qed.

(** The tokens of a value line. *)
Lemma tokens_value_line k c rest :
  valid_civil c ->
  tokens (value_line k c rest) =
  date_token c :: time_token c :: strings.Split rest " ".
Proof.
  intros H. unfold value_line. rewrite tokens_spaces. unfold tokens.
  rewrite TrimLeft_no_space.
  - change (date_token c +:+ " " +:+ time_token c +:+ " " +:+ rest)
      with (date_token c +:+ String " " (time_token c +:+ String " " rest)).
    rewrite Split_space_cons by now apply no_space_date_token.
    rewrite Split_space_cons by now apply no_space_time_token.
    reflexivity.
  - unfold date_token, two_digits. discriminate.
  - now apply no_space_date_token.
Qed.

(** [time.Parse] on the token of a civil date-time: the instant it denotes
    in UTC. *)
Lemma Parse_token Local c :
  valid_civil c ->
  time.Parse Local layout_02_Jan_06_15_04_05 (Sprintf_s_s (date_token c) (time_token c))
  = Ok {| time.unixSec := utc_instant c; time.nsec := 0; time.loc := time.UTC |}.
Proof.
  intros H. unfold time.Parse. rewrite parse_fields, parseChunks_token by exact H.
  cbn [time.pYear time.pMonth time.pDay time.pHour time.pMin time.pSec time.pNsec].
  destruct H as (Hy & Hm & Hd & Hrest).
  assert (E1 : (cMonth c <? 0) = false) by (apply Z.ltb_ge; lia).
  assert (E2 : (cDay c <? 0) = false) by (apply Z.ltb_ge; lia).
  rewrite E1, E2. cbv zeta. rewrite daysIn_month_length by (exact Hm || lia).
  assert (E3 : (cDay c <? 1) || (cDay c >? month_length (cYear c) (cMonth c)) = false).
  { apply orb_false_intro; [apply Z.ltb_ge; lia|].
    rewrite Z.gtb_ltb. apply Z.ltb_ge. lia. }
  rewrite E3. f_equal. apply Date_UTC_civil. repeat split; tauto || lia.
Qed.

End Timestamp.

(** ** The timestamps of the readings *)

Section Stamps.

Variable ParseFloat : string -> Z -> result float64 strconv.NumError.

Lemma genSplit_no_space s :
  Forall (fun p => no_space p = true) (strings.genSplit " " 0 s).
Proof.
  induction s as [|a s IH]; [repeat constructor|].
  cbn [strings.genSplit strings.HasPrefix String.length Nat.pred].
  destruct (Ascii.eqb a " ") eqn:E; cbn [andb].
  - constructor; [reflexivity|exact IH].
  - destruct (strings.genSplit " " 0 s) as [|p ps]; [repeat constructor; cbn; now rewrite E|].
    inversion IH as [|? ? Hp Hps]; subst. constructor; [|exact Hps].
    cbn [no_space]. now rewrite E, Hp.
Qed.

(** The tokens of a line have no space in them. *)
Lemma tokens_no_space v : Forall (fun p => no_space p = true) (tokens v).
Proof. unfold tokens, strings.Split. apply genSplit_no_space. Qed.

(** The timestamp of the reading of a line. *)
Lemma lineOutcome_stamp Local dateFormat v hv :
  lineOutcome Local ParseFloat dateFormat v = lineReading hv ->
  exists p0 p1 p2 more,
    tokens v = p0 :: p1 :: p2 :: more
    /\ ParseFloat p2 64 = Ok (Reading hv)
    /\ time.loc (Timestamp hv) = time.UTC
    /\ (signed_year (Sprintf_s_s p0 p1) = false ->
        denoted_instant (Sprintf_s_s p0 p1)
        = Some (time.unixSec (Timestamp hv), time.nsec (Timestamp hv))).
Proof.
  unfold lineOutcome. pose proof (tokens_no_space v) as Hn.
  destruct (tokens v) as [|p0 [|p1 [|p2 more]]]; try discriminate.
  inversion Hn as [|? ? H0 Hn']; subst. inversion Hn' as [|? ? H1 _]; subst.
  destruct (time.Parse Local _ _) as [t|e] eqn:Ep; [|discriminate].
  destruct (ParseFloat p2 64) as [r|e] eqn:Er; [|discriminate].
  intros [= <-]. exists p0, p1, p2, more. cbn [Reading Timestamp].
  destruct (Parse_tokens Local p0 p1 t H0 H1 Ep) as (c & ns & Hc & Hns & -> & Hd).
  assert (Ht : (if String.eqb dateFormat "UTC"
                then time.Time_UTC {| time.unixSec := utc_instant c; time.nsec := ns;
                                      time.loc := time.UTC |}
                else {| time.unixSec := utc_instant c; time.nsec := ns;
                        time.loc := time.UTC |})
               = {| time.unixSec := utc_instant c; time.nsec := ns;
                    time.loc := time.UTC |})
    by (destruct (String.eqb dateFormat "UTC"); reflexivity).
  rewrite Ht. cbn [time.loc time.unixSec time.nsec].
  split; [reflexivity|]. split; [exact Er|]. split; [reflexivity|].
  intros Hs. unfold denoted_instant. now rewrite (Hd Hs).
Qed.

Lemma lineOutcome_long Local dateFormat v :
  long_line v = false <-> lineOutcome Local ParseFloat dateFormat v = lineSkipped.
Proof.
  unfold long_line, lineOutcome.
  destruct (tokens v) as [|p0 [|p1 [|p2 more]]]; cbn; try tauto.
  destruct (time.Parse Local _ _); [|split; discriminate].
  destruct (ParseFloat p2 64); split; discriminate.
Qed.

(** The readings that the loop of [Values] appends are those of the
    lines it has read, in order. *)
Lemma Values_from_stamps Local dateFormat values vs values' oe :
  Values_from Local ParseFloat dateFormat values vs = (values', oe) ->
  exists read pending new,
    vs = read ++ pending
    /\ values' = values ++ new
    /\ (oe = None -> pending = [])
    /\ Forall2 (fun v hv => lineOutcome Local ParseFloat dateFormat v = lineReading hv)
         (List.filter long_line read) new.
Proof.
  revert values. induction vs as [|v vs IH]; intros values.
  - intros [= <- <-]. exists [], [], [].
    split; [reflexivity|]. split; [now rewrite app_nil_r|]. split; [reflexivity|constructor].
  - rewrite Values_from_cons.
    destruct (lineOutcome Local ParseFloat dateFormat v) as [|hv|e] eqn:E.
    + intros H. destruct (IH _ H) as (read & pending & new & -> & -> & Hp & HF).
      exists (v :: read), pending, new.
      cbn [List.filter]. apply lineOutcome_long in E. rewrite E.
      split; [reflexivity|]. split; [reflexivity|]. split; [exact Hp|exact HF].
    + intros H. destruct (IH _ H) as (read & pending & new & -> & -> & Hp & HF).
      exists (v :: read), pending, (hv :: new). cbn [List.filter].
      destruct (long_line v) eqn:El.
      * rewrite <- app_assoc.
        split; [reflexivity|]. split; [reflexivity|]. split; [exact Hp|].
        constructor; assumption.
      * apply (lineOutcome_long Local dateFormat) in El. congruence.
    + intros [= <- <-]. exists [], (v :: vs), [].
      split; [reflexivity|]. split; [now rewrite app_nil_r|].
      split; [discriminate|constructor].
Qed.

Lemma Observations_from_readings Local (P : msg.Observation -> Prop)
  sites network method msgs logged ms :
  (forall m hv s t, m ∈ ms -> hv ∈ fst (Values Local ParseFloat m) ->
     P (Observation_of network s t method hv)) ->
  Forall P msgs ->
  Forall P (fst (fst (Observations_from Local ParseFloat sites network method
                        msgs logged ms))).
Proof.
  revert msgs logged. induction ms as [|m ms IH]; intros msgs logged HP Hm.
  - exact Hm.
  - assert (HP' : forall m' hv s t, m' ∈ ms -> hv ∈ fst (Values Local ParseFloat m') ->
                    P (Observation_of network s t method hv)).
    { intros m' hv s t Hin. apply HP. apply elem_of_cons. now right. }
    cbn [Observations_from].
    destruct (Sites sites !! SiteName m) as [s|]; [|now apply IH].
    destruct (HilltopUnits !! Name (DataSource m)) as [t|]; [|now apply IH].
    destruct (Values Local ParseFloat m) as [values [e|]] eqn:Ev; [exact Hm|].
    apply IH; [exact HP'|]. apply Forall_app. split; [exact Hm|].
    assert (Hv : forall hv, hv ∈ values -> P (Observation_of network s t method hv)).
    { intros hv Hhv. apply (HP m); [apply elem_of_cons; now left|]. now rewrite Ev. }
    clear -Hv. induction values as [|hv values IHv]; [constructor|].
    cbn [map]. constructor.
    + apply Hv. apply elem_of_cons. now left.
    + apply IHv. intros hv' H'. apply Hv. apply elem_of_cons. now right.
Qed.

Lemma Observations_from_Local Local Local' sites network method msgs logged ms :
  Observations_from Local ParseFloat sites network method msgs logged ms
  = Observations_from Local' ParseFloat sites network method msgs logged ms.
Proof.
  revert msgs logged. induction ms as [|m ms IH]; intros msgs logged; [reflexivity|].
  cbn [Observations_from]. unfold Values.
  rewrite (Values_from_irrelevant ParseFloat Local Local'
             (DateFormat (Data m)) (DateFormat (Data m))).
  destruct (Sites sites !! SiteName m) as [s|]; [|apply IH].
  destruct (HilltopUnits !! Name (DataSource m)) as [t|]; [|apply IH].
  destruct (Values_from Local' ParseFloat _ _ _) as [values [e|]]; [reflexivity|apply IH].
Qed.

(** C7, as the program has it: the readings that [Values] returns are
    those of the lines with three tokens or more that it has read, in
    order, each with the number of its third token; the timestamp of each
    is a time in UTC, and it is the instant that the first two tokens of
    its line, joined by a space, denote - the text [DD-Mon-YY HH:MM:SS],
    the hour of one digit or two, with a fraction of a second or not -
    whenever no sign stands in the year of the date.  The observations
    that [Observations] makes have these timestamps.  Nothing of this
    depends on the local zone of the process: under another one [Values]
    and [Observations] return the same.  It holds whatever the date
    format of the measurement is, ["UTC"] included. *)
Theorem C7_UTC_timestamp_is_the_denoted_instant Local h sites network method :
  (forall m values oe,
     Values Local ParseFloat m = (values, oe) ->
     (exists read pending,
        Value (Data m) = read ++ pending
        /\ (oe = None -> pending = [])
        /\ Forall2 (fun v hv =>
                      exists p0 p1 p2 more,
                        tokens v = p0 :: p1 :: p2 :: more
                        /\ ParseFloat p2 64 = Ok (Reading hv)
                        /\ time.loc (Timestamp hv) = time.UTC
                        /\ (signed_year (Sprintf_s_s p0 p1) = false ->
                            denoted_instant (Sprintf_s_s p0 p1)
                            = Some (time.unixSec (Timestamp hv),
                                    time.nsec (Timestamp hv))))
             (List.filter long_line read) values)
     /\ forall Local', Values Local' ParseFloat m = (values, oe))
  /\ Forall (fun o =>
               exists m v p0 p1 p2 more,
                 m ∈ Measurement h /\ v ∈ Value (Data m)
                 /\ tokens v = p0 :: p1 :: p2 :: more
                 /\ time.loc (msg.DateTime o) = time.UTC
                 /\ (signed_year (Sprintf_s_s p0 p1) = false ->
                     denoted_instant (Sprintf_s_s p0 p1)
                     = Some (time.unixSec (msg.DateTime o),
                             time.nsec (msg.DateTime o))))
       (fst (fst (Observations Local ParseFloat h sites network method)))
  /\ forall Local',
       Observations Local' ParseFloat h sites network method
       = Observations Local ParseFloat h sites network method.
Proof.
  split; [|split].
  - intros m values oe Hv. split.
    + unfold Values in Hv.
      destruct (Values_from_stamps Local _ _ _ _ _ Hv)
        as (read & pending & new & Hr & Hn & Hp & HF).
      cbn [app] in Hn. subst new. exists read, pending.
      split; [exact Hr|]. split; [exact Hp|].
      eapply Forall2_impl; [exact HF|].
      intros v hv Hl. eapply lineOutcome_stamp. exact Hl.
    + intros Local'. rewrite <- Hv. unfold Values. apply Values_from_irrelevant.
  - unfold Observations. apply Observations_from_readings; [|constructor].
    intros m hv s t Hm Hhv. unfold Values in Hhv.
    apply Values_from_readings in Hhv.
    destruct Hhv as [Hhv|(v & Hv & Hl)]; [now apply elem_of_nil in Hhv|].
    apply lineOutcome_stamp in Hl.
    destruct Hl as (p0 & p1 & p2 & more & Ht & _ & Hloc & Hd).
    exists m, v, p0, p1, p2, more. cbn [Observation_of msg.DateTime]. auto 10.
  - intros Local'. unfold Observations. apply Observations_from_Local.
Qed.

End Stamps.

(** The line of the README: 27 May 2015, 21:30:00 UTC. *)
Lemma C7_witness :
  (exists read pending,
     Value (Data readme_measurement) = read ++ pending
     /\ (@None error = None -> pending = [])
     /\ Forall2 (fun v hv =>
                   exists p0 p1 p2 more,
                     tokens v = p0 :: p1 :: p2 :: more
                     /\ ParseFloat_sample p2 64 = Ok (Reading hv)
                     /\ time.loc (Timestamp hv) = time.UTC
                     /\ (signed_year (Sprintf_s_s p0 p1) = false ->
                         denoted_instant (Sprintf_s_s p0 p1)
                         = Some (time.unixSec (Timestamp hv),
                                 time.nsec (Timestamp hv))))
          (List.filter long_line read)
          [{| Timestamp := {| time.unixSec := 1432762200; time.nsec := 0;
                              time.loc := time.UTC |};
              Reading := Float64frombits 0x4002666666666666 |}])
  /\ forall Local',
       Values Local' ParseFloat_sample readme_measurement
       = ([{| Timestamp := {| time.unixSec := 1432762200; time.nsec := 0;
                              time.loc := time.UTC |};
              Reading := Float64frombits 0x4002666666666666 |}], None).
Proof.
  destruct (C7_UTC_timestamp_is_the_denoted_instant ParseFloat_sample NZST
              doc_readme sites_Place "NT" "M") as [H _].
  apply (H readme_measurement). vm_compute. reflexivity.
Defined.

(** C7 as stated fails: a line with a sign where the first digit of the
    year is expected parses, under the date format ["UTC"], and its
    timestamp is an instant of the year 1995, which its text does not
    denote: the text denotes no instant, and the instant is the one that
    the text with the year [95] denotes. *)
Lemma C7_counterexample :
  DateFormat (Data signed_year_measurement) = "UTC"
  /\ Value (Data signed_year_measurement) = ["27-May--5 21:30:00 2.300000"]
  /\ tokens "27-May--5 21:30:00 2.300000" = ["27-May--5"; "21:30:00"; "2.300000"]
  /\ Values NZST ParseFloat_sample signed_year_measurement
     = ([{| Timestamp := {| time.unixSec := 801610200; time.nsec := 0;
                            time.loc := time.UTC |};
            Reading := Float64frombits 0x4002666666666666 |}], None)
  /\ denoted_instant "27-May--5 21:30:00" = None
  /\ denoted_instant "27-May-95 21:30:00" = Some (801610200, 0).
Proof.
  split; [reflexivity|]. split; [reflexivity|]. split; [reflexivity|].
  split; [vm_compute; reflexivity|]. split; vm_compute; reflexivity.
Qed.

(** ** Lines that are fatal *)

Section LineFailures.

Variable Local : time.Location.
Variable ParseFloat : string -> Z -> result float64 strconv.NumError.

(** When no sign stands in the year, [time.Parse] rejects the two tokens
    of a line exactly when they denote no instant. *)
Lemma Parse_rejects p0 p1 :
  no_space p0 = true -> no_space p1 = true ->
  signed_year (Sprintf_s_s p0 p1) = false ->
  denoted_instant (Sprintf_s_s p0 p1) = None ->
  exists err, time.Parse Local layout_02_Jan_06_15_04_05 (Sprintf_s_s p0 p1) = Err err.
Proof.
  intros H0 H1 Hs Hd.
  destruct (time.Parse Local _ _) as [t|err] eqn:E; [|eauto].
  destruct (Parse_tokens Local p0 p1 t H0 H1 E) as (c & ns & _ & _ & _ & Hr).
  unfold denoted_instant in Hd. rewrite (Hr Hs) in Hd. discriminate.
Qed.

Lemma Parse_accepts text sec ns :
  denoted_instant text = Some (sec, ns) ->
  time.Parse Local layout_02_Jan_06_15_04_05 text
  = Ok {| time.unixSec := sec; time.nsec := ns; time.loc := time.UTC |}.
Proof.
  unfold denoted_instant.
  destruct (read_date_time text) as [[c ns']|] eqn:E; [|discriminate].
  intros [= <- <-]. now destruct (Parse_denoting_text Local text c ns' E) as (_ & _ & _ & H).
Qed.

(** C5, as the program has it: a value line with fewer than three
    tokens - the tokens being cut once the leading spaces, and only
    those, are stripped - is passed over: the extraction gives what it
    gives without the line, no error and no reading coming from it.  A
    line with three tokens or more whose first two tokens are rejected by
    [time.Parse], or whose third token is rejected by
    [strconv.ParseFloat], makes the whole extraction fail with a parse
    error - the error of that line, when the lines before it gave none.
    [time.Parse] rejects the first two tokens whenever, joined by a
    space, they denote no instant and have no sign in the year; it
    accepts them whenever they denote an instant, and the line then gives
    a reading of that instant when its third token is a number. *)
Theorem C5_short_lines_skipped_bad_lines_fatal m pre v post :
  Value (Data m) = pre ++ v :: post ->
  ((length (tokens v) < 3)%nat ->
     Values Local ParseFloat m = Values Local ParseFloat (with_lines m (pre ++ post)))
  /\ (forall p0 p1 p2 more,
        tokens v = p0 :: p1 :: p2 :: more ->
        (exists err, time.Parse Local layout_02_Jan_06_15_04_05 (Sprintf_s_s p0 p1)
                     = Err err)
        \/ (exists err, ParseFloat p2 64 = Err err) ->
        exists e, snd (Values Local ParseFloat m) = Some e /\ is_ParseError e)
  /\ (forall p0 p1 p2 more vals,
        tokens v = p0 :: p1 :: p2 :: more ->
        Values Local ParseFloat (with_lines m pre) = (vals, None) ->
        (forall err,
           time.Parse Local layout_02_Jan_06_15_04_05 (Sprintf_s_s p0 p1) = Err err ->
           Values Local ParseFloat m = (vals, Some (time_ParseError err)))
        /\ (forall t err,
              time.Parse Local layout_02_Jan_06_15_04_05 (Sprintf_s_s p0 p1) = Ok t ->
              ParseFloat p2 64 = Err err ->
              Values Local ParseFloat m = (vals, Some (strconv_NumError err))))
  /\ (forall p0 p1 p2 more,
        tokens v = p0 :: p1 :: p2 :: more ->
        (denoted_instant (Sprintf_s_s p0 p1) = None ->
         signed_year (Sprintf_s_s p0 p1) = false ->
         exists e, snd (Values Local ParseFloat m) = Some e /\ is_ParseError e)
        /\ (forall sec ns r vals,
              denoted_instant (Sprintf_s_s p0 p1) = Some (sec, ns) ->
              ParseFloat p2 64 = Ok r ->
              Values Local ParseFloat (with_lines m pre) = (vals, None) ->
              Values Local ParseFloat (with_lines m (pre ++ [v]))
              = (vals ++ [{| Timestamp := {| time.unixSec := sec; time.nsec := ns;
                                             time.loc := time.UTC |};
                             Reading := r |}], None))).
Proof.
  intros Hm.
  assert (Hfatal : forall p0 p1 p2 more,
             tokens v = p0 :: p1 :: p2 :: more ->
             (exists err, time.Parse Local layout_02_Jan_06_15_04_05 (Sprintf_s_s p0 p1)
                          = Err err)
             \/ (exists err, ParseFloat p2 64 = Err err) ->
             exists e, snd (Values Local ParseFloat m) = Some e /\ is_ParseError e).
  { intros p0 p1 p2 more Ht Hbad. unfold Values. rewrite Hm.
    assert (exists e, lineOutcome Local ParseFloat (DateFormat (Data m)) v = lineError e)
      as [e He].
    { unfold lineOutcome. rewrite Ht.
      destruct (time.Parse Local _ _) as [t|err]; [|eauto].
      destruct Hbad as [[err Hbad]|[err Hbad]]; [discriminate|].
      rewrite Hbad. eauto. }
    destruct (Values_from_has_error Local ParseFloat (DateFormat (Data m)) [] pre v post
                e He) as [e' He'].
    exists e'. split; [exact He'|]. eapply Values_from_error. exact He'. }
  split; [|split; [exact Hfatal|split]].
  - intros Hshort. unfold Values. cbn [with_lines Data DateFormat Value]. rewrite Hm.
    rewrite !Values_from_app.
    destruct (Values_from Local ParseFloat _ [] pre) as [vals [e|]]; [reflexivity|].
    now rewrite Values_from_cons, lineOutcome_short.
  - intros p0 p1 p2 more vals Ht Hpre. unfold Values in *.
    cbn [with_lines Data DateFormat Value] in Hpre. rewrite Hm. split.
    + intros err Herr. apply Values_from_snoc_error; [exact Hpre|].
      unfold lineOutcome. now rewrite Ht, Herr.
    + intros t err Hok Herr. apply Values_from_snoc_error; [exact Hpre|].
      unfold lineOutcome. now rewrite Ht, Hok, Herr.
  - intros p0 p1 p2 more Ht.
    pose proof (tokens_no_space v) as Hn. rewrite Ht in Hn.
    inversion Hn as [|? ? H0 Hn']; subst. inversion Hn' as [|? ? H1 _]; subst.
    split.
    + intros Hd Hs. apply (Hfatal p0 p1 p2 more Ht). left.
      now apply Parse_rejects.
    + intros sec ns r vals Hd Hr Hpre. unfold Values in *.
      cbn [with_lines Data DateFormat Value] in *.
      rewrite Values_from_app, Hpre, Values_from_cons.
      unfold lineOutcome. rewrite Ht, (Parse_accepts _ _ _ Hd), Hr.
      cbn [Values_from].
      destruct (String.eqb (DateFormat (Data m)) "UTC"); reflexivity.
Qed.

End LineFailures.

(** C5 as stated fails on two counts.  After a tab and a space, a date
    and a time make two tokens once the leading white space is stripped,
    and the line would be skipped: the code strips the spaces only, finds
    three tokens and fails.  And a text with a sign in its year is no
    date-time, and yet the line gives a reading, of the year 1995. *)
Lemma C5_counterexample :
  Value (Data tab_space_measurement) = [String tab " 27-May-15 21:30:00"]
  /\ length (tokens_after_whitespace (String tab " 27-May-15 21:30:00")) = 2%nat
  /\ (exists e, Values NZST ParseFloat_sample tab_space_measurement
                = ([], Some (time_ParseError e)))
  /\ Value (Data signed_year_measurement) = ["27-May--5 21:30:00 2.300000"]
  /\ denoted_instant "27-May--5 21:30:00" = None
  /\ Values NZST ParseFloat_sample signed_year_measurement
     = ([{| Timestamp := {| time.unixSec := 801610200; time.nsec := 0;
                            time.loc := time.UTC |};
            Reading := Float64frombits 0x4002666666666666 |}], None).
Proof.
  split; [reflexivity|]. split; [reflexivity|].
  split; [eexists; vm_compute; reflexivity|].
  split; [reflexivity|]. split; vm_compute; reflexivity.
Qed.

(** A filler line between two readable lines is passed over; a number
    that does not parse is fatal; a line with an hour of one digit, a
    month in capitals and a fraction of a second is read. *)
Lemma C5_witness :
  Values NZST ParseFloat_sample filler_measurement
  = Values NZST ParseFloat_sample
      (with_lines filler_measurement
         ([" 27-May-15 21:30:00 2.300000"] ++ [" 27-May-15 21:40:00 1.5"]))
  /\ (exists e, snd (Values NZST ParseFloat_sample bad_measurement) = Some e
                /\ is_ParseError e)
  /\ Values NZST ParseFloat_sample (with_lines loose_measurement
                                      ([] ++ ["27-MAY-15 1:30:00.25 2.300000"]))
     = ([] ++ [{| Timestamp := {| time.unixSec := 1432690200; time.nsec := 250000000;
                                  time.loc := time.UTC |};
                  Reading := Float64frombits 0x4002666666666666 |}], None).
Proof.
  split; [|split].
  - destruct (C5_short_lines_skipped_bad_lines_fatal NZST ParseFloat_sample
                filler_measurement [" 27-May-15 21:30:00 2.300000"] "  "
                [" 27-May-15 21:40:00 1.5"]) as (H & _ & _).
    + reflexivity.
    + apply H. vm_compute. lia.
  - destruct (C5_short_lines_skipped_bad_lines_fatal NZST ParseFloat_sample
                bad_measurement [] "27-May-15 21:30:00 not-a-number" [])
      as (_ & H & _).
    + reflexivity.
    + apply (H "27-May-15" "21:30:00" "not-a-number" []).
      * reflexivity.
      * right. eexists. vm_compute. reflexivity.
  - destruct (C5_short_lines_skipped_bad_lines_fatal NZST ParseFloat_sample
                loose_measurement [] "27-MAY-15 1:30:00.25 2.300000" [])
      as (_ & _ & _ & H).
    + reflexivity.
    + destruct (H "27-MAY-15" "1:30:00.25" "2.300000" [] eq_refl) as [_ H'].
      apply H'.
      * vm_compute. reflexivity.
      * vm_compute. reflexivity.
      * reflexivity.
Defined.

(** [time.Parse] takes somewhat more than the text [DD-Mon-YY HH:MM:SS]:
    a month in lower case, an hour of one digit, a fraction of a second. *)
Example Parse_lenient :
  time.Parse NZST layout_02_Jan_06_15_04_05 "27-may-15 1:30:00.25"
  = Ok {| time.unixSec := 1432690200; time.nsec := 250000000;
          time.loc := time.UTC |}.
Proof. vm_compute. reflexivity. Qed.

(** * Properties of the rest of the program *)

(** ** The site table: [Set] *)

Section SiteTable.

(** Without the separator in it, a string is not cut. *)
Lemma genSplitN_absent c n s :
  strings.containsByte s c = false ->
  genSplitN (String c EmptyString) 0 n s = [s].
Proof.
  induction s as [|a s IH]; intros H; [reflexivity|].
  cbn [strings.containsByte] in H. apply orb_false_elim in H. destruct H as [Ha Hs].
  cbn [genSplitN]. destruct n as [|n]; [reflexivity|].
  cbn [strings.HasPrefix]. rewrite Ascii.eqb_sym, Ha. cbn [andb].
  now rewrite (IH Hs).
Qed.

(** A string is cut at the first occurrence of the separator. *)
Lemma genSplitN_first c k v :
  strings.containsByte k c = false ->
  genSplitN (String c EmptyString) 0 1 (k +:+ String c v) = [k; v].
Proof.
  induction k as [|a k IH]; intros H.
  - change (EmptyString +:+ String c v) with (String c v).
    cbn [genSplitN strings.HasPrefix]. rewrite Ascii.eqb_refl. cbn [andb].
    cbn [String.length Nat.pred]. destruct v; reflexivity.
  - cbn [strings.containsByte] in H. apply orb_false_elim in H. destruct H as [Ha Hk].
    change (String a k +:+ String c v) with (String a (k +:+ String c v)).
    cbn [genSplitN strings.HasPrefix]. rewrite Ascii.eqb_sym, Ha. cbn [andb].
    now rewrite (IH Hk).
Qed.

(** A string with the byte [c] in it, cut at the first one. *)
Lemma containsByte_first c s :
  strings.containsByte s c = true ->
  exists k v, s = k +:+ String c v /\ strings.containsByte k c = false.
Proof.
  induction s as [|a s IH]; intros H; [discriminate|].
  cbn [strings.containsByte] in H.
  destruct (Ascii.eqb c a) eqn:E.
  - apply Ascii.eqb_eq in E. subst a. exists EmptyString, s. split; reflexivity.
  - destruct (IH H) as (k & v & -> & Hk). exists (String a k), v. split; [reflexivity|].
    cbn [strings.containsByte]. now rewrite E, Hk.
Qed.

Lemma SplitN_2 arg : strings_SplitN arg "=" 2 = genSplitN "=" 0 1 arg.
Proof. reflexivity. Qed.

Lemma Set_cut s k v :
  strings.containsByte k "=" = false ->
  HilltopSites_Set s (site_flag k v) = ({| Sites := <[k := v]> (Sites s) |}, None).
Proof.
  intros H. unfold HilltopSites_Set, site_flag. rewrite SplitN_2.
  change (k +:+ "=" +:+ v) with (k +:+ String "=" v).
  now rewrite genSplitN_first.
Qed.

Lemma Set_absent s arg :
  strings.containsByte arg "=" = false ->
  HilltopSites_Set s arg
  = (s, Some (errors_New "invalid format: expecting <string>=<string>")).
Proof.
  intros H. unfold HilltopSites_Set. rewrite SplitN_2.
  now rewrite genSplitN_absent.
Qed.

(** X1: [Set] reports an error exactly for an argument without the byte
    [=] in it, and then leaves the table as it is; any other argument is
    taken, whatever is before and after its first [=] (nothing,
    possibly). *)
Theorem Set_error_iff_no_equals_sign s arg :
  (snd (HilltopSites_Set s arg) = None <-> strings.containsByte arg "=" = true)
  /\ (strings.containsByte arg "=" = false ->
      HilltopSites_Set s arg
      = (s, Some (errors_New "invalid format: expecting <string>=<string>"))).
Proof.
  split; [|apply Set_absent].
  destruct (strings.containsByte arg "=") eqn:E.
  - destruct (containsByte_first _ _ E) as (k & v & -> & Hk).
    change (k +:+ String "=" v) with (site_flag k v).
    rewrite Set_cut by exact Hk. split; reflexivity.
  - rewrite Set_absent by exact E. split; discriminate.
Qed.

(** X2: after [Set] of [name=code], for a name without [=] in it, the
    table gives [code] for [name] and what it gave before for every other
    name; the code is everything after the first [=], further [=]
    included. *)
Theorem Set_then_lookup s name code :
  strings.containsByte name "=" = false ->
  snd (HilltopSites_Set s (site_flag name code)) = None
  /\ Sites (fst (HilltopSites_Set s (site_flag name code))) !! name = Some code
  /\ forall other, other <> name ->
       Sites (fst (HilltopSites_Set s (site_flag name code))) !! other
       = Sites s !! other.
Proof.
  intros H. rewrite Set_cut by exact H. cbn [fst snd Sites].
  split; [reflexivity|]. split.
  - apply lookup_insert_eq.
  - intros other Hne. apply lookup_insert_ne. congruence.
Qed.

(** [Set] on any argument, as an update of the table. *)
Lemma Set_cases s arg :
  fst (HilltopSites_Set s arg) = s
  \/ exists k v, strings.containsByte k "=" = false
                 /\ fst (HilltopSites_Set s arg) = {| Sites := <[k := v]> (Sites s) |}.
Proof.
  destruct (strings.containsByte arg "=") eqn:E.
  - right. destruct (containsByte_first _ _ E) as (k & v & -> & Hk).
    exists k, v. split; [exact Hk|].
    change (k +:+ String "=" v) with (site_flag k v). now rewrite Set_cut.
  - left. now rewrite Set_absent.
Qed.

Lemma Set_each_keys s args :
  (forall k v, Sites s !! k = Some v -> strings.containsByte k "=" = false) ->
  forall k v, Sites (Set_each s args) !! k = Some v ->
              strings.containsByte k "=" = false.
Proof.
  revert s. induction args as [|arg args IH]; intros s Hs; [exact Hs|].
  unfold Set_each. cbn [fold_left]. apply IH.
  destruct (Set_cases s arg) as [->|(k0 & v0 & Hk0 & ->)]; [exact Hs|].
  intros k v. cbn [Sites]. destruct (decide (k0 = k)) as [->|Hne].
  - intros _. exact Hk0.
  - rewrite lookup_insert_ne by exact Hne. apply Hs.
Qed.

(** X3: no call of [Set] ever puts a name with [=] in it into the table:
    in the table that any sequence of calls builds from the empty one, no
    such name is known, and a measurement of a site of such a name is
    skipped by [Observations], whatever the [-site] flags. *)
Theorem Set_never_registers_a_name_with_equals_sign Local ParseFloat args h m
  network method :
  strings.containsByte (SiteName m) "=" = true ->
  Sites (Set_each NewHilltopSites args) !! SiteName m = None
  /\ (Measurement h = [m] ->
      fst (Observations Local ParseFloat h (Set_each NewHilltopSites args)
             network method) = ([], None)).
Proof.
  intros H.
  assert (Hn : Sites (Set_each NewHilltopSites args) !! SiteName m = None).
  { destruct (Sites (Set_each NewHilltopSites args) !! SiteName m) as [v|] eqn:E;
      [|reflexivity].
    apply Set_each_keys in E; [congruence|].
    intros k v'. cbn [NewHilltopSites Sites]. now rewrite lookup_empty. }
  split; [exact Hn|].
  intros Hh. unfold Observations. rewrite Hh. cbn [Observations_from].
  now rewrite Hn.
Qed.

(** X4: of two calls of [Set] for the same name the second one counts,
    and calls for different names can be made in either order. *)
Theorem Set_twice s name name' code code' :
  strings.containsByte name "=" = false ->
  strings.containsByte name' "=" = false ->
  Set_each s [site_flag name code; site_flag name code']
    = Set_each s [site_flag name code']
  /\ (name <> name' ->
      Set_each s [site_flag name code; site_flag name' code']
      = Set_each s [site_flag name' code'; site_flag name code]).
Proof.
  intros H H'. unfold Set_each. cbn [fold_left].
  repeat (rewrite !Set_cut by assumption; cbn [fst Sites]). split.
  - now rewrite insert_insert_eq.
  - intros Hne. f_equal. apply insert_insert_ne. congruence.
Qed.

(** X5: once [Set] has been called with [name=code], the measurements
    of the site [name] are assembled, with [code] for site identifier. *)
Theorem Set_then_Observations Local ParseFloat s h m code t values network method :
  strings.containsByte (SiteName m) "=" = false ->
  HilltopUnits !! Name (DataSource m) = Some t ->
  Values Local ParseFloat m = (values, None) ->
  Measurement h = [m] ->
  Observations Local ParseFloat h
    (fst (HilltopSites_Set s (site_flag (SiteName m) code))) network method
  = (map (Observation_of network code t method) values, None, []).
Proof.
  intros Hn Ht Hv Hh. unfold Observations. rewrite Hh. cbn [Observations_from].
  rewrite Set_cut by exact Hn. cbn [fst Sites]. rewrite lookup_insert_eq, Ht, Hv.
  reflexivity.
Qed.

End SiteTable.

(** ** The assembler: what every observation carries *)

Section AssemblerMore.

Variable Local : time.Location.
Variable ParseFloat : string -> Z -> result float64 strconv.NumError.

Abbreviation Obs_from := (Observations_from Local ParseFloat).

Lemma Observations_from_fields (P : msg.Observation -> Prop)
  sites network method msgs logged ms :
  (forall m s t v, m ∈ ms ->
     Sites sites !! SiteName m = Some s ->
     HilltopUnits !! Name (DataSource m) = Some t ->
     P (Observation_of network s t method v)) ->
  Forall P msgs ->
  Forall P (fst (fst (Obs_from sites network method msgs logged ms))).
Proof.
  revert msgs logged. induction ms as [|m ms IH]; intros msgs logged HP Hm.
  - exact Hm.
  - assert (HP' : forall m' s t v, m' ∈ ms ->
              Sites sites !! SiteName m' = Some s ->
              HilltopUnits !! Name (DataSource m') = Some t ->
              P (Observation_of network s t method v)).
    { intros m' s t v Hin. apply HP. apply elem_of_cons. now right. }
    cbn [Observations_from].
    destruct (Sites sites !! SiteName m) as [s|] eqn:Es; [|now apply IH].
    destruct (HilltopUnits !! Name (DataSource m)) as [t|] eqn:Et; [|now apply IH].
    destruct (Values Local ParseFloat m) as [values [e|]]; [exact Hm|].
    apply IH; [exact HP'|]. apply Forall_app. split; [exact Hm|].
    assert (Hv : forall v, P (Observation_of network s t method v)).
    { intros v. apply (HP m s t v); [apply elem_of_cons; now left|exact Es|exact Et]. }
    clear -Hv. induction values as [|v values IHv]; simpl; constructor; auto.
Qed.

(** X6: every observation that [Observations] returns carries the network
    and the method it was called with, for site identifier the code that
    the site table gives for the site name of a measurement of the
    document, and for type identifier the code that [HilltopUnits] gives
    for the data source name of that measurement. *)
Theorem Observations_identifiers h sites network method :
  Forall (fun o =>
            msg.NetworkID o = network
            /\ msg.MethodID o = method
            /\ exists m, m ∈ Measurement h
                 /\ Sites sites !! SiteName m = Some (msg.SiteID o)
                 /\ HilltopUnits !! Name (DataSource m) = Some (msg.TypeID o))
         (fst (fst (Observations Local ParseFloat h sites network method))).
Proof.
  unfold Observations. apply Observations_from_fields; [|constructor].
  intros m s t v Hin Hs Ht. cbn. split; [reflexivity|]. split; [reflexivity|].
  exists m. auto.
Qed.

Lemma Observations_from_unknown_sites sites network method msgs logged ms :
  Forall (fun m => Sites sites !! SiteName m = None) ms ->
  Obs_from sites network method msgs logged ms
  = (msgs, None, logged ++ map (fun m => skipping_unknown_site (SiteName m)) ms).
Proof.
  intros H. revert logged. induction H as [|m ms Hm _ IH]; intros logged.
  - simpl. now rewrite app_nil_r.
  - cbn [Observations_from]. rewrite Hm, IH. cbn [map]. now rewrite <- app_assoc.
Qed.

(** X7: with a site table that knows none of the site names of a document
    (the empty table of a run without [-site] flags, for one), the
    document gives no observation and no error, whatever its value lines
    are, and one line is logged for each measurement, in order. *)
Theorem Observations_without_known_sites h sites network method :
  Forall (fun m => Sites sites !! SiteName m = None) (Measurement h) ->
  Observations Local ParseFloat h sites network method
  = ([], None, map (fun m => skipping_unknown_site (SiteName m)) (Measurement h)).
Proof.
  intros H. unfold Observations. now rewrite Observations_from_unknown_sites.
Qed.

Lemma Observations_from_logged_app sites network method msgs logged ms :
  snd (Obs_from sites network method msgs logged ms)
  = logged ++ snd (Obs_from sites network method msgs [] ms).
Proof.
  revert msgs logged. induction ms as [|m ms IH]; intros msgs logged.
  - simpl. now rewrite app_nil_r.
  - cbn [Observations_from].
    destruct (Sites sites !! SiteName m) as [s|].
    + destruct (HilltopUnits !! Name (DataSource m)) as [t|].
      * destruct (Values Local ParseFloat m) as [values [e|]].
        -- simpl. now rewrite app_nil_r.
        -- apply IH.
      * rewrite IH. rewrite (IH _ ([] ++ _)). now rewrite <- app_assoc.
    + rewrite IH. rewrite (IH _ ([] ++ _)). now rewrite <- app_assoc.
Qed.

(** X8: a document is assembled part by part: when the first part of its
    measurements gives no error, the result is what the first part gives
    followed by what the second part gives, observations and log lines
    alike, with the error of the second part; when the first part gives
    an error, the result is that of the first part, and the second part
    has no bearing on it. *)
Theorem Observations_of_parts h sites network method pre post :
  Measurement h = pre ++ post ->
  Observations Local ParseFloat h sites network method =
  match Observations Local ParseFloat (with_measurements h pre) sites network method
  with
  | (msgs, None, logged) =>
      (msgs ++ fst (fst (Observations Local ParseFloat (with_measurements h post)
                           sites network method)),
       snd (fst (Observations Local ParseFloat (with_measurements h post)
                   sites network method)),
       logged ++ snd (Observations Local ParseFloat (with_measurements h post)
                        sites network method))
  | r => r
  end.
Proof.
  intros Hh. unfold Observations. rewrite Hh. cbn [Measurement with_measurements].
  rewrite Observations_from_app.
  destruct (Obs_from sites network method [] [] pre) as [[msgs [e|]] logged];
    [reflexivity|].
  rewrite Observations_from_acc. f_equal; [f_equal|].
  - f_equal. f_equal. apply Observations_from_logged.
  - f_equal. apply Observations_from_logged.
  - rewrite Observations_from_logged_app. f_equal.
Qed.

(** The number of value lines of the measurements. *)
Lemma Values_from_length dateFormat values vs :
  (length (fst (Values_from Local ParseFloat dateFormat values vs))
   <= length values + length vs)%nat.
Proof.
  revert values. induction vs as [|v vs IH]; intros values.
  - simpl. lia.
  - rewrite Values_from_cons.
    destruct (lineOutcome Local ParseFloat dateFormat v) as [|hv|e].
    + specialize (IH values). simpl. lia.
    + specialize (IH (values ++ [hv])). rewrite length_app in IH. simpl in *. lia.
    + simpl. lia.
Qed.

Lemma Observations_from_length sites network method msgs logged ms :
  (length (fst (fst (Obs_from sites network method msgs logged ms)))
   <= length msgs + length (concat (map (fun m => Value (Data m)) ms)))%nat.
Proof.
  revert msgs logged. induction ms as [|m ms IH]; intros msgs logged.
  - simpl. lia.
  - cbn [Observations_from map concat]. rewrite length_app.
    destruct (Sites sites !! SiteName m) as [s|];
      [|specialize (IH msgs (logged ++ [skipping_unknown_site (SiteName m)])); lia].
    destruct (HilltopUnits !! Name (DataSource m)) as [t|];
      [|specialize (IH msgs (logged ++ [skipping_unknown_data_source
                                           (Name (DataSource m))])); lia].
    pose proof (Values_from_length (DateFormat (Data m)) [] (Value (Data m))) as Hv.
    unfold Values. destruct (Values_from _ _ _ _ _) as [values [e|]].
    + simpl. lia.
    + specialize (IH (msgs ++ map (Observation_of network s t method) values) logged).
      rewrite length_app, length_map in IH. simpl in Hv. lia.
Qed.

(** X9: a document never gives more observations than it has value
    lines: each line gives one observation at most. *)
Theorem Observations_at_most_one_per_line h sites network method :
  (length (fst (fst (Observations Local ParseFloat h sites network method)))
   <= length (concat (map (fun m => Value (Data m)) (Measurement h))))%nat.
Proof.
  unfold Observations.
  pose proof (Observations_from_length sites network method [] [] (Measurement h)) as H.
  simpl in H. exact H.
Qed.

End AssemblerMore.

(** ** The assembler: what is logged *)

Section AssemblerLog.

Variable Local : time.Location.
Variable ParseFloat : string -> Z -> result float64 strconv.NumError.

Lemma Observations_from_log sites network method msgs logged ms :
  snd (fst (Observations_from Local ParseFloat sites network method msgs logged ms))
    = None ->
  snd (Observations_from Local ParseFloat sites network method msgs logged ms)
  = logged ++ omap (skip_line sites) ms.
Proof.
  revert msgs logged. induction ms as [|m ms IH]; intros msgs logged.
  - intros _. cbn. now rewrite app_nil_r.
  - cbn [Observations_from].
    change (omap (skip_line sites) (m :: ms))
      with (match skip_line sites m with
            | Some y => y :: omap (skip_line sites) ms
            | None => omap (skip_line sites) ms
            end).
    unfold skip_line at 1.
    destruct (Sites sites !! SiteName m) as [s|].
    + destruct (HilltopUnits !! Name (DataSource m)) as [t|].
      * destruct (Values Local ParseFloat m) as [values [err|]]; [discriminate|].
        apply IH.
      * intros H. rewrite (IH _ _ H), <- app_assoc. reflexivity.
    + intros H. rewrite (IH _ _ H), <- app_assoc. reflexivity.
Qed.

(** X20: when a document is assembled without error, every measurement
    is either assembled or logged, never both and never twice: the log
    has one line for each measurement of an unknown site or, the site
    being known, of an unknown data source, in the order of the
    measurements, and no other line; a measurement unknown on both counts
    is logged for its site. *)
Theorem Observations_logs_each_skipped_measurement h sites network method :
  snd (fst (Observations Local ParseFloat h sites network method)) = None ->
  snd (Observations Local ParseFloat h sites network method)
    = omap (skip_line sites) (Measurement h)
  /\ (length (snd (Observations Local ParseFloat h sites network method))
      + length (List.filter (mapped sites) (Measurement h))
      = length (Measurement h))%nat.
Proof.
  intros H. unfold Observations in *.
  rewrite (Observations_from_log _ _ _ _ _ _ H). cbn [app]. split; [reflexivity|].
  clear H. induction (Measurement h) as [|m ms IH]; [reflexivity|].
  change (omap (skip_line sites) (m :: ms))
    with (match skip_line sites m with
          | Some y => y :: omap (skip_line sites) ms
          | None => omap (skip_line sites) ms
          end).
  cbn [List.filter]. unfold skip_line at 1, mapped at 1.
  destruct (Sites sites !! SiteName m) as [s|].
  - destruct (HilltopUnits !! Name (DataSource m)) as [t|]; cbn [length]; lia.
  - cbn [length]. lia.
Qed.

End AssemblerLog.

(** ** The two versions of the assembler *)

Section Versions.

Variable Local : time.Location.
Variable ParseFloat : string -> Z -> result float64 strconv.NumError.

Lemma Observations_from_versions sites network method msgs0 logged ms :
  fst (Observations_from Local ParseFloat sites network method
         (map (translate sites) msgs0) logged ms)
  = (map (translate sites)
       (fst (main_go.Observations_from Local ParseFloat network method msgs0
               (List.filter (mapped sites) ms))),
     snd (main_go.Observations_from Local ParseFloat network method msgs0
            (List.filter (mapped sites) ms))).
Proof.
  revert msgs0 logged. induction ms as [|m ms IH]; intros msgs0 logged.
  - reflexivity.
  - cbn [Observations_from List.filter].
    destruct (Sites sites !! SiteName m) as [s|] eqn:Es.
    2:{ replace (mapped sites m) with false by (unfold mapped; now rewrite Es).
        apply IH. }
    destruct (HilltopUnits !! Name (DataSource m)) as [t|] eqn:Et.
    2:{ replace (mapped sites m) with false by (unfold mapped; now rewrite Es, Et).
        apply IH. }
    replace (mapped sites m) with true by (unfold mapped; now rewrite Es, Et).
    cbn [main_go.Observations_from].
    destruct (Values Local ParseFloat m) as [values [e|]]; [reflexivity|].
    rewrite <- (IH _ logged). f_equal. f_equal. rewrite map_app. f_equal.
    rewrite map_map. apply map_ext. intros v.
    unfold translate, Observation_of.
    cbn [msg.SiteID msg.TypeID msg.NetworkID msg.MethodID msg.DateTime msg.Value
         msg.Error].
    now rewrite Es, Et.
Qed.

(** X10: the assembler with the tables (src/unnamed/part_000) gives what
    the first assembler (src/main.go) gives for the measurements with a
    known site name and a known data source name, the names replaced by
    the codes of the tables in each observation, and the same error. *)
Theorem Observations_refines_first_version h sites network method :
  fst (Observations Local ParseFloat h sites network method)
  = (map (translate sites)
       (fst (main_go.Observations Local ParseFloat
               (with_measurements h (List.filter (mapped sites) (Measurement h)))
               network method)),
     snd (main_go.Observations Local ParseFloat
            (with_measurements h (List.filter (mapped sites) (Measurement h)))
            network method)).
Proof.
  unfold Observations, main_go.Observations. cbn [Measurement with_measurements].
  apply (Observations_from_versions sites network method [] []).
Qed.

(** X11: the first assembler skips nothing: it fails exactly when
    [Values] fails on some measurement, and otherwise returns the readings
    of all the measurements, each under the site and data source names
    of its measurement. *)
Theorem first_version_takes_every_measurement h network method :
  (snd (main_go.Observations Local ParseFloat h network method) = None
   <-> Forall (fun m => snd (Values Local ParseFloat m) = None) (Measurement h))
  /\ (snd (main_go.Observations Local ParseFloat h network method) = None ->
      fst (main_go.Observations Local ParseFloat h network method)
      = concat (map (fun m =>
                       map (Observation_of network (SiteName m) (Name (DataSource m))
                              method)
                           (fst (Values Local ParseFloat m)))
                    (Measurement h))).
Proof.
  unfold main_go.Observations.
  assert (G : forall ms msgs,
    (snd (main_go.Observations_from Local ParseFloat network method msgs ms) = None
     <-> Forall (fun m => snd (Values Local ParseFloat m) = None) ms)
    /\ (snd (main_go.Observations_from Local ParseFloat network method msgs ms) = None ->
        fst (main_go.Observations_from Local ParseFloat network method msgs ms)
        = msgs ++ concat (map (fun m =>
                       map (Observation_of network (SiteName m) (Name (DataSource m))
                              method)
                           (fst (Values Local ParseFloat m))) ms))).
  { induction ms as [|m ms IH]; intros msgs.
    - simpl. rewrite app_nil_r. split; [split; [constructor|reflexivity]|reflexivity].
    - cbn [main_go.Observations_from map concat].
      destruct (Values Local ParseFloat m) as [values [e|]] eqn:Ev.
      + simpl. split; [split; [discriminate|]|discriminate].
        intros H. inversion H as [|? ? Hm _]; subst. rewrite Ev in Hm. discriminate.
      + destruct (IH (msgs ++ map (Observation_of network (SiteName m)
                                     (Name (DataSource m)) method) values))
          as [IH1 IH2].
        split.
        * rewrite IH1. split.
          -- intros H. constructor; [now rewrite Ev|exact H].
          -- intros H. now inversion H.
        * intros H. rewrite (IH2 H). cbn [fst]. now rewrite <- app_assoc. }
  destruct (G (Measurement h) []) as [G1 G2]. split; [exact G1|exact G2].
Qed.

End Versions.

(** ** The extractor: what follows the third token, and double spaces *)

Section ExtractorMore.

Variable Local : time.Location.
Variable ParseFloat : string -> Z -> result float64 strconv.NumError.

Lemma Split_space_nonempty s : strings.Split s " " <> [].
Proof.
  unfold strings.Split. induction s as [|a s IH]; [discriminate|].
  cbn [strings.genSplit]. destruct (strings.HasPrefix (String a s) " "); [discriminate|].
  destruct (strings.genSplit " " 0 s); discriminate.
Qed.

(** Cutting at the spaces goes through concatenation at a space. *)
Lemma Split_space_app a b :
  strings.Split (a +:+ String " " b) " "
  = strings.Split a " " ++ strings.Split b " ".
Proof.
  induction a as [|x a IH].
  - change (EmptyString +:+ String " " b) with (String " " b).
    unfold strings.Split. cbn [strings.genSplit strings.HasPrefix]. reflexivity.
  - change (String x a +:+ String " " b) with (String x (a +:+ String " " b)).
    unfold strings.Split in *.
    cbn [strings.genSplit strings.HasPrefix String.length Nat.pred].
    rewrite IH. destruct (Ascii.eqb x " " && true); [reflexivity|].
    pose proof (Split_space_nonempty a) as Hne. unfold strings.Split in Hne.
    destruct (strings.genSplit " " 0 a) as [|p ps]; [contradiction|reflexivity].
Qed.

Lemma trimLeftByte_app v w :
  strings.trimLeftByte v " " <> EmptyString ->
  strings.trimLeftByte (v +:+ w) " " = strings.trimLeftByte v " " +:+ w.
Proof.
  induction v as [|x v IH]; intros H; [contradiction|].
  change (String x v +:+ w) with (String x (v +:+ w)).
  cbn [strings.trimLeftByte] in *. destruct (Ascii.eqb x " "); [now apply IH|reflexivity].
Qed.

Lemma tokens_append v junk :
  (length (tokens v) > 2)%nat ->
  tokens (v +:+ " " +:+ junk) = tokens v ++ strings.Split junk " ".
Proof.
  unfold tokens. cbn [strings.TrimLeft]. intros H.
  rewrite trimLeftByte_app.
  - apply Split_space_app.
  - intros E. rewrite E in H. cbn in H. lia.
Qed.

(** X12: what follows the third token of a value line has no part in
    its reading: a line with three tokens or more is read in the same way
    with anything added to it after a space, and so is the
    measurement. *)
Theorem Values_ignores_what_follows_the_third_token m pre v post junk :
  Value (Data m) = pre ++ v :: post ->
  (length (tokens v) > 2)%nat ->
  lineOutcome Local ParseFloat (DateFormat (Data m)) (v +:+ " " +:+ junk)
    = lineOutcome Local ParseFloat (DateFormat (Data m)) v
  /\ Values Local ParseFloat (with_lines m (pre ++ (v +:+ " " +:+ junk) :: post))
     = Values Local ParseFloat m.
Proof.
  intros Hm Hv.
  assert (H : lineOutcome Local ParseFloat (DateFormat (Data m)) (v +:+ " " +:+ junk)
              = lineOutcome Local ParseFloat (DateFormat (Data m)) v).
  { unfold lineOutcome. rewrite tokens_append by exact Hv.
    destruct (tokens v) as [|p0 [|p1 [|p2 more]]]; simpl in Hv; try lia.
    reflexivity. }
  split; [exact H|].
  unfold Values. cbn [with_lines Data DateFormat Value]. rewrite Hm.
  rewrite !Values_from_app.
  destruct (Values_from Local ParseFloat _ [] pre) as [vals [e|]]; [reflexivity|].
  now rewrite !Values_from_cons, H.
Qed.

Import time.

(** [parse] on a date with nothing after it but a space: the hour is
    missing. *)
Lemma parseChunks_date_only c avalue :
  valid_civil c ->
  parseChunks layout_02_Jan_06_15_04_05 avalue (chunks layout_02_Jan_06_15_04_05)
    initFields (Sprintf_s_s (date_token c) EmptyString)
  = Err (newParseError layout_02_Jan_06_15_04_05 avalue "15" EmptyString msgNone).
Proof.
  intros Hc. pose proof (valid_civil_day c Hc) as Hd.
  destruct Hc as (Hy & Hm & _).
  unfold Sprintf_s_s, date_token.
  rewrite !append_assoc_string.
  rewrite !two_digits_append, !append_char.
  cbn [chunks layout_02_Jan_06_15_04_05 parseChunks].
  change (skip ?v EmptyString) with (Ok (E:=string) v). cbv iota.
  cbn [parseStd]. rewrite getnum_two_digits by lia.
  rewrite skip_literal by reflexivity.
  rewrite lookupTab_month by exact Hm.
  rewrite skip_literal by reflexivity.
  cbn [String.length Nat.ltb Nat.leb take_bytes drop_bytes].
  rewrite atoi_two_digits by zdiv. rewrite year_pivot by exact Hy.
  reflexivity.
Qed.

(** X13: two spaces between the date and the time of a value line are
    fatal: the second token is then empty, the date-time does not parse,
    and the extraction stops at the line with a parse error of package
    [time], whatever the rest of the line is. *)
Theorem Values_fails_on_a_double_space dateFormat k c rest values vs :
  valid_civil c ->
  exists e,
    Values_from Local ParseFloat dateFormat values
      ((spaces k +:+ date_token c +:+ "  " +:+ rest) :: vs)
    = (values, Some (time_ParseError e)).
Proof.
  intros Hc.
  assert (Ht : exists p2 more,
            tokens (spaces k +:+ date_token c +:+ "  " +:+ rest)
            = date_token c :: EmptyString :: p2 :: more).
  { rewrite tokens_spaces. unfold tokens.
    rewrite TrimLeft_no_space.
    - change (date_token c +:+ "  " +:+ rest)
        with (date_token c +:+ String " " (EmptyString +:+ String " " rest)).
      rewrite Split_space_cons by now apply no_space_date_token.
      rewrite Split_space_cons by reflexivity.
      pose proof (Split_space_nonempty rest) as Hne.
      destruct (strings.Split rest " ") as [|p2 more]; [contradiction|eauto].
    - unfold date_token, two_digits. discriminate.
    - now apply no_space_date_token. }
  destruct Ht as (p2 & more & Ht).
  eexists. rewrite Values_from_cons. unfold lineOutcome. rewrite Ht.
  unfold Parse. rewrite parse_fields, parseChunks_date_only by exact Hc.
  reflexivity.
Qed.

End ExtractorMore.

(** ** The command *)

Section CommandFacts.

Variable Local : time.Location.
Variable ParseFloat : string -> Z -> result float64 strconv.NumError.
Variable File : Type.
Variable os_Open : string -> result File error.
Variable xml_Decode : File -> result Hilltop error.
Variables Region Auth SQS Queue : Type.

Abbreviation Services := (cli.Services Region Auth SQS Queue).
Abbreviation main := (cli.main Local ParseFloat os_Open xml_Decode).
Abbreviation run_files := (cli.run_files Local ParseFloat os_Open xml_Decode).
Abbreviation file_observations := (file_observations Local ParseFloat os_Open xml_Decode).
Abbreviation file_messages := (file_messages Local ParseFloat os_Open xml_Decode).

(** *** Dry runs *)

Lemma send_observations_dry (sv sv' : Services) fl Q Q' sent logged obs :
  cli.dryrun fl = true ->
  (forall o, cli.Encode sv o = cli.Encode sv' o) ->
  cli.send_observations sv fl Q sent logged obs
  = cli.send_observations sv' fl Q' sent logged obs
  /\ fst (sent_after (cli.send_observations sv fl Q sent logged obs)) = sent.
Proof.
  intros Hd He. revert logged. induction obs as [|o obs IH]; intros logged.
  - split; reflexivity.
  - cbn [cli.send_observations]. rewrite <- He, Hd. cbn [negb].
    destruct (cli.Encode sv o) as [mm|err]; [|split; reflexivity].
    apply IH.
Qed.

Lemma run_files_dry (sv sv' : Services) fl Q Q' sent logged fs :
  cli.dryrun fl = true ->
  (forall o, cli.Encode sv o = cli.Encode sv' o) ->
  run_files sv fl Q sent logged fs = run_files sv' fl Q' sent logged fs
  /\ cli.sent (run_files sv fl Q sent logged fs) = sent.
Proof.
  intros Hd He. revert logged. induction fs as [|f fs IH]; intros logged.
  - split; reflexivity.
  - cbn [cli.run_files].
    destruct (DecodeHilltopFile os_Open xml_Decode f) as [[h|] [err|]];
      try (split; reflexivity).
    destruct (Observations Local ParseFloat h _ _ _) as [[obs [err|]] skipped];
      [split; reflexivity|].
    destruct (send_observations_dry sv sv' fl Q Q' sent
                (if cli.verbose fl
                 then (logged ++ [cli.processing f]) ++ map cli.skipping skipped
                 else logged ++ map cli.skipping skipped) obs Hd He) as [E1 E2].
    destruct (cli.verbose fl); rewrite <- E1;
      (destruct (cli.send_observations sv fl Q sent _ obs) as [[sent' logged']|run];
       [cbn in E2; subst sent'; apply IH|split; [reflexivity|exact E2]]).
Qed.

(** X14: a dry run sends nothing, and what it does (the lines it logs,
    the way it ends) is the same whatever the environment, the
    credentials and the queue service are: only the encoding of the
    observations counts. *)
Theorem dry_run_sends_nothing (sv sv' : Services) fl :
  cli.dryrun fl = true ->
  (forall o, cli.Encode sv o = cli.Encode sv' o) ->
  cli.sent (main sv fl) = [] /\ main sv fl = main sv' fl.
Proof.
  intros Hd He. unfold cli.main, cli.setup_queue. rewrite Hd.
  destruct (String.eqb (cli.method fl) EmptyString); [split; reflexivity|].
  destruct (String.eqb (cli.network fl) EmptyString); [split; reflexivity|].
  destruct (run_files_dry sv sv' fl None None [] [] (cli.Args fl) Hd He) as [E1 E2].
  split; [exact E2|exact E1].
Qed.

(** *** Verbosity *)

Lemma send_observations_verbose (sv : Services) fl b Q sent logged logged' obs :
  sent_after (cli.send_observations sv (with_verbose fl b) Q sent logged' obs)
  = sent_after (cli.send_observations sv fl Q sent logged obs).
Proof.
  revert sent logged logged'. induction obs as [|o obs IH]; intros sent logged logged'.
  - reflexivity.
  - cbn [cli.send_observations]. cbn [with_verbose cli.dryrun cli.verbose].
    destruct (cli.Encode sv o) as [mm|err]; [|reflexivity].
    destruct (negb (cli.dryrun fl)); [|apply IH].
    destruct Q as [q|]; [|reflexivity].
    destruct (cli.SendMessage sv q sent mm); [reflexivity|apply IH].
Qed.

Lemma run_files_verbose (sv : Services) fl b Q sent logged logged' fs :
  cli.sent (run_files sv (with_verbose fl b) Q sent logged' fs)
    = cli.sent (run_files sv fl Q sent logged fs)
  /\ cli.exit (run_files sv (with_verbose fl b) Q sent logged' fs)
     = cli.exit (run_files sv fl Q sent logged fs).
Proof.
  revert sent logged logged'. induction fs as [|f fs IH]; intros sent logged logged'.
  - split; reflexivity.
  - cbn [cli.run_files]. cbn [with_verbose cli.sites cli.network cli.method cli.verbose].
    destruct (DecodeHilltopFile os_Open xml_Decode f) as [[h|] [err|]];
      try (split; reflexivity).
    destruct (Observations Local ParseFloat h _ _ _) as [[obs [err|]] skipped];
      [split; reflexivity|].
    match goal with
    | |- context [cli.send_observations sv (with_verbose fl b) Q sent ?l' obs] =>
        match goal with
        | |- context [cli.send_observations sv fl Q sent ?l obs] =>
            pose proof (send_observations_verbose sv fl b Q sent l l' obs) as E
        end
    end.
    destruct (cli.send_observations sv (with_verbose fl b) Q sent _ obs)
      as [[s1 l1]|r1];
      destruct (cli.send_observations sv fl Q sent _ obs) as [[s2 l2]|r2];
      cbn in E; try discriminate.
    + injection E as ->. apply IH.
    + injection E as E1 E2. split; assumption.
Qed.

(** X15: the flag [-verbose] changes the log only: the messages sent and
    the way the run ends are the same with and without it. *)
Theorem verbose_changes_the_log_only (sv : Services) fl b :
  cli.sent (main sv (with_verbose fl b)) = cli.sent (main sv fl)
  /\ cli.exit (main sv (with_verbose fl b)) = cli.exit (main sv fl).
Proof.
  unfold cli.main.
  change (cli.setup_queue sv (with_verbose fl b)) with (cli.setup_queue sv fl).
  cbn [with_verbose cli.method cli.network cli.Args].
  destruct (String.eqb (cli.method fl) EmptyString); [split; reflexivity|].
  destruct (String.eqb (cli.network fl) EmptyString); [split; reflexivity|].
  destruct (cli.setup_queue sv fl) as [Q|why]; [|split; reflexivity].
  apply run_files_verbose.
Qed.

(** *** What is sent *)

Lemma send_observations_sent (sv : Services) fl Q sent logged obs :
  exists more,
    fst (sent_after (cli.send_observations sv fl Q sent logged obs)) = sent ++ more
    /\ Forall (fun mm => exists o, o ∈ obs /\ cli.Encode sv o = Ok mm) more.
Proof.
  revert sent logged. induction obs as [|o obs IH]; intros sent logged.
  - exists []. split; [cbn; now rewrite app_nil_r|constructor].
  - assert (Hw : forall more,
              Forall (fun mm => exists o', o' ∈ obs /\ cli.Encode sv o' = Ok mm) more ->
              Forall (fun mm => exists o', o' ∈ o :: obs /\ cli.Encode sv o' = Ok mm) more).
    { intros more H. eapply Forall_impl; [exact H|]. intros mm (o' & Ho' & He).
      exists o'. split; [apply elem_of_cons; now right|exact He]. }
    cbn [cli.send_observations].
    destruct (cli.Encode sv o) as [mm|err] eqn:Ee.
    2:{ exists []. split; [cbn; now rewrite app_nil_r|constructor]. }
    destruct (negb (cli.dryrun fl)).
    + destruct Q as [q|].
      2:{ exists []. split; [cbn; now rewrite app_nil_r|constructor]. }
      destruct (cli.SendMessage sv q sent mm).
      { exists []. split; [cbn; now rewrite app_nil_r|constructor]. }
      destruct (IH (sent ++ [mm]) (if cli.verbose fl then logged ++ [cli.message mm]
                                   else logged)) as (more & E & Hm).
      exists (mm :: more). split.
      * rewrite E, <- app_assoc. reflexivity.
      * constructor; [|now apply Hw].
        exists o. split; [apply elem_of_cons; now left|exact Ee].
    + destruct (IH sent (if cli.verbose fl then logged ++ [cli.message mm]
                         else logged)) as (more & E & Hm).
      exists more. split; [exact E|now apply Hw].
Qed.

Lemma run_files_sent (sv : Services) fl Q sent logged fs :
  exists more,
    cli.sent (run_files sv fl Q sent logged fs) = sent ++ more
    /\ Forall (fun mm => exists f obs o,
                 f ∈ fs /\ file_observations fl f = Some obs
                 /\ o ∈ obs /\ cli.Encode sv o = Ok mm) more.
Proof.
  revert sent logged. induction fs as [|f fs IH]; intros sent logged.
  - exists []. split; [cbn; now rewrite app_nil_r|constructor].
  - assert (Hw : forall more,
              Forall (fun mm => exists f' obs o,
                 f' ∈ fs /\ file_observations fl f' = Some obs
                 /\ o ∈ obs /\ cli.Encode sv o = Ok mm) more ->
              Forall (fun mm => exists f' obs o,
                 f' ∈ f :: fs /\ file_observations fl f' = Some obs
                 /\ o ∈ obs /\ cli.Encode sv o = Ok mm) more).
    { intros more H0. eapply Forall_impl; [exact H0|]. intros mm (f' & obs & o & Hf & H).
      exists f', obs, o. split; [apply elem_of_cons; now right|exact H]. }
    cbn [cli.run_files].
    destruct (DecodeHilltopFile os_Open xml_Decode f) as [[h|] [err|]] eqn:Ed;
      try (exists []; split; [cbn; now rewrite app_nil_r|constructor]).
    destruct (Observations Local ParseFloat h _ _ _) as [[obs [err|]] skipped] eqn:Eo;
      [exists []; split; [cbn; now rewrite app_nil_r|constructor]|].
    assert (Hf : file_observations fl f = Some obs)
      by (unfold file_observations; now rewrite Ed, Eo).
    match goal with
    | |- context [cli.send_observations sv fl Q sent ?l obs] =>
        destruct (send_observations_sent sv fl Q sent l obs) as (m1 & E1 & H1);
        destruct (cli.send_observations sv fl Q sent l obs) as [[s1 l1]|r1]
    end; cbn in E1.
    + subst s1.
      destruct (IH (sent ++ m1) (if cli.verbose fl then l1 ++ [cli.completed] else l1))
        as (m2 & E2 & H2).
      exists (m1 ++ m2). split; [rewrite E2, <- app_assoc; reflexivity|].
      apply Forall_app. split; [|now apply Hw].
      eapply Forall_impl; [exact H1|]. intros mm (o & Ho & He).
      exists f, obs, o. split; [apply elem_of_cons; now left|auto].
    + exists m1. split; [exact E1|].
      eapply Forall_impl; [exact H1|]. intros mm (o & Ho & He).
      exists f, obs, o. split; [apply elem_of_cons; now left|auto].
Qed.

(** X16: every message that a run sends is the encoding of an
    observation of one of the files given, a file that decodes and is
    assembled without error; and when anything is sent at all, the run is
    no dry run, the method and the network are given and the queue was
    found. *)
Theorem sent_messages_are_encoded_observations (sv : Services) fl :
  Forall (fun mm => exists f obs o,
            f ∈ cli.Args fl /\ file_observations fl f = Some obs
            /\ o ∈ obs /\ cli.Encode sv o = Ok mm)
         (cli.sent (main sv fl))
  /\ (cli.sent (main sv fl) <> [] ->
      cli.dryrun fl = false
      /\ cli.method fl <> EmptyString
      /\ cli.network fl <> EmptyString
      /\ exists q, cli.setup_queue sv fl = Ok (Some q)).
Proof.
  split.
  - unfold cli.main.
    destruct (String.eqb (cli.method fl) EmptyString); [constructor|].
    destruct (String.eqb (cli.network fl) EmptyString); [constructor|].
    destruct (cli.setup_queue sv fl) as [Q|why]; [|constructor].
    destruct (run_files_sent sv fl Q [] [] (cli.Args fl)) as (more & E & H).
    rewrite E. exact H.
  - intros Hs. destruct (cli.dryrun fl) eqn:Hd.
    { exfalso. apply Hs.
      now destruct (dry_run_sends_nothing sv sv fl Hd (fun o => eq_refl)). }
    split; [reflexivity|]. unfold cli.main in Hs.
    destruct (String.eqb (cli.method fl) EmptyString) eqn:Em; [now contradiction Hs|].
    destruct (String.eqb (cli.network fl) EmptyString) eqn:En; [now contradiction Hs|].
    apply String.eqb_neq in Em, En. split; [exact Em|]. split; [exact En|].
    destruct (cli.setup_queue sv fl) as [[q|]|why] eqn:Eq.
    + now exists q.
    + exfalso. unfold cli.setup_queue in Eq. rewrite Hd in Eq.
      repeat match type of Eq with
             | context [if ?c then _ else _] => destruct c
             | context [match ?x with _ => _ end] => destruct x
             end; discriminate.
    + now contradiction Hs.
Qed.

(** *** Runs file by file *)

Abbreviation delivered := (fun (fl : cli.Flags) (sent ms : list string) =>
  if cli.dryrun fl then sent else sent ++ ms).

Lemma send_observations_all (sv : Services) fl Q sent logged obs ms :
  sending_works sv fl Q ->
  encode_all sv obs = Some ms ->
  exists logged',
    cli.send_observations sv fl Q sent logged obs
    = Ok (delivered fl sent ms, logged').
Proof.
  intros [HQ Hs]. revert sent logged ms.
  induction obs as [|o obs IH]; intros sent logged ms He.
  - injection He as <-. exists logged. cbn.
    destruct (cli.dryrun fl); [reflexivity|now rewrite app_nil_r].
  - cbn [encode_all] in He. cbn [cli.send_observations].
    destruct (cli.Encode sv o) as [mm|err]; [|discriminate].
    destruct (encode_all sv obs) as [ms'|]; [|discriminate].
    injection He as <-.
    destruct (cli.dryrun fl) eqn:Hd; cbn [negb].
    + destruct (IH sent (if cli.verbose fl then logged ++ [cli.message mm] else logged)
                  ms' eq_refl) as [l' E].
      exists l'. exact E.
    + destruct HQ as [HQ|[q ->]]; [discriminate|]. rewrite Hs.
      destruct (IH (sent ++ [mm])
                  (if cli.verbose fl then logged ++ [cli.message mm] else logged)
                  ms' eq_refl) as [l' E].
      exists l'. rewrite E, <- app_assoc. reflexivity.
Qed.

Lemma send_observations_until (sv : Services) fl Q sent logged obs1 o obs2 ms1 err :
  sending_works sv fl Q ->
  encode_all sv obs1 = Some ms1 ->
  cli.Encode sv o = Err err ->
  exists logged',
    cli.send_observations sv fl Q sent logged (obs1 ++ o :: obs2)
    = Err {| cli.sent := delivered fl sent ms1; cli.logged := logged';
             cli.exit := cli.fatalf (cli.unable_to_encode_hilltop_msg err) |}.
Proof.
  intros [HQ Hs]. revert sent logged ms1.
  induction obs1 as [|o1 obs1 IH]; intros sent logged ms1 He Ho.
  - injection He as <-. exists logged. cbn [app cli.send_observations]. rewrite Ho.
    destruct (cli.dryrun fl); [reflexivity|now rewrite app_nil_r].
  - cbn [encode_all] in He. cbn [app cli.send_observations].
    destruct (cli.Encode sv o1) as [mm|err1]; [|discriminate].
    destruct (encode_all sv obs1) as [ms'|]; [|discriminate].
    injection He as <-.
    destruct (cli.dryrun fl) eqn:Hd; cbn [negb].
    + destruct (IH sent (if cli.verbose fl then logged ++ [cli.message mm] else logged)
                  ms' eq_refl Ho) as [l' E].
      exists l'. exact E.
    + destruct HQ as [HQ|[q ->]]; [discriminate|]. rewrite Hs.
      destruct (IH (sent ++ [mm])
                  (if cli.verbose fl then logged ++ [cli.message mm] else logged)
                  ms' eq_refl Ho) as [l' E].
      exists l'. rewrite E, <- app_assoc. reflexivity.
Qed.

Lemma file_messages_inv (sv : Services) fl f ms :
  file_messages sv fl f = Some ms ->
  exists h obs skipped,
    DecodeHilltopFile os_Open xml_Decode f = (Some h, None)
    /\ Observations Local ParseFloat h (cli.sites fl) (cli.network fl) (cli.method fl)
       = (obs, None, skipped)
    /\ encode_all sv obs = Some ms.
Proof.
  unfold file_messages, file_observations.
  destruct (DecodeHilltopFile os_Open xml_Decode f) as [[h|] [err|]] eqn:Ed;
    try discriminate.
  destruct (Observations Local ParseFloat h _ _ _) as [[obs [err|]] skipped] eqn:Eo;
    try discriminate.
  intros H. exists h, obs, skipped. auto.
Qed.

Lemma setup_queue_found (sv : Services) fl Q :
  cli.setup_queue sv fl = Ok Q ->
  cli.dryrun fl = true \/ exists q, Q = Some q.
Proof.
  intros HQ. unfold cli.setup_queue in HQ.
  destruct (cli.dryrun fl); [now left|right].
  repeat match type of HQ with
         | context [if ?c then _ else _] => destruct c
         | context [match ?x with _ => _ end] => destruct x
         end; try discriminate; injection HQ as <-; eauto.
Qed.

(** The files that go through: the run goes on after them, with their
    messages sent. *)
Lemma run_files_through (sv : Services) fl Q sent logged pre mss rest :
  sending_works sv fl Q ->
  Forall2 (fun f ms => file_messages sv fl f = Some ms) pre mss ->
  exists logged',
    run_files sv fl Q sent logged (pre ++ rest)
    = run_files sv fl Q (delivered fl sent (concat mss)) logged' rest.
Proof.
  intros Hw H. revert sent logged.
  induction H as [|f ms pre mss Hf _ IH]; intros sent logged.
  - exists logged. cbn. destruct (cli.dryrun fl); [reflexivity|now rewrite app_nil_r].
  - destruct (file_messages_inv sv fl f ms Hf) as (h & obs & skipped & Ed & Eo & Ee).
    cbn [app cli.run_files]. rewrite Ed, Eo.
    match goal with
    | |- context [cli.send_observations sv fl Q sent ?l obs] =>
        destruct (send_observations_all sv fl Q sent l obs ms Hw Ee) as [l' E]
    end.
    rewrite E.
    destruct (IH (delivered fl sent ms)
                (if cli.verbose fl then l' ++ [cli.completed] else l')) as [l'' E'].
    exists l''. rewrite E'. cbn [concat].
    destruct (cli.dryrun fl); [reflexivity|now rewrite <- app_assoc].
Qed.

(** X17: when the queue is found (or the run is a dry run), sending does
    not fail and every file decodes, is assembled without error and has
    all its observations encoded, the run returns, having sent (unless it
    is a dry run) the messages of the files, file after file in the order
    of the arguments and, within a file, in the order of its
    observations. *)
Theorem run_sends_the_messages_of_the_files_in_order (sv : Services) fl Q mss :
  cli.method fl <> EmptyString ->
  cli.network fl <> EmptyString ->
  cli.setup_queue sv fl = Ok Q ->
  (forall q sent mm, cli.SendMessage sv q sent mm = None) ->
  Forall2 (fun f ms => file_messages sv fl f = Some ms) (cli.Args fl) mss ->
  cli.exit (main sv fl) = cli.returned
  /\ cli.sent (main sv fl) = if cli.dryrun fl then [] else concat mss.
Proof.
  intros Hm Hn HQ Hs Hf. unfold cli.main.
  apply String.eqb_neq in Hm, Hn. rewrite Hm, Hn, HQ.
  assert (Hw : sending_works sv fl Q)
    by (split; [exact (setup_queue_found sv fl Q HQ)|exact Hs]).
  destruct (run_files_through sv fl Q [] [] (cli.Args fl) mss [] Hw Hf) as [l E].
  rewrite app_nil_r in E. rewrite E. cbn [cli.run_files cli.exit cli.sent].
  split; [reflexivity|]. destruct (cli.dryrun fl); reflexivity.
Qed.

(** X18: a run does not undo anything and does not go past a failure:
    when the files before some file go through and that file does not
    decode, or decodes to nothing, or is not assembled, the run ends
    there without returning, with the messages of the files before it
    sent and nothing of that file or of the files after it; when the file
    is assembled and one of its observations does not encode, the
    messages of the observations before that one have been sent as
    well. *)
Theorem run_stops_at_the_first_failure (sv : Services) fl Q pre f post mss :
  cli.method fl <> EmptyString ->
  cli.network fl <> EmptyString ->
  cli.setup_queue sv fl = Ok Q ->
  (forall q sent mm, cli.SendMessage sv q sent mm = None) ->
  cli.Args fl = pre ++ f :: post ->
  Forall2 (fun f ms => file_messages sv fl f = Some ms) pre mss ->
  (file_observations fl f = None ->
   cli.exit (main sv fl) <> cli.returned
   /\ cli.sent (main sv fl) = if cli.dryrun fl then [] else concat mss)
  /\ (forall obs1 o obs2 ms1 err,
        file_observations fl f = Some (obs1 ++ o :: obs2) ->
        encode_all sv obs1 = Some ms1 ->
        cli.Encode sv o = Err err ->
        cli.exit (main sv fl) = cli.fatalf (cli.unable_to_encode_hilltop_msg err)
        /\ cli.sent (main sv fl) = if cli.dryrun fl then [] else concat mss ++ ms1).
Proof.
  intros Hm Hn HQ Hs Ha Hf. unfold cli.main.
  apply String.eqb_neq in Hm, Hn. rewrite Hm, Hn, HQ, Ha.
  assert (Hw : sending_works sv fl Q)
    by (split; [exact (setup_queue_found sv fl Q HQ)|exact Hs]).
  destruct (run_files_through sv fl Q [] [] pre mss (f :: post) Hw Hf) as [l E].
  rewrite E. clear E. split.
  - unfold file_observations. cbn [cli.run_files].
    destruct (DecodeHilltopFile os_Open xml_Decode f) as [[h|] [err|]];
      try (intros _; split; [discriminate|cbn; destruct (cli.dryrun fl); reflexivity]).
    destruct (Observations Local ParseFloat h _ _ _) as [[obs [err|]] skipped];
      [|discriminate].
    intros _. split; [discriminate|cbn; destruct (cli.dryrun fl); reflexivity].
  - intros obs1 o obs2 ms1 err Ho He1 Heo.
    unfold file_observations in Ho. cbn [cli.run_files].
    destruct (DecodeHilltopFile os_Open xml_Decode f) as [[h|] [err'|]];
      try discriminate.
    destruct (Observations Local ParseFloat h _ _ _) as [[obs [err'|]] skipped];
      [discriminate|].
    injection Ho as ->.
    match goal with
    | |- context [cli.send_observations sv fl Q ?s ?l0 _] =>
        destruct (send_observations_until sv fl Q s l0 obs1 o obs2 ms1 err Hw He1 Heo)
          as [l' E]
    end.
    rewrite E. cbn [cli.exit cli.sent]. split; [reflexivity|].
    destruct (cli.dryrun fl); reflexivity.
Qed.

(** *** The environment *)

Lemma send_observations_services (sv sv' : Services) fl Q sent logged obs :
  (forall o, cli.Encode sv o = cli.Encode sv' o) ->
  (forall q s mm, cli.SendMessage sv q s mm = cli.SendMessage sv' q s mm) ->
  cli.send_observations sv fl Q sent logged obs
  = cli.send_observations sv' fl Q sent logged obs.
Proof.
  intros He Hs. revert sent logged. induction obs as [|o obs IH]; intros sent logged.
  - reflexivity.
  - cbn [cli.send_observations]. rewrite <- He.
    destruct (cli.Encode sv o) as [mm|err]; [|reflexivity].
    destruct (negb (cli.dryrun fl)); [|apply IH].
    destruct Q as [q|]; [|reflexivity]. rewrite <- Hs.
    destruct (cli.SendMessage sv q sent mm); [reflexivity|apply IH].
Qed.

Lemma run_files_services (sv sv' : Services) fl Q sent logged fs :
  (forall o, cli.Encode sv o = cli.Encode sv' o) ->
  (forall q s mm, cli.SendMessage sv q s mm = cli.SendMessage sv' q s mm) ->
  run_files sv fl Q sent logged fs = run_files sv' fl Q sent logged fs.
Proof.
  intros He Hs. revert sent logged. induction fs as [|f fs IH]; intros sent logged.
  - reflexivity.
  - cbn [cli.run_files].
    destruct (DecodeHilltopFile os_Open xml_Decode f) as [[h|] [err|]];
      try reflexivity.
    destruct (Observations Local ParseFloat h _ _ _) as [[obs [err|]] skipped];
      [reflexivity|].
    rewrite (send_observations_services sv sv' fl Q _ _ obs He Hs).
    destruct (cli.send_observations sv' fl Q _ _ obs) as [[s l]|r]; [apply IH|reflexivity].
Qed.

(** X19: the region and the queue of the command line come before
    those of the environment: with both given as flags, [main] reads
    neither [AWS_FITS_REGION] nor [AWS_FITS_QUEUE], and the run is the
    same in any two environments in which [aws.GetAuth] finds the same
    credentials; with no region given as a flag, it is the variable
    [AWS_FITS_REGION] that is read, and with nothing in it either, the
    run (unless it is a dry run) ends before any file is opened. *)
Theorem flags_come_before_the_environment (sv : Services) fl getenv :
  cli.method fl <> EmptyString ->
  cli.network fl <> EmptyString ->
  (cli.region fl <> EmptyString -> cli.queue fl <> EmptyString ->
   cli.GetAuth sv getenv (cli.key fl) (cli.secret fl)
   = cli.GetAuth sv (cli.Getenv sv) (cli.key fl) (cli.secret fl) ->
   main (with_Getenv sv getenv) fl = main sv fl)
  /\ (cli.dryrun fl = false -> cli.region fl = EmptyString ->
      cli.Getenv sv "AWS_FITS_REGION" = EmptyString ->
      main sv fl = {| cli.sent := []; cli.logged := [];
                      cli.exit := cli.fatalf cli.unable_to_find_region |}).
Proof.
  intros Hm Hn. apply String.eqb_neq in Hm, Hn. unfold cli.main. rewrite Hm, Hn. split.
  - intros Hr Hq Ha. apply String.eqb_neq in Hr, Hq.
    assert (E : cli.setup_queue (with_Getenv sv getenv) fl = cli.setup_queue sv fl).
    { unfold cli.setup_queue. rewrite Hr, Hq.
      cbn [with_Getenv cli.dryrun cli.Getenv cli.GetRegion cli.GetAuth cli.New
           cli.GetQueue].
      now rewrite Hr, Hq, Ha. }
    rewrite E. destruct (cli.setup_queue sv fl) as [Q|why]; [|reflexivity].
    apply run_files_services; reflexivity.
  - intros Hd Hr He. unfold cli.setup_queue. rewrite Hd, Hr, He. reflexivity.
Qed.

End CommandFacts.

(** ** The command: unreadable files and the log *)

Section CommandMore.

Variable Local : time.Location.
Variable ParseFloat : string -> Z -> result float64 strconv.NumError.
Variable File : Type.
Variable os_Open : string -> result File error.
Variable xml_Decode : File -> result Hilltop error.
Variables Region Auth SQS Queue : Type.

Abbreviation Services := (cli.Services Region Auth SQS Queue).
Abbreviation main := (cli.main Local ParseFloat os_Open xml_Decode).
Abbreviation run_files := (cli.run_files Local ParseFloat os_Open xml_Decode).
Abbreviation file_messages := (file_messages Local ParseFloat os_Open xml_Decode).

(** X21: of the two ways in which a file can fail to be read, the
    command reports one: a file that opens and does not decode ends the
    run with the message of the decoder; a file that does not open ends
    it on the nil document, with no message. In both cases the messages
    of the files before it have been sent. *)
Theorem unreadable_file_ends_the_run (sv : Services) fl Q pre f post mss :
  cli.method fl <> EmptyString ->
  cli.network fl <> EmptyString ->
  cli.setup_queue sv fl = Ok Q ->
  (forall q sent mm, cli.SendMessage sv q sent mm = None) ->
  cli.Args fl = pre ++ f :: post ->
  Forall2 (fun f ms => file_messages sv fl f = Some ms) pre mss ->
  (forall err, os_Open f = Err err ->
     cli.exit (main sv fl) = cli.nil_dereference)
  /\ (forall xmlFile err, os_Open f = Ok xmlFile -> xml_Decode xmlFile = Err err ->
        cli.exit (main sv fl)
        = cli.fatalf (cli.unable_to_decode_hilltop_xml_file f err))
  /\ (fst (DecodeHilltopFile os_Open xml_Decode f) = None ->
      cli.sent (main sv fl) = if cli.dryrun fl then [] else concat mss).
Proof.
  intros Hm Hn HQ Hs Ha Hf. unfold cli.main.
  apply String.eqb_neq in Hm, Hn. rewrite Hm, Hn, HQ, Ha.
  assert (Hw : sending_works sv fl Q).
  { split; [|exact Hs].
    exact (setup_queue_found Region Auth SQS Queue sv fl Q HQ). }
  destruct (run_files_through Local ParseFloat File os_Open xml_Decode
              Region Auth SQS Queue sv fl Q [] [] pre mss (f :: post) Hw Hf) as [l E].
  rewrite E. clear E. cbn [cli.run_files]. unfold DecodeHilltopFile.
  repeat split.
  - intros err Ho. rewrite Ho. reflexivity.
  - intros xmlFile err Ho Hd. rewrite Ho, Hd. reflexivity.
  - destruct (os_Open f) as [xmlFile|err].
    + destruct (xml_Decode xmlFile) as [h|err]; [discriminate|].
      intros _. cbn. destruct (cli.dryrun fl); reflexivity.
    + intros _. cbn. destruct (cli.dryrun fl); reflexivity.
Qed.

(** Without [-verbose], the loop over the observations logs nothing. *)
Lemma send_observations_quiet (sv : Services) fl Q sent logged obs :
  cli.verbose fl = false ->
  match cli.send_observations sv fl Q sent logged obs with
  | Ok (_, logged') => logged' = logged
  | Err run => cli.logged run = logged
  end.
Proof.
  intros Hv. revert sent. induction obs as [|o obs IH]; intros sent; [reflexivity|].
  cbn [cli.send_observations]. rewrite Hv.
  destruct (cli.Encode sv o) as [mm|err]; [|reflexivity].
  destruct (cli.dryrun fl); cbn [negb].
  - apply IH.
  - destruct Q as [q|]; [|reflexivity].
    destruct (cli.SendMessage sv q sent mm); [reflexivity|apply IH].
Qed.

Lemma run_files_quiet (sv : Services) fl Q sent logged fs :
  cli.verbose fl = false ->
  Forall (fun l => exists s, l = cli.skipping s) logged ->
  Forall (fun l => exists s, l = cli.skipping s)
         (cli.logged (run_files sv fl Q sent logged fs)).
Proof.
  intros Hv. revert sent logged.
  induction fs as [|f fs IH]; intros sent logged Hl; [exact Hl|].
  cbn [cli.run_files]. rewrite Hv.
  assert (Hs : forall skipped,
             Forall (fun l => exists s, l = cli.skipping s)
                    (logged ++ map cli.skipping skipped)).
  { intros skipped. apply Forall_app. split; [exact Hl|].
    induction skipped as [|s skipped IHs]; constructor; eauto. }
  destruct (DecodeHilltopFile os_Open xml_Decode f) as [[h|] [err|]];
    try exact Hl.
  destruct (Observations Local ParseFloat h _ _ _) as [[obs [err|]] skipped];
    [apply Hs|].
  pose proof (send_observations_quiet sv fl Q sent
                (logged ++ map cli.skipping skipped) obs Hv) as Hq.
  destruct (cli.send_observations sv fl Q sent _ obs) as [[sent' logged']|run].
  - subst logged'. apply IH, Hs.
  - rewrite Hq. apply Hs.
Qed.

(** X22: without the flag [-verbose], the only lines a run logs before
    it ends are those of the measurements that [Observations] skips. *)
Theorem quiet_run_logs_skipped_measurements_only (sv : Services) fl :
  cli.verbose fl = false ->
  Forall (fun l => exists s, l = cli.skipping s) (cli.logged (main sv fl)).
Proof.
  intros Hv. unfold cli.main.
  destruct (String.eqb (cli.method fl) EmptyString); [constructor|].
  destruct (String.eqb (cli.network fl) EmptyString); [constructor|].
  destruct (cli.setup_queue sv fl) as [Q|why]; [|constructor].
  apply run_files_quiet; [exact Hv|constructor].
Qed.

End CommandMore.

(** ** The rest of the program on the samples *)

(** [-site Place=PLACE=CODE]: the code is all that follows the first
    [=]. *)
Lemma Set_then_lookup_witness :
  snd (HilltopSites_Set NewHilltopSites (site_flag "Place" "PLACE=CODE")) = None
  /\ Sites (fst (HilltopSites_Set NewHilltopSites (site_flag "Place" "PLACE=CODE")))
       !! "Place" = Some "PLACE=CODE".
Proof.
  destruct (Set_then_lookup NewHilltopSites "Place" "PLACE=CODE") as (H1 & H2 & _).
  - reflexivity.
  - split; [exact H1|exact H2].
Defined.

(** No flag makes the site [A=B] known. *)
Lemma Set_never_registers_witness :
  Sites (Set_each NewHilltopSites ["A=B=CODE"; "A=B"]) !! SiteName equals_measurement
  = None.
Proof.
  destruct (Set_never_registers_a_name_with_equals_sign NZST ParseFloat_sample
              ["A=B=CODE"; "A=B"] doc_readme equals_measurement "NT" "M") as [H _].
  - reflexivity.
  - exact H.
Defined.

Lemma Set_twice_witness :
  Set_each NewHilltopSites [site_flag "Place" "OLD"; site_flag "Place" "PLACE_CODE"]
  = Set_each NewHilltopSites [site_flag "Place" "PLACE_CODE"].
Proof.
  destruct (Set_twice NewHilltopSites "Place" "Other" "OLD" "PLACE_CODE") as [H _].
  - reflexivity.
  - reflexivity.
  - exact H.
Defined.

(** The measurement of the README after [-site Place=PLACE_CODE]. *)
Lemma Set_then_Observations_witness :
  exists values,
    Values NZST ParseFloat_sample readme_measurement = (values, None)
    /\ Observations NZST ParseFloat_sample doc_readme
         (fst (HilltopSites_Set NewHilltopSites
                 (site_flag (SiteName readme_measurement) "PLACE_CODE"))) "NT" "M"
       = (map (Observation_of "NT" "PLACE_CODE" "t" "M") values, None, []).
Proof.
  eexists. split; [vm_compute; reflexivity|].
  apply (Set_then_Observations NZST ParseFloat_sample NewHilltopSites doc_readme
           readme_measurement "PLACE_CODE" "t").
  - reflexivity.
  - vm_compute. reflexivity.
  - vm_compute. reflexivity.
  - reflexivity.
Defined.

(** A run without [-site] flags on the document whose second measurement
    does not parse. *)
Lemma Observations_without_known_sites_witness :
  Observations NZST ParseFloat_sample doc_good_then_bad NewHilltopSites "NT" "M"
  = ([], None, [skipping_unknown_site "Place"; skipping_unknown_site "Place"]).
Proof.
  apply (Observations_without_known_sites NZST ParseFloat_sample doc_good_then_bad
           NewHilltopSites "NT" "M").
  constructor; [reflexivity|]. constructor; [reflexivity|]. constructor.
Defined.

Lemma Observations_of_parts_witness :
  Observations NZST ParseFloat_sample doc_two_by_two sites_Place "NT" "M" =
  match Observations NZST ParseFloat_sample
          (with_measurements doc_two_by_two [two_line_measurement "Place" "Rainfall"])
          sites_Place "NT" "M" with
  | (msgs, None, logged) =>
      (msgs ++ fst (fst (Observations NZST ParseFloat_sample
                           (with_measurements doc_two_by_two [filler_measurement])
                           sites_Place "NT" "M")),
       snd (fst (Observations NZST ParseFloat_sample
                   (with_measurements doc_two_by_two [filler_measurement])
                   sites_Place "NT" "M")),
       logged ++ snd (Observations NZST ParseFloat_sample
                        (with_measurements doc_two_by_two [filler_measurement])
                        sites_Place "NT" "M"))
  | r => r
  end.
Proof.
  apply (Observations_of_parts NZST ParseFloat_sample doc_two_by_two sites_Place
           "NT" "M" [two_line_measurement "Place" "Rainfall"] [filler_measurement]).
  reflexivity.
Defined.

(** The line of the README with a comment after the value. *)
Lemma Values_ignores_witness :
  Values NZST ParseFloat_sample
    (with_lines readme_measurement
       ([] ++ [" 27-May-15 21:30:00 2.300000" +:+ " " +:+ "checked by hand"]))
  = Values NZST ParseFloat_sample readme_measurement.
Proof.
  destruct (Values_ignores_what_follows_the_third_token NZST ParseFloat_sample
              readme_measurement [] " 27-May-15 21:30:00 2.300000" []
              "checked by hand") as [_ H].
  - reflexivity.
  - vm_compute. lia.
  - exact H.
Defined.

(** The line of the README with two spaces after the date. *)
Lemma Values_fails_on_a_double_space_witness :
  exists e,
    Values_from NZST ParseFloat_sample "UTC" []
      [spaces 1 +:+ date_token civil_readme +:+ "  " +:+ "21:30:00 2.300000"]
    = ([], Some (time_ParseError e)).
Proof.
  apply (Values_fails_on_a_double_space NZST ParseFloat_sample "UTC" 1 civil_readme
           "21:30:00 2.300000" [] []).
  cbv. repeat split; discriminate.
Defined.

(** A dry run on the sample file. *)
Lemma dry_run_sends_nothing_witness :
  cli.sent (cli.main NZST ParseFloat_sample (os_Open_one "obs.xml" doc_two_by_two)
              xml_Decode_id sample_services (sample_flags true ["obs.xml"])) = [].
Proof.
  destruct (dry_run_sends_nothing NZST ParseFloat_sample Hilltop
              (os_Open_one "obs.xml" doc_two_by_two) xml_Decode_id
              string unit unit string sample_services sample_services
              (sample_flags true ["obs.xml"])) as [H _].
  - reflexivity.
  - reflexivity.
  - exact H.
Defined.

(** The sample file given twice. *)
Lemma run_sends_the_messages_witness :
  cli.exit (cli.main NZST ParseFloat_sample (os_Open_one "obs.xml" doc_two_by_two)
              xml_Decode_id sample_services
              (sample_flags false ["obs.xml"; "obs.xml"])) = cli.returned
  /\ cli.sent (cli.main NZST ParseFloat_sample (os_Open_one "obs.xml" doc_two_by_two)
                 xml_Decode_id sample_services
                 (sample_flags false ["obs.xml"; "obs.xml"]))
     = concat [["PLACE_CODE/rn"; "PLACE_CODE/rn"; "PLACE_CODE/t"; "PLACE_CODE/t"];
               ["PLACE_CODE/rn"; "PLACE_CODE/rn"; "PLACE_CODE/t"; "PLACE_CODE/t"]].
Proof.
  apply (run_sends_the_messages_of_the_files_in_order NZST ParseFloat_sample Hilltop
           (os_Open_one "obs.xml" doc_two_by_two) xml_Decode_id
           string unit unit string sample_services
           (sample_flags false ["obs.xml"; "obs.xml"]) (Some "fits")).
  - discriminate.
  - discriminate.
  - reflexivity.
  - reflexivity.
  - constructor; [vm_compute; reflexivity|].
    constructor; [vm_compute; reflexivity|]. constructor.
Defined.

(** The sample file, a file that is not there, and the sample file
    again. *)
Lemma run_stops_witness :
  cli.exit (cli.main NZST ParseFloat_sample (os_Open_one "obs.xml" doc_two_by_two)
              xml_Decode_id sample_services
              (sample_flags false ["obs.xml"; "missing.xml"; "obs.xml"]))
    <> cli.returned
  /\ cli.sent (cli.main NZST ParseFloat_sample (os_Open_one "obs.xml" doc_two_by_two)
                 xml_Decode_id sample_services
                 (sample_flags false ["obs.xml"; "missing.xml"; "obs.xml"]))
     = concat [["PLACE_CODE/rn"; "PLACE_CODE/rn"; "PLACE_CODE/t"; "PLACE_CODE/t"]].
Proof.
  destruct (run_stops_at_the_first_failure NZST ParseFloat_sample Hilltop
              (os_Open_one "obs.xml" doc_two_by_two) xml_Decode_id
              string unit unit string sample_services
              (sample_flags false ["obs.xml"; "missing.xml"; "obs.xml"]) (Some "fits")
              ["obs.xml"] "missing.xml" ["obs.xml"]
              [["PLACE_CODE/rn"; "PLACE_CODE/rn"; "PLACE_CODE/t"; "PLACE_CODE/t"]])
    as [H _].
  - discriminate.
  - discriminate.
  - reflexivity.
  - reflexivity.
  - reflexivity.
  - constructor; [vm_compute; reflexivity|constructor].
  - apply H. vm_compute. reflexivity.
Defined.

(** With a region and a queue on the command line, an environment that
    names others and holds the same access key changes nothing; without
    a region anywhere, the run ends at once. *)
Lemma flags_come_before_the_environment_witness :
  cli.main NZST ParseFloat_sample (os_Open_one "obs.xml" doc_two_by_two) xml_Decode_id
    (with_Getenv sample_services
       (fun v => if String.eqb v "AWS_ACCESS_KEY_ID" then "AKIDEXAMPLE"
                 else "elsewhere"))
    (sample_flags false ["obs.xml"])
  = cli.main NZST ParseFloat_sample (os_Open_one "obs.xml" doc_two_by_two)
      xml_Decode_id sample_services (sample_flags false ["obs.xml"])
  /\ cli.main NZST ParseFloat_sample (os_Open_one "obs.xml" doc_two_by_two)
       xml_Decode_id sample_services sample_flags_no_region
     = {| cli.sent := []; cli.logged := [];
          cli.exit := cli.fatalf cli.unable_to_find_region |}.
Proof.
  split.
  - destruct (flags_come_before_the_environment NZST ParseFloat_sample Hilltop
                (os_Open_one "obs.xml" doc_two_by_two) xml_Decode_id
                string unit unit string sample_services
                (sample_flags false ["obs.xml"])
                (fun v => if String.eqb v "AWS_ACCESS_KEY_ID" then "AKIDEXAMPLE"
                          else "elsewhere")) as [H _].
    + discriminate.
    + discriminate.
    + apply H; [discriminate|discriminate|reflexivity].
  - destruct (flags_come_before_the_environment NZST ParseFloat_sample Hilltop
                (os_Open_one "obs.xml" doc_two_by_two) xml_Decode_id
                string unit unit string sample_services
                sample_flags_no_region (fun _ => EmptyString)) as [_ H].
    + discriminate.
    + discriminate.
    + apply H; reflexivity.
Defined.

(** The document with a measurement of a site that is not in the
    table. *)
Lemma Observations_logs_each_skipped_measurement_witness :
  snd (Observations NZST ParseFloat_sample doc_with_unknown_site sites_Place "NT" "M")
    = omap (skip_line sites_Place) (Measurement doc_with_unknown_site)
  /\ (length (snd (Observations NZST ParseFloat_sample doc_with_unknown_site
                     sites_Place "NT" "M"))
      + length (List.filter (mapped sites_Place) (Measurement doc_with_unknown_site))
      = length (Measurement doc_with_unknown_site))%nat.
Proof.
  apply (Observations_logs_each_skipped_measurement NZST ParseFloat_sample
           doc_with_unknown_site sites_Place "NT" "M").
  vm_compute. reflexivity.
Defined.

(** The sample file, a file that is not there, and the sample file
    again: the run ends on the nil document. *)
Lemma unreadable_file_ends_the_run_witness :
  cli.exit (cli.main NZST ParseFloat_sample (os_Open_one "obs.xml" doc_two_by_two)
              xml_Decode_id sample_services
              (sample_flags false ["obs.xml"; "missing.xml"; "obs.xml"]))
  = cli.nil_dereference.
Proof.
  destruct (unreadable_file_ends_the_run NZST ParseFloat_sample Hilltop
              (os_Open_one "obs.xml" doc_two_by_two) xml_Decode_id
              string unit unit string sample_services
              (sample_flags false ["obs.xml"; "missing.xml"; "obs.xml"]) (Some "fits")
              ["obs.xml"] "missing.xml" ["obs.xml"]
              [["PLACE_CODE/rn"; "PLACE_CODE/rn"; "PLACE_CODE/t"; "PLACE_CODE/t"]])
    as [H _].
  - discriminate.
  - discriminate.
  - reflexivity.
  - reflexivity.
  - reflexivity.
  - constructor; [vm_compute; reflexivity|constructor].
  - eapply H. vm_compute. reflexivity.
Defined.

Lemma quiet_run_witness :
  Forall (fun l => exists s, l = cli.skipping s)
    (cli.logged (cli.main NZST ParseFloat_sample
                   (os_Open_one "obs.xml" doc_with_unknown_site) xml_Decode_id
                   sample_services (sample_flags false ["obs.xml"]))).
Proof.
  apply (quiet_run_logs_skipped_measurements_only NZST ParseFloat_sample Hilltop
           (os_Open_one "obs.xml" doc_with_unknown_site) xml_Decode_id
           string unit unit string sample_services (sample_flags false ["obs.xml"])).
  reflexivity.
Defined.
